(** * wireguard_manage: the session engine, the user admin and the allocator

    A shallow embedding of the modular tree under [server/]:
    [utils/helpers.py], [db/database.py], [statistics/stats_manager.py],
    [wireguard_interface/wg_commands.py], [user_management/user_manager.py],
    [session_monitor/session_handler.py] and the mutating handlers of
    [api/api_server.py].

    Conventions of the embedding.
    - Python [int] is [Z]; [time.time()] is a rational [Q] (a float is a
      dyadic rational; the differences taken by the code are exact at the
      magnitudes of a wall clock).
    - [str] is [string], holding the UTF-8 bytes of the text.  The patterns
      and alphabets of the code that accept ASCII only are matched on the
      bytes; [int] and [strptime], which accept the decimal digits and the
      whitespace of Unicode, are matched on the decoded characters, with
      the tables of Unicode 14.0 (those of Python 3.11).
    - The body of a request is any value [json.loads] can return ([pyval]):
      the handlers are given on all of them, with the [TypeError]s Python
      raises where the code takes a value for a str or a dict.
    - An SQLite table is the list of its rows in rowid order, with the
      AUTOINCREMENT counter kept beside it; a TEXT column is [option string]
      ([None] is NULL); the two limits of a user, which the API fills with
      whatever the request holds, are [sqlval].  Values are bound and stored
      as the [sqlite3] module and the column affinities of SQLite do it;
      UNIQUE and CHECK constraints raise, as SQLite does.  Failures of the
      database file itself (locked, disk full) are not modelled.
    - [user_sessions], a Python dict, is an association list in insertion
      order.
    - The clock is read once per call of an operation: every
      [datetime.now()], [get_current_timestamp()] and [time.time()] inside one
      call sees the reading passed in as [clock].
    - The monitor and the API run on two threads.  A run ([step]) takes the
      operations one after the other; the one place where the claims speak
      of two operations that overlap, two closes of one peer, is modelled
      step by step ([offline_step], [interleave]). *)

From Stdlib Require Import ZArith QArith List String Ascii Bool Lia Lqa.
From Stdlib Require Import Permutation DecimalString.
From Stdlib Require DecimalPos.
Import ListNotations.
Local Open Scope string_scope.
Local Open Scope Z_scope.

(* ===================================================================== *)
(** ** Python primitives used by the code *)
(* ===================================================================== *)

Module Py.

Definition chars (s : string) : list ascii := list_ascii_of_string s.
Definition str (l : list ascii) : string := string_of_list_ascii l.

Definition code (c : ascii) : Z := Z.of_N (N_of_ascii c).

Definition in_range (lo hi : ascii) (c : ascii) : bool :=
  (code lo <=? code c) && (code c <=? code hi).

Definition is_digit (c : ascii) : bool := in_range "0" "9" c.
Definition is_alpha (c : ascii) : bool := in_range "a" "z" c || in_range "A" "Z" c.
Definition is_alnum (c : ascii) : bool := is_alpha c || is_digit c.
Definition is_char (a c : ascii) : bool := Ascii.eqb a c.

(** The whitespace [int()] skips: TAB LF VT FF CR and the space. *)
Definition is_c_space (c : ascii) : bool :=
  ((9 <=? code c) && (code c <=? 13)) || (code c =? 32).

(** [\s] of [re] on ASCII: the above and FS GS RS US. *)
Definition is_space (c : ascii) : bool :=
  ((9 <=? code c) && (code c <=? 13)) || ((28 <=? code c) && (code c <=? 32)).

Definition digit_val (c : ascii) : Z := code c - 48.

(** [str(n)] and the [{n}] of an f-string, for an [int]. *)
Definition str_of_int (n : Z) : string := NilZero.string_of_int (Z.to_int n).

(** *** Text outside ASCII

    A [str] is held as its UTF-8 bytes.  [decode] gives its characters as
    code points, and [None] for bytes that are no text. *)

Definition cont (b : ascii) : bool := (128 <=? code b) && (code b <? 192).

Fixpoint decode (s : list ascii) : option (list Z) :=
  match s with
  | [] => Some []
  | b1 :: s1 =>
      if code b1 <? 128 then option_map (cons (code b1)) (decode s1)
      else
        match s1 with
        | [] => None
        | b2 :: s2 =>
            if (194 <=? code b1) && (code b1 <? 224) then
              if cont b2
              then option_map (cons ((code b1 - 192) * 64 + (code b2 - 128))) (decode s2)
              else None
            else
              match s2 with
              | [] => None
              | b3 :: s3 =>
                  if (224 <=? code b1) && (code b1 <? 240) then
                    let cp := (code b1 - 224) * 4096 + (code b2 - 128) * 64
                              + (code b3 - 128) in
                    if cont b2 && cont b3 && (2048 <=? cp)
                       && negb ((55296 <=? cp) && (cp <? 57344))
                    then option_map (cons cp) (decode s3)
                    else None
                  else
                    match s3 with
                    | [] => None
                    | b4 :: s4 =>
                        let cp := (code b1 - 240) * 262144 + (code b2 - 128) * 4096
                                  + (code b3 - 128) * 64 + (code b4 - 128) in
                        if (240 <=? code b1) && (code b1 <? 245)
                           && cont b2 && cont b3 && cont b4
                           && (65536 <=? cp) && (cp <? 1114112)
                        then option_map (cons cp) (decode s4)
                        else None
                    end
              end
        end
  end.

(** The decimal digits of Unicode 14.0 (the tables of Python 3.11), as
    runs: first code point and length.  Every run starts at a digit zero. *)
Definition decimal_blocks : list (Z * Z) :=
  [(48, 10); (1632, 10); (1776, 10); (1984, 10); (2406, 10); (2534, 10);
   (2662, 10); (2790, 10); (2918, 10); (3046, 10); (3174, 10); (3302, 10);
   (3430, 10); (3558, 10); (3664, 10); (3792, 10); (3872, 10); (4160, 10);
   (4240, 10); (6112, 10); (6160, 10); (6470, 10); (6608, 10); (6784, 10);
   (6800, 10); (6992, 10); (7088, 10); (7232, 10); (7248, 10); (42528, 10);
   (43216, 10); (43264, 10); (43472, 10); (43504, 10); (43600, 10);
   (44016, 10); (65296, 10); (66720, 10); (68912, 10); (69734, 10);
   (69872, 10); (69942, 10); (70096, 10); (70384, 10); (70736, 10);
   (70864, 10); (71248, 10); (71360, 10); (71472, 10); (71904, 10);
   (72016, 10); (72784, 10); (73040, 10); (73120, 10); (92768, 10);
   (92864, 10); (93008, 10); (120782, 50); (123200, 10); (123632, 10);
   (125264, 10); (130032, 10)].

(** The value of a decimal digit; [None] for any other character. *)
Definition decimal_value (cp : Z) : option Z :=
  match find (fun b => (fst b <=? cp) && (cp <? fst b + snd b)) decimal_blocks with
  | Some b => Some ((cp - fst b) mod 10)
  | None => None
  end.

(** [\d] of [re] on a [str]. *)
Definition is_decimal (cp : Z) : bool :=
  match decimal_value cp with Some _ => true | None => false end.

(** [\s] of [re] on a [str], and [str.isspace]. *)
Definition is_uspace (cp : Z) : bool :=
  ((9 <=? cp) && (cp <=? 13)) || ((28 <=? cp) && (cp <=? 32))
  || (cp =? 133) || (cp =? 160) || (cp =? 5760)
  || ((8192 <=? cp) && (cp <=? 8202))
  || (cp =? 8232) || (cp =? 8233) || (cp =? 8239) || (cp =? 8287) || (cp =? 12288).

(** *** [int(s)] in base ten

    Surrounding whitespace is dropped, one sign is allowed, and the digits
    may be grouped by single underscores.  [None] is [ValueError]. *)

Fixpoint lstrip (l : list ascii) : list ascii :=
  match l with
  | c :: l' => if is_c_space c then lstrip l' else l
  | [] => []
  end.

Definition strip (l : list ascii) : list ascii := rev (lstrip (rev (lstrip l))).

(** [digits acc prev_digit l]: [prev_digit] tells whether the previous
    character was a digit (an underscore must sit between two digits). *)
Fixpoint digits (acc : Z) (prev_digit : bool) (l : list ascii) : option Z :=
  match l with
  | [] => if prev_digit then Some acc else None
  | c :: l' =>
      if is_digit c then digits (10 * acc + digit_val c) true l'
      else if is_char "_" c && prev_digit then
        match l' with
        | d :: _ => if is_digit d then digits acc false l' else None
        | [] => None
        end
      else None
  end.

Definition int_chars (l : list ascii) : option Z :=
  match strip l with
  | c :: l' =>
      if is_char "-" c then option_map Z.opp (digits 0 false l')
      else if is_char "+" c then digits 0 false l'
      else digits 0 false (c :: l')
  | [] => None
  end.

(** Before it reads the digits, [int] turns every character outside ASCII
    into ASCII: whitespace into a space, a decimal digit into the ASCII
    digit of its value; any other character is refused. *)
Definition ascii_of_cp (cp : Z) : option ascii :=
  if cp <? 128 then Some (ascii_of_N (Z.to_N cp))
  else if is_uspace cp then Some " "%char
  else option_map (fun v => ascii_of_N (Z.to_N (48 + v))) (decimal_value cp).

Fixpoint to_ascii (l : list Z) : option (list ascii) :=
  match l with
  | [] => Some []
  | cp :: l' =>
      match ascii_of_cp cp, to_ascii l' with
      | Some a, Some r => Some (a :: r)
      | _, _ => None
      end
  end.

Definition int_cps (l : list Z) : option Z :=
  match to_ascii l with
  | Some a => int_chars a
  | None => None
  end.

Definition int (s : string) : option Z :=
  match decode (chars s) with
  | Some l => int_cps l
  | None => None
  end.

(** *** [s.split(sep)] for a one-character separator *)

Fixpoint split_chars (sep : ascii) (cur : list ascii) (l : list ascii) : list string :=
  match l with
  | [] => [str (rev cur)]
  | c :: l' =>
      if Ascii.eqb c sep then str (rev cur) :: split_chars sep [] l'
      else split_chars sep (c :: cur) l'
  end.

Definition split (sep : ascii) (s : string) : list string := split_chars sep [] (chars s).

(** *** [list.sort()] on strings: code-point order, by insertion *)

Fixpoint insert_sorted (x : string) (l : list string) : list string :=
  match l with
  | [] => [x]
  | y :: l' => if String.leb x y then x :: l else y :: insert_sorted x l'
  end.

Definition sort (l : list string) : list string := fold_right insert_sorted [] l.

(** *** A backtracking matcher for the patterns of [re]

    [m r s k] tries the alternatives of [r] on [s] in the order Python's
    [re] tries them and hands what is left of [s] to the continuation [k];
    when [k] fails the next alternative is tried. *)

Inductive re (C : Type) : Type :=
| Cls (p : C -> bool)
| Cat (r1 r2 : re C)
| Alt (r1 r2 : re C)
| Star (p : C -> bool).
Arguments Cls {C} p.
Arguments Cat {C} r1 r2.
Arguments Alt {C} r1 r2.
Arguments Star {C} p.

(** The characters are bytes ([C] is [ascii]) for the patterns that accept
    ASCII only, and code points ([C] is [Z]) for those with [\d] or [\s]. *)
Section Matcher.
Context {C A : Type}.

Fixpoint star (p : C -> bool) (s : list C) (k : list C -> option A) : option A :=
  match s with
  | c :: s' =>
      if p c then
        match star p s' k with
        | Some a => Some a
        | None => k s
        end
      else k s
  | [] => k []
  end.

Fixpoint m (r : re C) (s : list C) (k : list C -> option A) : option A :=
  match r with
  | Cls p => match s with
             | c :: s' => if p c then k s' else None
             | [] => None
             end
  | Cat r1 r2 => m r1 s (fun s1 => m r2 s1 k)
  | Alt r1 r2 => match m r1 s k with
                 | Some a => Some a
                 | None => m r2 s k
                 end
  | Star p => star p s k
  end.

(** A group: the continuation also gets the text the group consumed. *)
Definition group (r : re C) (s : list C) (k : list C -> list C -> option A) : option A :=
  m r s (fun rest => k (firstn (List.length s - List.length rest)%nat s) rest).
End Matcher.

Definition Plus {C : Type} (p : C -> bool) : re C := Cat (Cls p) (Star p).
Definition Lit (c : ascii) : re ascii := Cls (is_char c).

(** A literal character and a range, on code points. *)
Definition lit (c : ascii) : re Z := Cls (Z.eqb (code c)).
Definition between (lo hi : ascii) (cp : Z) : bool := (code lo <=? cp) && (cp <=? code hi).

(** [$]: the end of the string, or just before a final newline. *)
Definition at_dollar (rest : list ascii) : bool :=
  match rest with
  | [] => true
  | [c] => code c =? 10
  | _ => false
  end.

(** *** [datetime]: naive local date and time *)

Record datetime : Type := mk_datetime {
  year : Z; month : Z; day : Z;
  hour : Z; minute : Z; second : Z; microsecond : Z
}.

Definition is_leap (y : Z) : bool :=
  (y mod 4 =? 0) && (negb (y mod 100 =? 0) || (y mod 400 =? 0)).

Definition days_in_month (y mo : Z) : Z :=
  if mo =? 2 then (if is_leap y then 29 else 28)
  else if (mo =? 4) || (mo =? 6) || (mo =? 9) || (mo =? 11) then 30
  else 31.

Definition days_before_year (y : Z) : Z :=
  let y1 := y - 1 in y1 * 365 + y1 / 4 - y1 / 100 + y1 / 400.

Definition days_before_month (y mo : Z) : Z :=
  fold_right Z.add 0 (map (days_in_month y) (map Z.of_nat (seq 1 (Z.to_nat (mo - 1))))).

Definition toordinal (d : datetime) : Z :=
  days_before_year (year d) + days_before_month (year d) (month d) + day d.

(** Microseconds since midnight of day 0 of the proleptic calendar. *)
Definition micros (d : datetime) : Z :=
  ((toordinal d * 86400) + hour d * 3600 + minute d * 60 + second d) * 1000000
  + microsecond d.

(** [a > b] on datetimes. *)
Definition dt_gt (a b : datetime) : bool := micros b <? micros a.

(** [int((a - b).total_seconds())]: the float holds the quotient exactly
    enough for [int] to truncate it as the exact quotient is truncated
    (differences below 2^33 seconds), so truncation is [Z.quot]. *)
Definition int_total_seconds (a b : datetime) : Z :=
  Z.quot (micros a - micros b) 1000000.

Definition pad2 (n : Z) : string :=
  if n <? 10 then "0" ++ str_of_int n else str_of_int n.

Definition pad4 (n : Z) : string :=
  if n <? 10 then "000" ++ str_of_int n
  else if n <? 100 then "00" ++ str_of_int n
  else if n <? 1000 then "0" ++ str_of_int n
  else str_of_int n.

(** [d.strftime("%Y-%m-%d")] *)
Definition strftime_date (d : datetime) : string :=
  pad4 (year d) ++ "-" ++ pad2 (month d) ++ "-" ++ pad2 (day d).

(** [d.strftime("%Y-%m-%d %H:%M:%S")] *)
Definition strftime (d : datetime) : string :=
  strftime_date d ++ " " ++ pad2 (hour d) ++ ":" ++ pad2 (minute d) ++ ":" ++ pad2 (second d).

(** The patterns [_strptime] builds for the directives of the format:
    [\d\d\d\d], [1[0-2]|0[1-9]|[1-9]], [3[0-1]|[1-2]\d|0[1-9]|[1-9]| [1-9]],
    [2[0-3]|[0-1]\d|\d], [[0-5]\d|\d] and [6[0-1]|[0-5]\d|\d].  They are
    matched on the characters of the text, and [\d] is any decimal digit. *)
Definition re_Y : re Z :=
  Cat (Cls is_decimal) (Cat (Cls is_decimal) (Cat (Cls is_decimal) (Cls is_decimal))).
Definition re_m : re Z :=
  Alt (Cat (lit "1") (Cls (between "0" "2")))
 (Alt (Cat (lit "0") (Cls (between "1" "9")))
      (Cls (between "1" "9"))).
Definition re_d : re Z :=
  Alt (Cat (lit "3") (Cls (between "0" "1")))
 (Alt (Cat (Cls (between "1" "2")) (Cls is_decimal))
 (Alt (Cat (lit "0") (Cls (between "1" "9")))
 (Alt (Cls (between "1" "9"))
      (Cat (lit " ") (Cls (between "1" "9")))))).
Definition re_H : re Z :=
  Alt (Cat (lit "2") (Cls (between "0" "3")))
 (Alt (Cat (Cls (between "0" "1")) (Cls is_decimal))
      (Cls is_decimal)).
Definition re_M : re Z :=
  Alt (Cat (Cls (between "0" "5")) (Cls is_decimal)) (Cls is_decimal).
Definition re_S : re Z :=
  Alt (Cat (lit "6") (Cls (between "0" "1")))
 (Alt (Cat (Cls (between "0" "5")) (Cls is_decimal))
      (Cls is_decimal)).

(** The first match of the compiled format on [s], in [re]'s priority
    order: the six groups and what the match left unread.  The space of the
    format is [\s+]. *)
Definition match_format (s : list Z)
  : option (list Z * list Z * list Z * list Z * list Z * list Z * list Z) :=
  group re_Y s (fun gY s1 =>
  m (lit "-") s1 (fun s2 =>
  group re_m s2 (fun gm s3 =>
  m (lit "-") s3 (fun s4 =>
  group re_d s4 (fun gd s5 =>
  m (Plus is_uspace) s5 (fun s6 =>
  group re_H s6 (fun gH s7 =>
  m (lit ":") s7 (fun s8 =>
  group re_M s8 (fun gM s9 =>
  m (lit ":") s9 (fun s10 =>
  group re_S s10 (fun gS rest =>
  Some (gY, gm, gd, gH, gM, gS, rest)))))))))))).

(** [datetime.strptime(s, "%Y-%m-%d %H:%M:%S")]; [None] is [ValueError]
    (no match, unconverted data, or a date or second out of range). *)
Definition strptime (s : string) : option datetime :=
  match decode (chars s) with
  | None => None
  | Some text =>
      match match_format text with
      | Some (gY, gm, gd, gH, gM, gS, rest) =>
          match rest with
          | _ :: _ => None
          | [] =>
              match int_cps gY, int_cps gm, int_cps gd,
                    int_cps gH, int_cps gM, int_cps gS with
              | Some y, Some mo, Some d, Some h, Some mi, Some se =>
                  if (1 <=? y) && (1 <=? mo) && (mo <=? 12)
                     && (1 <=? d) && (d <=? days_in_month y mo) && (se <=? 59)
                  then Some (mk_datetime y mo d h mi se 0)
                  else None
              | _, _, _, _, _, _ => None
              end
          end
      | None => None
      end
  end.

(** *** [base64.b64decode(s)] of a [str], as far as it raises or not

    [binascii.a2b_base64] in its default mode: characters outside the
    alphabet are skipped, a completed pad ends the input, and a quad left
    open at the end is an error. *)

Definition is_b64 (c : ascii) : bool := is_alnum c || is_char "+" c || is_char "/" c.

Fixpoint a2b_ok (quad_pos pads : Z) (l : list ascii) : bool :=
  match l with
  | [] => quad_pos =? 0
  | c :: l' =>
      if is_char "=" c then
        if (2 <=? quad_pos) && (4 <=? quad_pos + (pads + 1)) then true
        else a2b_ok quad_pos (if 2 <=? quad_pos then pads + 1 else pads) l'
      else if is_b64 c then a2b_ok ((quad_pos + 1) mod 4) 0 l'
      else a2b_ok quad_pos pads l'
  end.

Definition b64decode_ok (s : string) : bool :=
  forallb (fun c => code c <? 128) (chars s) && a2b_ok 0 0 (chars s).

End Py.


(* ===================================================================== *)
(** ** Exceptions and the clock *)
(* ===================================================================== *)

Inductive exn : Type :=
| ValueError (msg : string)
| RuntimeError (msg : string)
| IntegrityError (msg : string)
| IndexError (msg : string)
| TypeError (msg : string)
| OverflowError (msg : string)
| ProgrammingError (msg : string)
| UnicodeEncodeError (msg : string).

Inductive result (A : Type) : Type :=
| Ok (a : A)
| Raise (e : exn).
Arguments Ok {A} a.
Arguments Raise {A} e.

(** [str(e)] *)
Definition exn_str (e : exn) : string :=
  match e with
  | ValueError msg | RuntimeError msg | IntegrityError msg | IndexError msg
  | TypeError msg | OverflowError msg | ProgrammingError msg | UnicodeEncodeError msg => msg
  end.

Definition try {A B : Type} (r : result A) (k : A -> result B) : result B :=
  match r with
  | Ok a => k a
  | Raise e => Raise e
  end.

(** One reading of the clock: [time.time()] and [datetime.now()]. *)
Record clock : Type := mk_clock {
  time_time : Q;
  now : Py.datetime
}.

(* ===================================================================== *)
(** ** Values decoded from JSON *)
(* ===================================================================== *)

(** A Python [float]: not-a-number, an infinity, or a number.  (The two
    zeros are one number here: Python and SQLite treat them alike wherever
    the code looks at them.) *)
Inductive pyfloat : Type :=
| FNaN
| FInf (negative : bool)
| FNum (q : Q).

#[local] Set Warnings "-register-all".

(** What [json.loads] returns for the body of a request: any of these.  The
    keys of a dict are distinct and in the order of the text. *)
Inductive pyval : Type :=
| PNone
| PBool (b : bool)
| PInt (n : Z)
| PFloat (x : pyfloat)
| PStr (s : string)
| PList (l : list pyval)
| PDict (d : list (string * pyval)).

(** [type(v).__name__] *)
Definition type_name (v : pyval) : string :=
  match v with
  | PNone => "NoneType"
  | PBool _ => "bool"
  | PInt _ => "int"
  | PFloat _ => "float"
  | PStr _ => "str"
  | PList _ => "list"
  | PDict _ => "dict"
  end.

(** [bool(v)] *)
Definition py_truthy (v : pyval) : bool :=
  match v with
  | PNone => false
  | PBool b => b
  | PInt n => negb (n =? 0)
  | PFloat (FNum q) => negb (Qeq_bool q 0)
  | PFloat _ => true
  | PStr s => negb (String.eqb s "")
  | PList l => match l with [] => false | _ => true end
  | PDict d => match d with [] => false | _ => true end
  end.

(** [v == n] for an [int] [n] *)
Definition eq_int (v : pyval) (n : Z) : bool :=
  match v with
  | PBool b => (if b then 1 else 0) =? n
  | PInt m => m =? n
  | PFloat (FNum q) => Qeq_bool q (inject_Z n)
  | _ => false
  end.

(** [needle in hay] for two [str] *)
Fixpoint contains (needle hay : string) : bool :=
  String.prefix needle hay
  || match hay with
     | EmptyString => false
     | String _ hay' => contains needle hay'
     end.

(* ===================================================================== *)
(** ** utils/helpers.py *)
(* ===================================================================== *)

Definition get_current_timestamp (c : clock) : string := Py.strftime (now c).

Definition validate_pubkey (pubkey : string) : bool :=
  if (String.eqb pubkey "") || negb (Z.of_nat (String.length pubkey) =? 44) then false
  else Py.b64decode_ok (pubkey ++ "==").

Definition email_local (c : ascii) : bool :=
  Py.is_alnum c || Py.is_char "." c || Py.is_char "_" c || Py.is_char "%" c
  || Py.is_char "+" c || Py.is_char "-" c.

Definition email_domain (c : ascii) : bool :=
  Py.is_alnum c || Py.is_char "." c || Py.is_char "-" c.

(** [^[a-zA-Z0-9._%+-]+@[a-zA-Z0-9.-]+\.[a-zA-Z]{2,}$] *)
Definition email_pattern : Py.re ascii :=
  Py.Cat (Py.Plus email_local)
 (Py.Cat (Py.Lit "@")
 (Py.Cat (Py.Plus email_domain)
 (Py.Cat (Py.Lit ".")
 (Py.Cat (Py.Cls Py.is_alpha) (Py.Cat (Py.Cls Py.is_alpha) (Py.Star Py.is_alpha)))))).

Definition validate_email (email : string) : bool :=
  if String.eqb email "" then true
  else
    match Py.m email_pattern (Py.chars email)
            (fun rest => if Py.at_dollar rest then Some tt else None) with
    | Some _ => true
    | None => false
    end.

(** [validate_pubkey] on a value that need not be a [str].  [len] raises on
    a value without a length; on a list or a dict the concatenation with
    "==" raises inside the [try], which answers [False]. *)
Definition validate_pubkey_of (pubkey : pyval) : result bool :=
  if negb (py_truthy pubkey) then Ok false
  else
    match pubkey with
    | PStr s => Ok (validate_pubkey s)
    | PList _ | PDict _ => Ok false
    | _ => Raise (TypeError ("object of type '" ++ type_name pubkey ++ "' has no len()"))
    end.

(** [validate_email] on a value that need not be a [str]: [re.match] raises
    on anything else that is truthy. *)
Definition validate_email_of (email : pyval) : result bool :=
  if negb (py_truthy email) then Ok true
  else
    match email with
    | PStr s => Ok (validate_email s)
    | _ => Raise (TypeError ("expected string or bytes-like object, got '"
                             ++ type_name email ++ "'"))
    end.

(* ===================================================================== *)
(** ** db/database.py: the schema *)
(* ===================================================================== *)

(** A value as SQLite holds it: NULL, INTEGER, REAL or TEXT. *)
Inductive sqlval : Type :=
| SNull
| SInteger (n : Z)
| SReal (x : pyfloat)
| SText (s : string).

(** A 64-bit integer of SQLite. *)
Definition int64 (n : Z) : bool := (- 2 ^ 63 <=? n) && (n <? 2 ^ 63).

Record user : Type := mk_user {
  u_id : Z;
  peer_pubkey : string;
  client_ip : option string;
  nickname : option string;
  mail : option string;
  phone : option string;
  u_login_ip : option string;
  bandwidth_limit : sqlval;
  data_limit : sqlval;
  expiry_date : option string;
  u_status : Z;
  enabled : option Z;
  total_rx : Z;
  total_tx : Z;
  last_login : option string;
  note : option string;
  wg_config : option string;
  u_created_at : string;
  u_updated_at : string
}.

Inductive event_status : Type := ONLINE | OFFLINE.

Record event : Type := mk_event {
  e_id : Z;
  e_user_id : Z;
  start_time : string;
  end_time : option string;
  last_update : string;
  session_rx : Z;
  session_tx : Z;
  e_login_ip : option string;
  endpoint_info : option string;
  e_status : event_status;
  duration_seconds : Z
}.

Record traffic_stat : Type := mk_traffic_stat {
  t_id : Z;
  t_user_id : Z;
  t_date : string;
  daily_rx : Z;
  daily_tx : Z;
  session_count : Z;
  t_created_at : string;
  t_updated_at : string
}.

Record system_stat : Type := mk_system_stat {
  s_id : Z;
  s_date : string;
  total_users : Z;
  active_users : option Z;
  s_total_rx : option Z;
  s_total_tx : option Z;
  peak_concurrent : Z;
  avg_session_duration : Z;
  s_created_at : string;
  s_updated_at : string
}.

(** The four tables, each with its AUTOINCREMENT counter (the largest rowid
    ever handed out; the next row gets the counter plus one). *)
Record database : Type := mk_database {
  users : list user;
  users_seq : Z;
  events : list event;
  events_seq : Z;
  traffic_stats : list traffic_stat;
  traffic_stats_seq : Z;
  system_stats : list system_stat;
  system_stats_seq : Z
}.

Definition empty_db : database := mk_database [] 0 [] 0 [] 0 [] 0.

(** An entry of [user_sessions]. *)
Record session : Type := mk_session {
  event_id : Z;
  start_rx : Z;
  start_tx : Z;
  last_handshake : Z;
  s_user_id : Z;
  s_nickname : string
}.

(** An entry of the peer snapshot returned by [get_wg_peers]. *)
Record peer_info : Type := mk_peer_info {
  rx : Z;
  tx : Z;
  handshake : Z;
  endpoint : option string
}.

(** *** Python dicts keyed by strings, in insertion order *)

Section Dict.
Context {V : Type}.

Fixpoint dict_get (k : string) (d : list (string * V)) : option V :=
  match d with
  | [] => None
  | (k', v) :: d' => if String.eqb k' k then Some v else dict_get k d'
  end.

(** [d[k] = v]: an existing key keeps its place. *)
Fixpoint dict_set (k : string) (v : V) (d : list (string * V)) : list (string * V) :=
  match d with
  | [] => [(k, v)]
  | (k', v') :: d' =>
      if String.eqb k' k then (k, v) :: d' else (k', v') :: dict_set k v d'
  end.

(** [del d[k]] (the keys of a dict are distinct) *)
Definition dict_del (k : string) (d : list (string * V)) : list (string * V) :=
  filter (fun p => negb (String.eqb (fst p) k)) d.

Definition dict_keys (d : list (string * V)) : list string := map fst d.
End Dict.

(** *** What SQLite does to a value it stores

    A value bound to a statement is NULL, INTEGER, REAL or TEXT, and the
    column it goes into turns it into the kind the column prefers: a number
    into its text in a TEXT column, a numeric literal into its number and a
    REAL that is whole into an INTEGER in an INTEGER column.

    Two of these conversions are SQLite's own arithmetic and are not
    re-implemented: the text it prints for a REAL, and the REAL it reads
    from a literal with a fraction, an exponent or more than 64 bits.  The
    process carries them ([engine] below), no operation changes them, and
    every statement holds whatever they are. *)
Record sqlite : Type := mk_sqlite {
  real_text : pyfloat -> string;
  literal_real : string -> pyfloat
}.

(** The longest prefix of [l] whose characters satisfy [p], and the rest. *)
Fixpoint span (p : ascii -> bool) (l : list ascii) : list ascii * list ascii :=
  match l with
  | [] => ([], [])
  | c :: l' => if p c then let (a, b) := span p l' in (c :: a, b) else ([], l)
  end.

(** Whether a text is a numeric literal for SQLite ([sqlite3AtoF]): blanks,
    a sign, digits, a point and digits, an exponent with at least one digit,
    blanks; at least one digit before the exponent.  The answer is [None]
    for any other text, and otherwise whether the literal is a plain integer
    (no point, no exponent), its sign and the digits before the point. *)
Definition sql_literal (s : list ascii) : option (bool * bool * list ascii) :=
  match snd (span Py.is_c_space s) with
  | [] => None
  | c :: rest =>
      let negative := Ascii.eqb c "-" in
      let l := if Ascii.eqb c "-" || Ascii.eqb c "+" then rest else c :: rest in
      let (digits, l) := span Py.is_digit l in
      let '(fraction, point, l) :=
        match l with
        | "."%char :: l' => let (f, l'') := span Py.is_digit l' in (f, true, l'')
        | _ => ([], false, l)
        end in
      let '(exponent, exponent_ok, l) :=
        match l with
        | e :: l' =>
            if Ascii.eqb e "e" || Ascii.eqb e "E" then
              let l' := match l' with
                        | sg :: l'' =>
                            if Ascii.eqb sg "-" || Ascii.eqb sg "+" then l'' else l'
                        | [] => l'
                        end in
              let (ds, l'') := span Py.is_digit l' in
              (true, match ds with [] => false | _ => true end, l'')
            else (false, true, l)
        | [] => (false, true, l)
        end in
      match snd (span Py.is_c_space l), (digits ++ fraction)%list with
      | [], _ :: _ =>
          if exponent_ok then Some (negb point && negb exponent, negative, digits) else None
      | _, _ => None
      end
  end.

(** The number a run of digits writes. *)
Definition decimal (l : list ascii) : Z :=
  fold_left (fun acc c => 10 * acc + Py.digit_val c) l 0.

(** A REAL in a column of INTEGER affinity: a whole number strictly between
    the least and the greatest 64-bit integer becomes that INTEGER.  (A NaN
    is NULL to SQLite.) *)
Definition real_to_integer (x : pyfloat) : sqlval :=
  match x with
  | FNaN => SNull
  | FInf _ => SReal x
  | FNum q =>
      let n := Qnum q / Z.pos (Qden q) in
      if (Qnum q mod Z.pos (Qden q) =? 0) && (- 2 ^ 63 <? n) && (n <? 2 ^ 63 - 1)
      then SInteger n else SReal x
  end.

(** The value a column of INTEGER affinity keeps. *)
Definition integer_column (e : sqlite) (v : sqlval) : sqlval :=
  match v with
  | SNull => SNull
  | SInteger n => SInteger n
  | SReal x => real_to_integer x
  | SText s =>
      match sql_literal (Py.chars s) with
      | None => SText s
      | Some (plain, negative, digits) =>
          let n := if negative then - decimal digits else decimal digits in
          if plain && int64 n then SInteger n
          else real_to_integer (literal_real e s)
      end
  end.

(** The value a column of TEXT affinity keeps; [None] is NULL. *)
Definition text_column (e : sqlite) (v : sqlval) : option string :=
  match v with
  | SNull => None
  | SInteger n => Some (Py.str_of_int n)
  | SReal x => Some (real_text e x)
  | SText s => Some s
  end.

(** What the [sqlite3] module binds for the parameter numbered [i], or the
    error it raises.  (The message of the last error also names the
    character and its position.) *)
Definition bind (i : Z) (v : pyval) : result sqlval :=
  match v with
  | PNone => Ok SNull
  | PBool b => Ok (SInteger (if b then 1 else 0))
  | PInt n =>
      if int64 n then Ok (SInteger n)
      else Raise (OverflowError "Python int too large to convert to SQLite INTEGER")
  | PFloat FNaN => Ok SNull
  | PFloat x => Ok (SReal x)
  | PStr s =>
      match Py.decode (Py.chars s) with
      | Some _ => Ok (SText s)
      | None => Raise (UnicodeEncodeError "'utf-8' codec can't encode: surrogates not allowed")
      end
  | PList _ | PDict _ =>
      Raise (ProgrammingError ("Error binding parameter " ++ Py.str_of_int i ++ ": type '"
                               ++ type_name v ++ "' is not supported"))
  end.

(** *** The process state

    The database file, the module-level dict [user_sessions], the calls made
    to the WireGuard interface so far (oldest first), the function
    attribute [monitor_wireguard.last_stats_update] (created as 0 by the
    first tick; it starts as 0 here), and the SQLite library the process
    runs on. *)

Inductive wg_call : Type :=
| AddPeer (pubkey : string) (ip : string)
| RemovePeer (pubkey : string).

Record state : Type := mk_state {
  db : database;
  user_sessions : list (string * session);
  wg_calls : list wg_call;
  last_stats_update : Q;
  engine : sqlite
}.

Definition initial_state_on (e : sqlite) : state := mk_state empty_db [] [] 0%Q e.

(** The runs written out in this file store no REAL in a TEXT column and no
    literal with a fraction, an exponent or more than 64 bits in an INTEGER
    column: they never ask for one of the two conversions, and they are run
    on an engine whose conversions answer nothing. *)
Definition plain_engine : sqlite := mk_sqlite (fun _ => "") (fun _ => FNaN).

Definition initial_state : state := initial_state_on plain_engine.

Definition with_db (st : state) (d : database) : state :=
  mk_state d (user_sessions st) (wg_calls st) (last_stats_update st) (engine st).

Definition with_users (d : database) (us : list user) : database :=
  mk_database us (users_seq d) (events d) (events_seq d)
              (traffic_stats d) (traffic_stats_seq d)
              (system_stats d) (system_stats_seq d).

Definition with_events (d : database) (es : list event) : database :=
  mk_database (users d) (users_seq d) es (events_seq d)
              (traffic_stats d) (traffic_stats_seq d)
              (system_stats d) (system_stats_seq d).

(** [UPDATE users SET ... WHERE id = ?] *)
Definition update_users (id : Z) (f : user -> user) (d : database) : database :=
  with_users d (map (fun u => if u_id u =? id then f u else u) (users d)).

(** [UPDATE events SET ... WHERE id = ?] *)
Definition update_events (id : Z) (f : event -> event) (d : database) : database :=
  with_events d (map (fun e => if e_id e =? id then f e else e) (events d)).

(** [SELECT ... FROM users WHERE id = ?], first row *)
Definition select_user_by_id (id : Z) (d : database) : option user :=
  find (fun u => u_id u =? id) (users d).

(** [SELECT ... FROM users WHERE peer_pubkey = ?], first row *)
Definition select_user_by_pubkey (pubkey : string) (d : database) : option user :=
  find (fun u => String.eqb (peer_pubkey u) pubkey) (users d).

(** [SELECT ... FROM events WHERE id = ?], first row *)
Definition select_event_by_id (id : Z) (d : database) : option event :=
  find (fun e => e_id e =? id) (events d).

Definition set_status (s : Z) (ts : string) (u : user) : user :=
  mk_user (u_id u) (peer_pubkey u) (client_ip u) (nickname u) (mail u) (phone u)
          (u_login_ip u) (bandwidth_limit u) (data_limit u) (expiry_date u)
          s (enabled u) (total_rx u) (total_tx u) (last_login u) (note u)
          (wg_config u) (u_created_at u) ts.

Definition set_enabled (en : option Z) (ts : string) (u : user) : user :=
  mk_user (u_id u) (peer_pubkey u) (client_ip u) (nickname u) (mail u) (phone u)
          (u_login_ip u) (bandwidth_limit u) (data_limit u) (expiry_date u)
          (u_status u) en (total_rx u) (total_tx u) (last_login u) (note u)
          (wg_config u) (u_created_at u) ts.

Definition set_totals (new_rx new_tx : Z) (login : option string) (ts : string) (u : user) : user :=
  mk_user (u_id u) (peer_pubkey u) (client_ip u) (nickname u) (mail u) (phone u)
          (u_login_ip u) (bandwidth_limit u) (data_limit u) (expiry_date u)
          (u_status u) (enabled u) new_rx new_tx login (note u)
          (wg_config u) (u_created_at u) ts.

(** [update_user_status] *)
Definition update_user_status (c : clock) (user_id status : Z) (d : database) : database :=
  update_users user_id (set_status status (get_current_timestamp c)) d.

(* ===================================================================== *)
(** ** statistics/stats_manager.py *)
(* ===================================================================== *)

Definition update_user_traffic_stats (c : clock) (user_id session_rx session_tx : Z)
    (d : database) : database :=
  update_users user_id
    (fun u => set_totals (total_rx u + session_rx) (total_tx u + session_tx)
                         (Some (get_current_timestamp c)) (get_current_timestamp c) u) d.

Definition traffic_key (user_id : Z) (date : string) (t : traffic_stat) : bool :=
  (t_user_id t =? user_id) && String.eqb (t_date t) date.

(** [INSERT OR REPLACE INTO traffic_stats]: the row of (user_id, today), if
    any, is read by the sub-selects, deleted for the UNIQUE conflict, and a
    new row takes its place. *)
Definition update_daily_traffic_stats (c : clock) (user_id rx tx sessions : Z)
    (d : database) : database :=
  let today := Py.strftime_date (now c) in
  let old := find (traffic_key user_id today) (traffic_stats d) in
  let coalesce (f : traffic_stat -> Z) := match old with Some t => f t | None => 0 end in
  let row :=
    mk_traffic_stat (traffic_stats_seq d + 1) user_id today
      (coalesce daily_rx + rx) (coalesce daily_tx + tx)
      (coalesce session_count + sessions)
      (match old with Some t => t_created_at t | None => get_current_timestamp c end)
      (get_current_timestamp c) in
  mk_database (users d) (users_seq d) (events d) (events_seq d)
    (filter (fun t => negb (traffic_key user_id today t)) (traffic_stats d) ++ [row])
    (traffic_stats_seq d + 1)
    (system_stats d) (system_stats_seq d).

(** [SUM(x)]: NULL over no rows. *)
Definition sql_sum (l : list Z) : option Z :=
  match l with
  | [] => None
  | _ => Some (fold_right Z.add 0 l)
  end.

(** [DATE(start_time)] of a timestamp written by [get_current_timestamp]:
    its first ten characters. *)
Definition sql_date (s : string) : string := substring 0 10 s.

(** [int(AVG(x) or 0)]; the values averaged are positive. *)
Definition int_avg (l : list Z) : Z :=
  match l with
  | [] => 0
  | _ => Z.quot (fold_right Z.add 0 l) (Z.of_nat (List.length l))
  end.

Definition is_enabled (u : user) : bool :=
  match enabled u with Some 1 => true | _ => false end.

Definition update_system_stats (c : clock) (st : state) : state :=
  let d := db st in
  let today := Py.strftime_date (now c) in
  let en := filter is_enabled (users d) in
  let total_users := Z.of_nat (List.length en) in
  let active_users := sql_sum (map (fun u => if u_status u =? 1 then 1 else 0) en) in
  let total_rx := sql_sum (map total_rx en) in
  let total_tx := sql_sum (map total_tx en) in
  let avg_duration_seconds :=
    int_avg (map duration_seconds
               (filter (fun e => String.eqb (sql_date (start_time e)) today
                                 && (0 <? duration_seconds e)) (events d))) in
  let current_online := Z.of_nat (List.length (user_sessions st)) in
  let old := find (fun s => String.eqb (s_date s) today) (system_stats d) in
  let row :=
    mk_system_stat (system_stats_seq d + 1) today total_users active_users
      total_rx total_tx
      (Z.max (match old with Some s => peak_concurrent s | None => 0 end) current_online)
      avg_duration_seconds
      (match old with Some s => s_created_at s | None => get_current_timestamp c end)
      (get_current_timestamp c) in
  with_db st
    (mk_database (users d) (users_seq d) (events d) (events_seq d)
       (traffic_stats d) (traffic_stats_seq d)
       (filter (fun s => negb (String.eqb (s_date s) today)) (system_stats d) ++ [row])
       (system_stats_seq d + 1)).

(** [SUM] over integers adds the rows in rowid order and raises "integer
    overflow" once a partial sum leaves the 64-bit range. *)
Fixpoint sum_overflows (acc : Z) (l : list Z) : bool :=
  match l with
  | [] => false
  | x :: l' => if int64 (acc + x) then sum_overflows (acc + x) l' else true
  end.

(** Whether [update_system_stats] raises: its first query does, when
    [SUM(total_rx)] or [SUM(total_tx)] over the enabled users overflows, and
    nothing has been written by then.  [update_system_stats] above is the
    call that completes. *)
Definition update_system_stats_raises (st : state) : bool :=
  sum_overflows 0 (map total_rx (filter is_enabled (users (db st))))
  || sum_overflows 0 (map total_tx (filter is_enabled (users (db st)))).

(* ===================================================================== *)
(** ** wireguard_interface/wg_commands.py *)
(* ===================================================================== *)

(** Both mutators only log and answer [True]; the call is recorded. *)
Definition add_wg_peer (pubkey ip : string) (st : state) : bool * state :=
  (true, mk_state (db st) (user_sessions st) (wg_calls st ++ [AddPeer pubkey ip])
                  (last_stats_update st) (engine st)).

Definition remove_wg_peer (pubkey : string) (st : state) : bool * state :=
  (true, mk_state (db st) (user_sessions st) (wg_calls st ++ [RemovePeer pubkey])
                  (last_stats_update st) (engine st)).

(** [SELECT client_ip FROM users WHERE client_ip IS NOT NULL] *)
Definition assigned_ips (d : database) : list string :=
  flat_map (fun u => match client_ip u with Some ip => [ip] | None => [] end) (users d).

Definition next_ip_of (ip_list : list string) : result string :=
  match ip_list with
  | [] => Ok "10.0.0.2"
  | _ :: _ =>
      let sorted := Py.sort ip_list in
      let last_ip := last sorted "" in
      let parts := Py.split "." last_ip in
      match nth_error parts 3 with
      | None => Raise (IndexError "list index out of range")
      | Some p3 =>
          match Py.int p3 with
          | None => Raise (ValueError ("invalid literal for int() with base 10: '" ++ p3 ++ "'"))
          | Some last_octet =>
              let next_octet := last_octet + 1 in
              if 254 <? next_octet then Raise (ValueError "No available IP addresses")
              else Ok (nth 0 parts "" ++ "." ++ nth 1 parts "" ++ "." ++ nth 2 parts ""
                         ++ "." ++ Py.str_of_int next_octet)
          end
      end
  end.

Definition get_next_available_ip (d : database) : result string :=
  next_ip_of (assigned_ips d).

Definition nl : string := String (ascii_of_nat 10) "".

Definition generate_wg_config (server_public_key : option string)
    (client_public_key client_ip : string) : string :=
  nl ++ "[Interface]" ++ nl
  ++ "PrivateKey = <CLIENT_PRIVATE_KEY>" ++ nl
  ++ "Address = " ++ client_ip ++ "/32" ++ nl
  ++ "DNS = 8.8.8.8, 8.8.4.4" ++ nl
  ++ nl
  ++ "[Peer]" ++ nl
  ++ "PublicKey = "
  ++ match server_public_key with
     | Some k => if String.eqb k "" then "SERVER_PUBLIC_KEY" else k
     | None => "SERVER_PUBLIC_KEY"
     end ++ nl
  ++ "Endpoint = server.example.com:51820" ++ nl
  ++ "AllowedIPs = 0.0.0.0/0, ::/0" ++ nl
  ++ "PersistentKeepalive = 25" ++ nl.

(* ===================================================================== *)
(** ** session_monitor/session_handler.py: session rows *)
(* ===================================================================== *)

Definition create_new_session (c : clock) (user_id start_rx start_tx : Z)
    (login_ip endpoint_info : option string) (d : database) : Z * database :=
  let now_ts := get_current_timestamp c in
  let id := events_seq d + 1 in
  (id,
   mk_database (users d) (users_seq d)
     (events d ++ [mk_event id user_id now_ts None now_ts 0 0 login_ip endpoint_info ONLINE 0])
     id
     (traffic_stats d) (traffic_stats_seq d) (system_stats d) (system_stats_seq d)).

Definition update_session_traffic (c : clock) (event_id session_rx session_tx : Z)
    (d : database) : database :=
  update_events event_id
    (fun e => mk_event (e_id e) (e_user_id e) (start_time e) (end_time e)
                       (get_current_timestamp c) session_rx session_tx
                       (e_login_ip e) (endpoint_info e) (e_status e) (duration_seconds e)) d.

(** [final or stored] for an optional integer: [None] and 0 are falsy. *)
Definition py_or (final : option Z) (stored : Z) : Z :=
  match final with
  | Some v => if v =? 0 then stored else v
  | None => stored
  end.

Definition close_session (c : clock) (event_id : Z) (final_rx final_tx : option Z)
    (d : database) : database :=
  match select_event_by_id event_id d with
  | None => d
  | Some session_info =>
      let duration :=
        match Py.strptime (start_time session_info) with
        | Some start => Py.int_total_seconds (now c) start
        | None => 0
        end in
      let d1 := update_user_traffic_stats c (e_user_id session_info)
                  (py_or final_rx (session_rx session_info))
                  (py_or final_tx (session_tx session_info)) d in
      let d2 := update_daily_traffic_stats c (e_user_id session_info)
                  (py_or final_rx (session_rx session_info))
                  (py_or final_tx (session_tx session_info)) 1 d1 in
      update_events event_id
        (fun e => mk_event (e_id e) (e_user_id e) (start_time e)
                           (Some (get_current_timestamp c)) (last_update e)
                           (py_or final_rx (session_rx session_info))
                           (py_or final_tx (session_tx session_info))
                           (e_login_ip e) (endpoint_info e) OFFLINE duration) d2
  end.

(* ===================================================================== *)
(** ** user_management/user_manager.py *)
(* ===================================================================== *)

(** [CHECK(x >= 0)]: NULL passes, and so does a text, which SQLite orders
    after every number. *)
Definition check_nonneg (v : sqlval) : bool :=
  match v with
  | SNull => true
  | SInteger n => 0 <=? n
  | SReal FNaN => true
  | SReal (FInf negative) => negb negative
  | SReal (FNum q) => Qle_bool 0 q
  | SText _ => true
  end.

(** [CHECK(x IN (0, 1))]: NULL passes. *)
Definition check_flag (v : option Z) : bool :=
  match v with Some n => (n =? 0) || (n =? 1) | None => true end.

(** The same CHECK on a value that is about to be stored. *)
Definition check_flag_value (v : sqlval) : bool :=
  match v with
  | SNull => true
  | SInteger n => (n =? 0) || (n =? 1)
  | _ => false
  end.

(** An INTEGER column that passed the CHECK above, as the row keeps it. *)
Definition flag_of (v : sqlval) : option Z :=
  match v with
  | SInteger n => Some n
  | _ => None
  end.

Definition same_ip (a b : option string) : bool :=
  match a, b with
  | Some x, Some y => String.eqb x y
  | _, _ => false
  end.

(** The constraints of the users table on a row that is to sit beside
    [others]: the CHECKs, then the two UNIQUE columns (NULLs never clash). *)
Definition users_constraints (u : user) (others : list user) : result unit :=
  if negb (check_nonneg (bandwidth_limit u))
  then Raise (IntegrityError "CHECK constraint failed: bandwidth_limit >= 0")
  else if negb (check_nonneg (data_limit u))
  then Raise (IntegrityError "CHECK constraint failed: data_limit >= 0")
  else if negb (check_flag (Some (u_status u)))
  then Raise (IntegrityError "CHECK constraint failed: status IN (0, 1)")
  else if negb (check_flag (enabled u))
  then Raise (IntegrityError "CHECK constraint failed: enabled IN (0, 1)")
  else if existsb (fun o => String.eqb (peer_pubkey o) (peer_pubkey u)) others
  then Raise (IntegrityError "UNIQUE constraint failed: users.peer_pubkey")
  else if existsb (fun o => same_ip (client_ip o) (client_ip u)) others
  then Raise (IntegrityError "UNIQUE constraint failed: users.client_ip")
  else Ok tt.

(** [INSERT INTO users]: the row gets the next rowid; a violated constraint
    rolls the statement back. *)
Definition insert_user (row : Z -> user) (d : database) : result Z * database :=
  let id := users_seq d + 1 in
  match users_constraints (row id) (users d) with
  | Raise e => (Raise e, d)
  | Ok _ =>
      (Ok id,
       mk_database (users d ++ [row id]) id (events d) (events_seq d)
         (traffic_stats d) (traffic_stats_seq d) (system_stats d) (system_stats_seq d))
  end.

(** [s or default] for an optional string: NULL and the empty string are falsy. *)
Definition str_or (s : option string) (default : string) : string :=
  match s with
  | Some v => if String.eqb v "" then default else v
  | None => default
  end.

Definition truthy (s : option string) : bool :=
  match s with
  | Some v => negb (String.eqb v "")
  | None => false
  end.

Definition default_nickname (id : Z) : string := "User_" ++ Py.str_of_int id.

Definition get_or_create_user (c : clock) (pubkey : string) (d : database)
  : result (Z * string * option Z) * database :=
  if negb (validate_pubkey pubkey) then (Raise (ValueError "Invalid public key format"), d)
  else
    match select_user_by_pubkey pubkey d with
    | Some user =>
        let stored := (Ok (u_id user, str_or (nickname user) (default_nickname (u_id user)),
                           enabled user), d) in
        if truthy (expiry_date user) then
          match Py.strptime (match expiry_date user with Some s => s | None => "" end) with
          | Some expiry =>
              if Py.dt_gt (now c) expiry then
                (Ok (u_id user, str_or (nickname user) (default_nickname (u_id user)), Some 0),
                 update_users (u_id user) (set_enabled (Some 0) (get_current_timestamp c)) d)
              else stored
          | None => stored
          end
        else stored
    | None =>
        match insert_user
                (fun id => mk_user id pubkey None None None None None (SInteger 0) (SInteger 0)
                                   None 0 (Some 1) 0 0 None None None
                                   (get_current_timestamp c) (get_current_timestamp c)) d with
        | (Ok user_id, d') => (Ok (user_id, default_nickname user_id, Some 1), d')
        | (Raise e, d') => (Raise e, d')
        end
    end.

(** The row [create_user] inserts, once every value is bound; the
    parameters are numbered as in the statement. *)
Definition new_user_row (e : sqlite) (ts pubkey client_ip wg_config : string)
    (nickname mail phone bandwidth_limit data_limit expiry_date note : pyval)
  : result (Z -> user) :=
  try (bind 3 nickname) (fun nickname =>
  try (bind 4 mail) (fun mail =>
  try (bind 5 phone) (fun phone =>
  try (bind 6 bandwidth_limit) (fun bandwidth_limit =>
  try (bind 7 data_limit) (fun data_limit =>
  try (bind 8 expiry_date) (fun expiry_date =>
  try (bind 9 note) (fun note =>
  Ok (fun id =>
        mk_user id pubkey (Some client_ip) (text_column e nickname) (text_column e mail)
                (text_column e phone) None
                (integer_column e bandwidth_limit) (integer_column e data_limit)
                (text_column e expiry_date)
                0 (Some 1) 0 0 None (text_column e note) (Some wg_config) ts ts)))))))).

(** [create_user]; its arguments are what the body of the request held. *)
Definition create_user (c : clock)
    (pubkey nickname mail phone bandwidth_limit data_limit expiry_date note : pyval)
    (st : state) : result (Z * string * string) * state :=
  match validate_pubkey_of pubkey with
  | Raise e => (Raise e, st)
  | Ok false => (Raise (ValueError "Invalid public key format"), st)
  | Ok true =>
      let pubkey := match pubkey with PStr s => s | _ => "" end in
      match (if py_truthy mail then validate_email_of mail else Ok true) with
      | Raise e => (Raise e, st)
      | Ok false => (Raise (ValueError "Invalid email format"), st)
      | Ok true =>
          match select_user_by_pubkey pubkey (db st) with
          | Some _ => (Raise (ValueError "Public key already exists"), st)
          | None =>
              match get_next_available_ip (db st) with
              | Raise (ValueError msg) => (Raise (ValueError msg), st)
              | Raise e => (Raise e, st)
              | Ok client_ip =>
                  let (added, st1) := add_wg_peer pubkey client_ip st in
                  if negb added
                  then (Raise (RuntimeError "Failed to add peer to WireGuard interface"), st1)
                  else
                    let wg_config := generate_wg_config None pubkey client_ip in
                    let inserted :=
                      match new_user_row (engine st1) (get_current_timestamp c) pubkey
                              client_ip wg_config nickname mail phone bandwidth_limit
                              data_limit expiry_date note with
                      | Ok row => insert_user row (db st1)
                      | Raise e => (Raise e, db st1)
                      end in
                    match inserted with
                    | (Ok user_id, d') => (Ok (user_id, client_ip, wg_config), with_db st1 d')
                    | (Raise e, _) =>
                        let (_, st2) := remove_wg_peer pubkey st1 in
                        (Raise (RuntimeError ("Failed to create user in database: "
                                              ++ exn_str e)), st2)
                    end
              end
          end
      end
  end.

(** [for k, s in list(user_sessions.items()): if s["user_id"] == user_id:
    del user_sessions[k]; break] *)
Fixpoint remove_first_session_of (user_id : Z) (m : list (string * session))
  : list (string * session) :=
  match m with
  | [] => []
  | (k, s) :: m' =>
      if s_user_id s =? user_id then m' else (k, s) :: remove_first_session_of user_id m'
  end.

(** [DELETE FROM users WHERE id = ?].  With [foreign_keys] on, the rows of
    events and traffic_stats that reference the user go with it; the
    connections of the code never set the pragma, so it has SQLite's
    build default. *)
Definition delete_user_row (foreign_keys : bool) (user_id : Z) (d : database) : database :=
  mk_database
    (filter (fun u => negb (u_id u =? user_id)) (users d)) (users_seq d)
    (if foreign_keys then filter (fun e => negb (e_user_id e =? user_id)) (events d)
     else events d)
    (events_seq d)
    (if foreign_keys then filter (fun t => negb (t_user_id t =? user_id)) (traffic_stats d)
     else traffic_stats d)
    (traffic_stats_seq d) (system_stats d) (system_stats_seq d).

Definition is_open (e : event) : bool :=
  match end_time e with None => true | Some _ => false end.

(** [SELECT id FROM events WHERE user_id = ? AND end_time IS NULL] *)
Definition open_events_of (user_id : Z) (d : database) : list Z :=
  map e_id (filter (fun e => (e_user_id e =? user_id) && is_open e) (events d)).

(** [delete_user(user_id)], for a [user_id] of 64 bits (one that SQLite can
    bind; see [handle_delete] for the others). *)
Definition delete_user (foreign_keys : bool) (c : clock) (user_id : Z) (st : state)
  : result bool * state :=
  match select_user_by_id user_id (db st) with
  | None => (Raise (ValueError "User not found"), st)
  | Some user =>
      let active_sessions := open_events_of user_id (db st) in
      let d1 := fold_left (fun d id => close_session c id (Some 0) (Some 0) d)
                          active_sessions (db st) in
      let st1 := mk_state d1 (remove_first_session_of user_id (user_sessions st))
                          (wg_calls st) (last_stats_update st) (engine st) in
      let (_, st2) := remove_wg_peer (peer_pubkey user) st1 in
      (Ok true, with_db st2 (delete_user_row foreign_keys user_id (db st2)))
  end.

Definition allowed_fields : list string :=
  ["nickname"; "mail"; "phone"; "bandwidth_limit"; "data_limit"; "expiry_date"; "enabled";
   "note"].

(** The keyword arguments that are on the whitelist, in the order given. *)
Definition updates_of (kwargs : list (string * pyval)) : list (string * pyval) :=
  filter (fun p => existsb (String.eqb (fst p)) allowed_fields) kwargs.

(** The values of the UPDATE as [sqlite3] binds them, numbered from [i]. *)
Fixpoint bind_from (i : Z) (l : list (string * pyval)) : result (list (string * sqlval)) :=
  match l with
  | [] => Ok []
  | (field, v) :: l' =>
      try (bind i v) (fun b => try (bind_from (i + 1) l') (fun r => Ok ((field, b) :: r)))
  end.

Definition upd {A : Type} (new : option A) (old : A) : A :=
  match new with Some v => v | None => old end.

(** The row after [SET f1 = ?, ..., updated_at = ?], before the CHECKs. *)
Definition apply_update (e : sqlite) (values : list (string * sqlval)) (ts : string)
    (u : user) : user :=
  let text (field : string) := option_map (text_column e) (dict_get field values) in
  let integer (field : string) := option_map (integer_column e) (dict_get field values) in
  mk_user (u_id u) (peer_pubkey u) (client_ip u)
          (upd (text "nickname") (nickname u)) (upd (text "mail") (mail u))
          (upd (text "phone") (phone u)) (u_login_ip u)
          (upd (integer "bandwidth_limit") (bandwidth_limit u))
          (upd (integer "data_limit") (data_limit u))
          (upd (text "expiry_date") (expiry_date u))
          (u_status u) (upd (option_map flag_of (integer "enabled")) (enabled u))
          (total_rx u) (total_tx u) (last_login u) (upd (text "note") (note u))
          (wg_config u) (u_created_at u) ts.

(** The CHECKs of the users table on the row that [apply_update] gives. *)
Definition update_checks (e : sqlite) (values : list (string * sqlval)) (u : user)
  : result unit :=
  let u' := apply_update e values "" u in
  if negb (check_nonneg (bandwidth_limit u'))
  then Raise (IntegrityError "CHECK constraint failed: bandwidth_limit >= 0")
  else if negb (check_nonneg (data_limit u'))
  then Raise (IntegrityError "CHECK constraint failed: data_limit >= 0")
  else if negb (check_flag (Some (u_status u)))
  then Raise (IntegrityError "CHECK constraint failed: status IN (0, 1)")
  else if negb (match dict_get "enabled" values with
                | Some v => check_flag_value (integer_column e v)
                | None => check_flag (enabled u)
                end)
  then Raise (IntegrityError "CHECK constraint failed: enabled IN (0, 1)")
  else Ok tt.

(** The start of [update_user], before its first statement: the values on
    the whitelist, once the mail has passed ([Ok []]: nothing to update). *)
Definition update_user_args (kwargs : list (string * pyval))
  : result (list (string * pyval)) :=
  match updates_of kwargs with
  | [] => Ok []
  | updates =>
      match (match dict_get "mail" kwargs with
             | Some m => if py_truthy m then validate_email_of m else Ok true
             | None => Ok true
             end) with
      | Raise e => Raise e
      | Ok false => Raise (ValueError "Invalid email format")
      | Ok true => Ok updates
      end
  end.

(** [update_user(user_id, **kwargs)], for a [user_id] of 64 bits (one that
    SQLite can bind; see [update_user_unbound] for the others). *)
Definition update_user (c : clock) (user_id : Z) (kwargs : list (string * pyval))
    (st : state) : result (option bool) * state :=
  match update_user_args kwargs with
  | Raise e => (Raise e, st)
  | Ok [] => (Ok None, st)
  | Ok updates =>
          let st1 :=
            match dict_get "enabled" kwargs with
            | Some v =>
                if eq_int v 0 then
                  match select_user_by_id user_id (db st) with
                  | Some user => snd (remove_wg_peer (peer_pubkey user) st)
                  | None => st
                  end
                else if eq_int v 1 then
                  match select_user_by_id user_id (db st) with
                  | Some user =>
                      match client_ip user with
                      | Some ip => if String.eqb ip "" then st
                                   else snd (add_wg_peer (peer_pubkey user) ip st)
                      | None => st
                      end
                  | None => st
                  end
                else st
            | None => st
            end in
          match bind_from 1 updates with
          | Raise e => (Raise e, st1)
          | Ok values =>
              match select_user_by_id user_id (db st1) with
              | None => (Ok (Some true), st1)
              | Some user =>
                  match update_checks (engine st1) values user with
                  | Raise e => (Raise e, st1)
                  | Ok _ =>
                      (Ok (Some true),
                       with_db st1
                         (update_users user_id
                            (apply_update (engine st1) values (get_current_timestamp c))
                            (db st1)))
                  end
              end
          end
  end.

Definition too_large : exn :=
  OverflowError "Python int too large to convert to SQLite INTEGER".

(** [update_user] with a [user_id] of more than 64 bits: the first statement
    that takes the id raises, the SELECT when enabled is 0 or 1 and the
    UPDATE otherwise (there after the values before it are bound), and
    nothing has been done by then. *)
Definition update_user_unbound (kwargs : list (string * pyval)) : result (option bool) :=
  match update_user_args kwargs with
  | Raise e => Raise e
  | Ok [] => Ok None
  | Ok updates =>
      if match dict_get "enabled" kwargs with
         | Some v => eq_int v 0 || eq_int v 1
         | None => false
         end
      then Raise too_large
      else try (bind_from 1 updates) (fun _ => Raise too_large)
  end.

(* ===================================================================== *)
(** ** session_monitor/session_handler.py: the engine *)
(* ===================================================================== *)

Definition MAX_HANDSHAKE_AGE : Z := 180.

Definition is_peer_online (c : clock) (handshake_time : Z) (max_handshake_age : option Z)
  : bool :=
  let max_handshake_age :=
    match max_handshake_age with Some a => a | None => MAX_HANDSHAKE_AGE end in
  if handshake_time =? 0 then false
  else Qle_bool (time_time c - inject_Z handshake_time) (inject_Z max_handshake_age).

(** The values an update of a live session writes, and the baselines it
    leaves: [(session_rx, session_tx, start_rx, start_tx)]. *)
Definition session_delta (s : session) (current_rx current_tx : Z) : Z * Z * Z * Z :=
  if (current_rx <? start_rx s) || (current_tx <? start_tx s)
  then (0, 0, current_rx, current_tx)
  else (current_rx - start_rx s, current_tx - start_tx s, start_rx s, start_tx s).

Definition handle_peer_online (c : clock) (pubkey : string) (info : peer_info) (st : state)
  : state :=
  match get_or_create_user c pubkey (db st) with
  | (Raise _, d) => with_db st d   (* [except ValueError: return]; it raises nothing else *)
  | (Ok (user_id, nickname, enabled), d) =>
      let st := with_db st d in
      if match enabled with Some 0 => true | _ => false end
      then with_db st (update_user_status c user_id 0 (db st))
      else
        match dict_get pubkey (user_sessions st) with
        | Some s =>
            let '(session_rx, session_tx, new_start_rx, new_start_tx) :=
              session_delta s (rx info) (tx info) in
            let d' := update_session_traffic c (event_id s) session_rx session_tx (db st) in
            mk_state d'
              (dict_set pubkey
                 (mk_session (event_id s) new_start_rx new_start_tx (handshake info)
                             (s_user_id s) (s_nickname s))
                 (user_sessions st))
              (wg_calls st) (last_stats_update st) (engine st)
        | None =>
            let (event_id, d1) :=
              create_new_session c user_id (rx info) (tx info) None (endpoint info) (db st) in
            mk_state (update_user_status c user_id 1 d1)
              (dict_set pubkey
                 (mk_session event_id (rx info) (tx info) (handshake info) user_id nickname)
                 (user_sessions st))
              (wg_calls st) (last_stats_update st) (engine st)
        end
  end.

Definition handle_peer_offline (c : clock) (pubkey : string) (reason : string) (st : state)
  : state :=
  match dict_get pubkey (user_sessions st) with
  | None => st
  | Some s =>
      let d1 := close_session c (event_id s) None None (db st) in
      let d2 := update_user_status c (s_user_id s) 0 d1 in
      mk_state d2 (dict_del pubkey (user_sessions st)) (wg_calls st) (last_stats_update st)
               (engine st)
  end.

(** The first loop of a tick, over the items of the snapshot. *)
Definition handle_snapshot (c : clock) (max_handshake_age : option Z)
    (current_peers : list (string * peer_info)) (st : state) : state :=
  fold_left
    (fun st p =>
       if is_peer_online c (handshake (snd p)) max_handshake_age
       then handle_peer_online c (fst p) (snd p) st
       else match dict_get (fst p) (user_sessions st) with
            | Some _ => handle_peer_offline c (fst p) "handshake_timeout" st
            | None => st
            end)
    current_peers st.

(** [set(user_sessions.keys()) - active_pubkeys], as a list without order. *)
Definition offline_pubkeys (current_peers : list (string * peer_info)) (st : state)
  : list string :=
  filter (fun k => negb (existsb (String.eqb k) (map fst current_peers)))
         (dict_keys (user_sessions st)).

(** One tick.  [current_peers] is what [get_wg_peers] returned and
    [offline_iter] is the order in which Python iterates the set of
    disappeared keys (any arrangement of [offline_pubkeys]).  The roll-up
    and the assignment of the heartbeat sit in one [try]: when
    [update_system_stats] raises, the [except Exception] swallows it and the
    heartbeat is not assigned. *)
Definition monitor_wireguard (c : clock) (max_handshake_age : option Z)
    (current_peers : list (string * peer_info)) (offline_iter : list string)
    (st : state) : state :=
  let st1 := handle_snapshot c max_handshake_age current_peers st in
  let st2 := fold_left (fun st k => handle_peer_offline c k "disappeared" st)
                       offline_iter st1 in
  if Qlt_le_dec 300 (time_time c - last_stats_update st2)
  then
    if update_system_stats_raises st2 then st2
    else
      let st3 := update_system_stats c st2 in
      mk_state (db st3) (user_sessions st3) (wg_calls st3) (time_time c) (engine st3)
  else st2.

(* ===================================================================== *)
(** ** api/api_server.py: the mutating handlers *)
(* ===================================================================== *)

Inductive json : Type :=
| JString (s : string)
| JNumber (n : Z).

(** What [send_json_response(data, status)] sends. *)
Record response : Type := mk_response {
  status_code : Z;
  body : list (string * json)
}.

Definition error_response (msg : string) (code : Z) : response :=
  mk_response code [("error", JString msg)].

Definition success_response (msg : string) : response :=
  mk_response 200 [("status", JString "success"); ("message", JString msg)].

(** [data.get(key, default)] on the dict of a request. *)
Definition get (key : string) (default : pyval) (d : list (string * pyval)) : pyval :=
  match dict_get key d with Some v => v | None => default end.

(** POST /api/users with the decoded body [data], which may be any JSON
    value.  The test of the required field stands before the [try]: on a
    value that is no container it raises, and the answer is the 500 of
    [do_POST]; on a list or a str it is a membership test, and the
    subscript inside the [try] then raises. *)
Definition handle_create_user_api (c : clock) (data : pyval) (st : state)
  : response * state :=
  let create (d : list (string * pyval)) :=
    match dict_get "peer_pubkey" d with
    | None => (error_response "Missing required fields: peer_pubkey" 400, st)
    | Some pubkey =>
        match create_user c pubkey (get "nickname" PNone d) (get "mail" PNone d)
                (get "phone" PNone d) (get "bandwidth_limit" (PInt 0) d)
                (get "data_limit" (PInt 0) d) (get "expiry_date" PNone d)
                (get "note" PNone d) st with
        | (Ok (user_id, client_ip, _), st') =>
            (mk_response 200
               [("status", JString "success");
                ("message", JString "用户创建成功并已添加到WireGuard");
                ("user_id", JNumber user_id);
                ("client_ip", JString client_ip);
                ("config_download_url",
                 JString ("/api/users/" ++ Py.str_of_int user_id ++ "/config"))],
             st')
        | (Raise (ValueError msg), st') => (error_response msg 400, st')
        | (Raise (RuntimeError msg), st') => (error_response msg 500, st')
        | (Raise e, st') => (error_response ("Failed to create user: " ++ exn_str e) 500, st')
        end
    end in
  let missing := (error_response "Missing required fields: peer_pubkey" 400, st) in
  match data with
  | PDict d => create d
  | PList l =>
      if existsb (fun v => match v with
                           | PStr s => String.eqb s "peer_pubkey"
                           | _ => false
                           end) l
      then (error_response
              "Failed to create user: list indices must be integers or slices, not str" 500,
            st)
      else missing
  | PStr s =>
      if contains "peer_pubkey" s
      then (error_response
              "Failed to create user: string indices must be integers, not 'str'" 500, st)
      else missing
  | _ =>
      (error_response ("argument of type '" ++ type_name data ++ "' is not iterable") 500, st)
  end.

(** [for pubkey, session in user_sessions.items(): if session["user_id"] ==
    user_id: user_pubkey = pubkey; break] *)
Definition session_key_of (user_id : Z) (m : list (string * session)) : option string :=
  option_map fst (find (fun p => s_user_id (snd p) =? user_id) m).

(** The keyword arguments of [update_user(user_id, enabled=v)]. *)
Definition enabled_update (v : Z) : list (string * pyval) := [("enabled", PInt v)].

(** GET /api/users/{id}/{action}, after the path is parsed.  An id of more
    than 64 bits cannot be bound to a statement: the call raises
    OverflowError before anything is done and the answer is a 500 (here and
    in the two handlers below); a kick runs no statement with the id. *)
Definition handle_user_action_api (c : clock) (user_id : Z) (action : string) (st : state)
  : response * state :=
  if String.eqb action "enable" then
    if negb (int64 user_id) then (error_response (exn_str too_large) 500, st)
    else
      match update_user c user_id (enabled_update 1) st with
      | (Ok _, st') => (success_response "用户已启用", st')
      | (Raise e, st') => (error_response (exn_str e) 500, st')
      end
  else if String.eqb action "disable" then
    if negb (int64 user_id) then (error_response (exn_str too_large) 500, st)
    else
      match update_user c user_id (enabled_update 0) st with
      | (Ok _, st') => (success_response "用户已禁用", st')
      | (Raise e, st') => (error_response (exn_str e) 500, st')
      end
  else if String.eqb action "reset" then
    if negb (int64 user_id) then (error_response (exn_str too_large) 500, st)
    else
      (success_response "用户流量已重置",
       with_db st (update_users user_id
                     (fun u => set_totals 0 0 (last_login u) (get_current_timestamp c) u)
                     (db st)))
  else if String.eqb action "kick" then
    match session_key_of user_id (user_sessions st) with
    | Some user_pubkey =>
        (success_response "用户已踢出", handle_peer_offline c user_pubkey "kicked" st)
    | None =>
        (mk_response 200 [("status", JString "info"); ("message", JString "用户当前不在线")],
         st)
    end
  else (error_response ("Unknown action: " ++ action) 400, st).

(** DELETE /api/users/{id}, after the path is parsed. *)
Definition handle_delete (foreign_keys : bool) (c : clock) (user_id : Z) (st : state)
  : response * state :=
  if negb (int64 user_id) then (error_response (exn_str too_large) 500, st)
  else
    match delete_user foreign_keys c user_id st with
    | (Ok _, st') => (success_response "用户已删除", st')
    | (Raise (ValueError _), st') => (error_response "Invalid user ID" 400, st')
    | (Raise e, st') => (error_response (exn_str e) 500, st')
    end.

(** PUT /api/users/{id} and POST /api/users/{id}/update, with the decoded
    body [data], which may be any JSON value: [update_user(user_id, **data)]
    raises before the call when [data] is no dict or has the key "user_id". *)
Definition handle_update_user_api (c : clock) (user_id : Z) (data : pyval) (st : state)
  : response * state :=
  let called :=
    match data with
    | PDict d =>
        match dict_get "user_id" d with
        | Some _ =>
            (Raise (TypeError "update_user() got multiple values for argument 'user_id'"), st)
        | None =>
            if int64 user_id then update_user c user_id d st
            else (update_user_unbound d, st)
        end
    | _ =>
        (Raise (TypeError ("user_management.user_manager.update_user() argument after ** "
                           ++ "must be a mapping, not " ++ type_name data)), st)
    end in
  match called with
  | (Ok _, st') => (success_response "用户信息已更新", st')
  | (Raise (ValueError msg), st') => (error_response msg 400, st')
  | (Raise e, st') => (error_response ("Failed to update user: " ++ exn_str e) 500, st')
  end.

(* ===================================================================== *)
(** ** Concrete runs used to exercise the statements *)
(* ===================================================================== *)

Definition key_of (tail : string) : string :=
  "AAAAAAAAAAAAAAAAAAAAAAAAAAAAAAAAAAAAAAAAAA" ++ tail ++ "=".

Definition pkA : string := key_of "A".
Definition pkB : string := key_of "B".

(** A clock reading on 2024-01-01: [t] for [time.time()], [h:mi:s] local. *)
Definition clock_at (t h mi s : Z) : clock :=
  mk_clock (inject_Z t) (Py.mk_datetime 2024 1 1 h mi s 0).

(** Peer A seen fresh with both counters at 10000, at 12:00:00. *)
Definition after_first_tick : state :=
  monitor_wireguard (clock_at 43200 12 0 0) None
    [(pkA, mk_peer_info 10000 10000 43200 (Some "198.51.100.7:51820"))] [] initial_state.

(* ===================================================================== *)
(** ** Properties *)
(* ===================================================================== *)

(** *** The freshness predicate *)

(** C5: [is_peer_online handshake max_age] holds exactly when the handshake
    is not 0 and the clock minus the handshake is at most [max_age] (180 when
    none is given); a handshake of 0 is offline for every [max_age]. *)
Theorem is_peer_online_iff (c : clock) (handshake_time : Z) (max_age : option Z) :
  (is_peer_online c handshake_time max_age = true <->
   handshake_time <> 0 /\
   (time_time c - inject_Z handshake_time
    <= inject_Z (match max_age with Some a => a | None => 180 end))%Q)
  /\ (forall any_age : option Z, is_peer_online c 0 any_age = false).
Proof.
  split.
  - unfold is_peer_online, MAX_HANDSHAKE_AGE.
    destruct (Z.eqb_spec handshake_time 0) as [E | E].
    + split; [discriminate | intros [H _]; contradiction].
    + rewrite Qle_bool_iff. tauto.
  - intros any_age. reflexivity.
Qed.

(** *** Closing a peer that has no live session *)

Lemma dict_get_del_same {V : Type} (k : string) (m : list (string * V)) :
  dict_get k (dict_del k m) = None.
Proof.
  induction m as [| [k' v] m IH]; simpl; [reflexivity |].
  destruct (String.eqb_spec k' k) as [E | E]; simpl; [exact IH |].
  destruct (String.eqb_spec k' k); [contradiction | exact IH].
Qed.

(** *** Updates of a live session *)

(** [get_or_create_user] raises nothing but the [ValueError] that
    [handle_peer_online] catches: its INSERT cannot violate a constraint. *)
Lemma get_or_create_user_raises (c : clock) (pubkey : string) (d : database) (e : exn) :
  fst (get_or_create_user c pubkey d) = Raise e ->
  e = ValueError "Invalid public key format" /\ snd (get_or_create_user c pubkey d) = d.
Proof.
  unfold get_or_create_user.
  destruct (validate_pubkey pubkey); simpl; [| intros H; inversion H; now split].
  destruct (select_user_by_pubkey pubkey d) as [u |] eqn:Hu.
  - destruct (truthy (expiry_date u)); [| discriminate].
    destruct (Py.strptime _); [| discriminate].
    destruct (Py.dt_gt _ _); discriminate.
  - unfold insert_user, users_constraints. simpl.
    assert (Hnone : existsb (fun o => String.eqb (peer_pubkey o) pubkey) (users d) = false).
    { unfold select_user_by_pubkey in Hu. clear -Hu.
      induction (users d) as [| o l IH]; simpl in *; [reflexivity |].
      destruct (String.eqb (peer_pubkey o) pubkey); [discriminate | now apply IH]. }
    rewrite Hnone.
    assert (Hip : existsb (fun o => same_ip (client_ip o) None) (users d) = false).
    { clear. induction (users d) as [| o l IH]; simpl; [reflexivity |].
      rewrite IH. now destruct (client_ip o). }
    rewrite Hip. simpl. discriminate.
Qed.

Lemma find_update_events (id : Z) (f : event -> event) (l : list event) :
  (forall e, e_id (f e) = e_id e) ->
  find (fun e => e_id e =? id) (map (fun e => if e_id e =? id then f e else e) l)
  = option_map f (find (fun e => e_id e =? id) l).
Proof.
  intros Hid. induction l as [| e l IH]; simpl; [reflexivity |].
  destruct (e_id e =? id) eqn:E.
  - now rewrite Hid, E.
  - now rewrite E.
Qed.

Lemma insert_user_events (row : Z -> user) (d : database) :
  events (snd (insert_user row d)) = events d.
Proof.
  unfold insert_user. now destruct (users_constraints _ _).
Qed.

Lemma get_or_create_user_events (c : clock) (pubkey : string) (d : database) :
  events (snd (get_or_create_user c pubkey d)) = events d.
Proof.
  unfold get_or_create_user.
  destruct (validate_pubkey pubkey); simpl; [| reflexivity].
  destruct (select_user_by_pubkey pubkey d) as [u |].
  - destruct (truthy (expiry_date u)); [| reflexivity].
    destruct (Py.strptime _); [| reflexivity].
    now destruct (Py.dt_gt _ _).
  - pose proof (insert_user_events
                  (fun id => mk_user id pubkey None None None None None (SInteger 0) (SInteger 0) None
                                     0 (Some 1) 0 0 None None None
                                     (get_current_timestamp c) (get_current_timestamp c)) d) as H.
    destruct (insert_user _ d) as [[id | e] d']; exact H.
Qed.

Lemma dict_get_set_same {V : Type} (k : string) (v : V) (m : list (string * V)) :
  dict_get k (dict_set k v m) = Some v.
Proof.
  induction m as [| [k' v'] m IH]; simpl.
  - now rewrite String.eqb_refl.
  - destruct (String.eqb_spec k' k) as [E | E]; simpl.
    + now rewrite String.eqb_refl.
    + destruct (String.eqb_spec k' k); [contradiction | exact IH].
Qed.

(** What a fresh snapshot entry does to a live session, by the flag that
    [get_or_create_user] returned. *)
Lemma handle_peer_online_resolved
    (c : clock) (pubkey : string) (info : peer_info) (st : state)
    (user_id : Z) (nick : string) (en : option Z) (d1 : database)
    (s : session) (e : event) :
  get_or_create_user c pubkey (db st) = (Ok (user_id, nick, en), d1) ->
  dict_get pubkey (user_sessions st) = Some s ->
  select_event_by_id (event_id s) (db st) = Some e ->
  (en <> Some 0 ->
   exists (s' : session) (e' : event),
     dict_get pubkey (user_sessions (handle_peer_online c pubkey info st)) = Some s'
     /\ select_event_by_id (event_id s) (db (handle_peer_online c pubkey info st)) = Some e'
     /\ ((rx info < start_rx s \/ tx info < start_tx s) ->
         start_rx s' = rx info /\ start_tx s' = tx info
         /\ session_rx e' = 0 /\ session_tx e' = 0)
     /\ (~ (rx info < start_rx s \/ tx info < start_tx s) ->
         start_rx s' = start_rx s /\ start_tx s' = start_tx s
         /\ session_rx e' = rx info - start_rx s
         /\ session_tx e' = tx info - start_tx s)
     /\ 0 <= session_rx e' /\ 0 <= session_tx e')
  /\ (en = Some 0 ->
      events (db (handle_peer_online c pubkey info st)) = events (db st)
      /\ user_sessions (handle_peer_online c pubkey info st) = user_sessions st).
Proof.
  intros Hg Hs He.
  pose proof (get_or_create_user_events c pubkey (db st)) as Hev.
  rewrite Hg in Hev. simpl in Hev.
  split; [| intros ->; unfold handle_peer_online; rewrite Hg; now split].
  intros Hen.
  unfold handle_peer_online. rewrite Hg.
  assert (Hdis : match en with Some 0 => true | _ => false end = false).
  { destruct en as [[| p | p] |]; try reflexivity. now elim Hen. }
  rewrite Hdis. simpl user_sessions. rewrite Hs.
  assert (Hsel : select_event_by_id (event_id s) d1 = Some e).
  { unfold select_event_by_id in *. now rewrite Hev. }
  unfold session_delta.
  destruct ((rx info <? start_rx s) || (tx info <? start_tx s)) eqn:R.
  - eexists. eexists. simpl. rewrite dict_get_set_same.
    split; [reflexivity |]. split.
    + unfold select_event_by_id, update_session_traffic, update_events. simpl.
      rewrite find_update_events by reflexivity.
      unfold select_event_by_id in Hsel. rewrite Hsel. reflexivity.
    + simpl. repeat split; try reflexivity; lia.
  - apply orb_false_iff in R. destruct R as [R1 R2].
    apply Z.ltb_ge in R1. apply Z.ltb_ge in R2.
    eexists. eexists. simpl. rewrite dict_get_set_same.
    split; [reflexivity |]. split.
    + unfold select_event_by_id, update_session_traffic, update_events. simpl.
      rewrite find_update_events by reflexivity.
      unfold select_event_by_id in Hsel. rewrite Hsel. reflexivity.
    + simpl. repeat split; try reflexivity; lia.
Qed.

(** *** Closing a session *)

Lemma find_update_users (id : Z) (f : user -> user) (l : list user) :
  (forall u, u_id (f u) = u_id u) ->
  find (fun u => u_id u =? id) (map (fun u => if u_id u =? id then f u else u) l)
  = option_map f (find (fun u => u_id u =? id) l).
Proof.
  intros Hid. induction l as [| u l IH]; simpl; [reflexivity |].
  destruct (u_id u =? id) eqn:E.
  - now rewrite Hid, E.
  - now rewrite E.
Qed.

Lemma find_replaced {A : Type} (p : A -> bool) (l : list A) (row : A) :
  p row = true -> find p (filter (fun x => negb (p x)) l ++ [row]) = Some row.
Proof.
  intros Hrow. induction l as [| x l IH]; simpl.
  - now rewrite Hrow.
  - destruct (p x) eqn:E; simpl; [exact IH |]. now rewrite E.
Qed.

Lemma py_or_zero (stored : Z) : py_or (Some 0) stored = py_or None stored.
Proof. reflexivity. Qed.

(** What [close_session] leaves in the row it closes. *)
Lemma close_session_row (c : clock) (event_id : Z) (final_rx final_tx : option Z)
    (d : database) (e : event) :
  select_event_by_id event_id d = Some e ->
  select_event_by_id event_id (close_session c event_id final_rx final_tx d)
  = Some (mk_event (e_id e) (e_user_id e) (start_time e)
            (Some (get_current_timestamp c)) (last_update e)
            (py_or final_rx (session_rx e)) (py_or final_tx (session_tx e))
            (e_login_ip e) (endpoint_info e) OFFLINE
            (match Py.strptime (start_time e) with
             | Some start => Py.int_total_seconds (now c) start
             | None => 0
             end)).
Proof.
  intros He. unfold close_session. rewrite He.
  unfold select_event_by_id, update_events. simpl.
  rewrite find_update_events by reflexivity.
  unfold select_event_by_id in He. now rewrite He.
Qed.

(** C9: [close_session event_id 0 0] does what [close_session event_id None
    None] does: the stored session_rx and session_tx of the event are added
    to the user's lifetime totals and to the traffic row of the day (one
    more session counted), and stay in the closed event row. *)
Theorem close_session_zero_is_none
    (c : clock) (event_id : Z) (d : database) (e : event) (u : user) :
  select_event_by_id event_id d = Some e ->
  select_user_by_id (e_user_id e) d = Some u ->
  close_session c event_id (Some 0) (Some 0) d = close_session c event_id None None d
  /\ (exists u' : user,
        select_user_by_id (e_user_id e) (close_session c event_id (Some 0) (Some 0) d)
        = Some u'
        /\ total_rx u' = total_rx u + session_rx e
        /\ total_tx u' = total_tx u + session_tx e)
  /\ (exists t' : traffic_stat,
        find (traffic_key (e_user_id e) (Py.strftime_date (now c)))
             (traffic_stats (close_session c event_id (Some 0) (Some 0) d)) = Some t'
        /\ daily_rx t'
           = match find (traffic_key (e_user_id e) (Py.strftime_date (now c)))
                        (traffic_stats d) with
             | Some t => daily_rx t
             | None => 0
             end + session_rx e
        /\ daily_tx t'
           = match find (traffic_key (e_user_id e) (Py.strftime_date (now c)))
                        (traffic_stats d) with
             | Some t => daily_tx t
             | None => 0
             end + session_tx e
        /\ session_count t'
           = match find (traffic_key (e_user_id e) (Py.strftime_date (now c)))
                        (traffic_stats d) with
             | Some t => session_count t
             | None => 0
             end + 1)
  /\ (exists e' : event,
        select_event_by_id event_id (close_session c event_id (Some 0) (Some 0) d)
        = Some e'
        /\ session_rx e' = session_rx e /\ session_tx e' = session_tx e
        /\ end_time e' = Some (get_current_timestamp c) /\ e_status e' = OFFLINE).
Proof.
  intros He Hu. split; [| split; [| split]].
  - unfold close_session. rewrite He. now rewrite !py_or_zero.
  - unfold close_session. rewrite He. rewrite !py_or_zero. simpl py_or.
    unfold select_user_by_id, update_events, update_daily_traffic_stats,
      update_user_traffic_stats, update_users. simpl.
    rewrite find_update_users by reflexivity.
    unfold select_user_by_id in Hu. rewrite Hu. simpl.
    eexists. split; [reflexivity |]. simpl. split; reflexivity.
  - unfold close_session. rewrite He. rewrite !py_or_zero. simpl py_or.
    unfold update_events, update_daily_traffic_stats. simpl.
    rewrite find_replaced.
    + eexists. split; [reflexivity |]. simpl. repeat split; reflexivity.
    + unfold traffic_key. simpl. now rewrite Z.eqb_refl, String.eqb_refl.
  - rewrite (close_session_row c event_id (Some 0) (Some 0) d e He).
    eexists. split; [reflexivity |]. simpl. repeat split; reflexivity.
Qed.

(** The open event of peer A after the first tick, its counters moved to 700
    and 300 by a later snapshot, is closed with final counts 0 and 0. *)
Definition with_traffic : database :=
  update_session_traffic (clock_at 43210 12 0 10) 1 700 300 (db after_first_tick).

Lemma close_session_zero_is_none_witness :
  option_map session_rx (select_event_by_id 1 with_traffic) = Some 700
  /\ option_map total_rx
       (select_user_by_id 1
          (close_session (clock_at 43220 12 0 20) 1 (Some 0) (Some 0) with_traffic))
     = Some 700.
Proof.
  split; [vm_compute; reflexivity |].
  destruct (close_session_zero_is_none (clock_at 43220 12 0 20) 1 with_traffic
              (mk_event 1 1 "2024-01-01 12:00:00" None "2024-01-01 12:00:10" 700 300 None
                        (Some "198.51.100.7:51820") ONLINE 0)
              (mk_user 1 pkA None None None None None (SInteger 0) (SInteger 0) None 1 (Some 1)
                       0 0 None None None "2024-01-01 12:00:00" "2024-01-01 12:00:00"))
    as (_ & (u' & Hu & Hrx & _) & _).
  - vm_compute. reflexivity.
  - vm_compute. reflexivity.
  - simpl in Hu. rewrite Hu. simpl. now rewrite Hrx.
Defined.

(** *** Two closes of one peer on two threads

    The monitor loop and the API server run on two threads (main.py) that
    share [user_sessions] and the database file, with no lock.  A call of
    [handle_peer_offline] is cut here at three points where the other thread
    may run: after the membership test (the entry has been read), after
    [close_session], and after [update_user_status], before the [del]. *)

Inductive offline_pc : Type :=
| AtTest
| AtClose (s : session)
| AtStatus (s : session)
| AtDel (s : session)
| Returned
| RaisedKeyError.

(** The next piece of a call [handle_peer_offline(pubkey, _)] that reads the
    clock as [c]. *)
Definition offline_step (c : clock) (pubkey : string) (pc : offline_pc) (st : state)
  : offline_pc * state :=
  match pc with
  | AtTest =>
      match dict_get pubkey (user_sessions st) with
      | None => (Returned, st)
      | Some s => (AtClose s, st)
      end
  | AtClose s => (AtStatus s, with_db st (close_session c (event_id s) None None (db st)))
  | AtStatus s => (AtDel s, with_db st (update_user_status c (s_user_id s) 0 (db st)))
  | AtDel s =>
      match dict_get pubkey (user_sessions st) with
      | Some _ =>
          (Returned,
           mk_state (db st) (dict_del pubkey (user_sessions st)) (wg_calls st)
                    (last_stats_update st) (engine st))
      | None => (RaisedKeyError, st)
      end
  | Returned => (Returned, st)
  | RaisedKeyError => (RaisedKeyError, st)
  end.

(** Two calls for the same key, one on each thread, run in the order the
    schedule gives ([true]: the first thread takes a step). *)
Fixpoint interleave (c1 c2 : clock) (pubkey : string) (schedule : list bool)
    (pc1 pc2 : offline_pc) (st : state) : offline_pc * offline_pc * state :=
  match schedule with
  | [] => (pc1, pc2, st)
  | true :: rest =>
      let (pc1', st') := offline_step c1 pubkey pc1 st in
      interleave c1 c2 pubkey rest pc1' pc2 st'
  | false :: rest =>
      let (pc2', st') := offline_step c2 pubkey pc2 st in
      interleave c1 c2 pubkey rest pc1 pc2' st'
  end.

(** A call that is not interrupted is [handle_peer_offline]. *)
Lemma offline_steps_alone (c c2 : clock) (pubkey reason : string) (st : state) :
  interleave c c2 pubkey [true; true; true; true] AtTest AtTest st
  = (Returned, AtTest, handle_peer_offline c pubkey reason st).
Proof.
  unfold handle_peer_offline. cbn [interleave offline_step].
  destruct (dict_get pubkey (user_sessions st)) as [s |] eqn:Hs.
  - cbn [interleave offline_step with_db db user_sessions wg_calls last_stats_update].
    rewrite Hs. reflexivity.
  - cbn [interleave offline_step]. reflexivity.
Qed.




(** *** The duration of a closed session *)

(** A session opened during the repeated hour of a change from summer time:
    the tick that opens it reads 01:30:00 local, and the tick that finds the
    peer gone, forty minutes later, reads 01:10:00 local. *)
Definition summer_time_run : state :=
  monitor_wireguard (clock_at 8400 1 10 0) None [] [pkA]
    (monitor_wireguard (clock_at 6000 1 30 0) None
       [(pkA, mk_peer_info 1000 500 6000 None)] [] initial_state).

(** C3, as stated, fails: the run above is closed by the engine with a
    stored duration of -1200 seconds. *)
Lemma close_session_negative_duration :
  option_map (fun e => (start_time e, end_time e, e_status e, duration_seconds e))
             (select_event_by_id 1 (db summer_time_run))
  = Some ("2024-01-01 01:30:00", Some "2024-01-01 01:10:00", OFFLINE, -1200).
Proof. vm_compute. reflexivity. Qed.

(** C3, amended: the closed row holds, as duration_seconds, the whole
    seconds from the event's start_time to the close time, truncated toward
    zero, and 0 when start_time does not parse; nothing clamps it.  It is
    not negative when start_time is not after the close time, and it is
    negative when start_time is a second or more after it. *)
Theorem close_session_duration
    (c : clock) (event_id : Z) (final_rx final_tx : option Z) (d : database) (e : event) :
  select_event_by_id event_id d = Some e ->
  exists e' : event,
    select_event_by_id event_id (close_session c event_id final_rx final_tx d) = Some e'
    /\ end_time e' = Some (get_current_timestamp c)
    /\ e_status e' = OFFLINE
    /\ (Py.strptime (start_time e) = None -> duration_seconds e' = 0)
    /\ (forall start : Py.datetime,
          Py.strptime (start_time e) = Some start ->
          duration_seconds e' = Z.quot (Py.micros (now c) - Py.micros start) 1000000
          /\ (Py.micros start <= Py.micros (now c) -> 0 <= duration_seconds e')
          /\ (Py.micros (now c) + 1000000 <= Py.micros start -> duration_seconds e' < 0)).
Proof.
  intros He. rewrite (close_session_row c event_id final_rx final_tx d e He).
  eexists. split; [reflexivity |]. simpl.
  split; [reflexivity |]. split; [reflexivity |]. split.
  - intros Hnone. now rewrite Hnone.
  - intros start Hstart. rewrite Hstart. unfold Py.int_total_seconds.
    split; [reflexivity |]. split; intros H.
    + apply Z.quot_pos; lia.
    + rewrite <- (Z.opp_involutive (Py.micros (now c) - Py.micros start)).
      rewrite Z.quot_opp_l by lia.
      assert (0 < (- (Py.micros (now c) - Py.micros start)) ÷ 1000000); [| lia].
      apply Z.quot_str_pos; lia.
Qed.

Lemma close_session_duration_witness :
  exists e' : event,
    select_event_by_id 1 (close_session (clock_at 43400 12 3 20) 1 None None
                            (db after_first_tick)) = Some e'
    /\ duration_seconds e' = 200.
Proof.
  destruct (close_session_duration (clock_at 43400 12 3 20) 1 None None
              (db after_first_tick)
              (mk_event 1 1 "2024-01-01 12:00:00" None "2024-01-01 12:00:00" 0 0 None
                        (Some "198.51.100.7:51820") ONLINE 0))
    as (e' & Hsel & _ & _ & _ & Hdur).
  - vm_compute. reflexivity.
  - exists e'. split; [exact Hsel |].
    destruct (Hdur (Py.mk_datetime 2024 1 1 12 0 0 0)) as (Heq & _ & _).
    + vm_compute. reflexivity.
    + rewrite Heq. vm_compute. reflexivity.
Defined.

(** *** An expiry date that does not parse *)

(** C10: for an existing user whose expiry_date is set and is not accepted
    by [strptime] with the format of the code, [get_or_create_user] returns
    the stored enabled flag and writes nothing, at every reading of the
    clock: the user is never disabled by the expiry check. *)
Theorem get_or_create_user_bad_expiry
    (c : clock) (pubkey : string) (d : database) (u : user) (expiry : string) :
  validate_pubkey pubkey = true ->
  select_user_by_pubkey pubkey d = Some u ->
  expiry_date u = Some expiry ->
  Py.strptime expiry = None ->
  get_or_create_user c pubkey d
  = (Ok (u_id u, str_or (nickname u) (default_nickname (u_id u)), enabled u), d).
Proof.
  intros Hv Hu He Hp. unfold get_or_create_user.
  rewrite Hv, Hu, He. simpl negb. cbv iota.
  destruct (truthy (Some expiry)); [| reflexivity].
  now rewrite Hp.
Qed.

(** A user whose expiry was entered as a bare date, years in the past. *)
Definition bare_date_db : database :=
  db (snd (update_user (clock_at 43200 12 0 0) 1
             [("expiry_date", PStr "2020-01-01")]
             after_first_tick)).

Lemma get_or_create_user_bad_expiry_witness :
  get_or_create_user (clock_at 50000 13 53 20) pkA bare_date_db
  = (Ok (1, "User_1", Some 1), bare_date_db).
Proof.
  rewrite (get_or_create_user_bad_expiry (clock_at 50000 13 53 20) pkA bare_date_db
             (mk_user 1 pkA None None None None None (SInteger 0) (SInteger 0) (Some "2020-01-01")
                      1 (Some 1) 0 0 None None None
                      "2024-01-01 12:00:00" "2024-01-01 12:00:00")
             "2020-01-01").
  - reflexivity.
  - vm_compute. reflexivity.
  - vm_compute. reflexivity.
  - reflexivity.
  - vm_compute. reflexivity.
Defined.

(** What parses is what [strptime] accepts, not only ASCII: an expiry
    written with fullwidth digits and an ideographic space is a date, and
    the user is disabled once it has passed. *)
Definition fullwidth_date_db : database :=
  db (snd (update_user (clock_at 43200 12 0 0) 1
             [("expiry_date", PStr "２０２３-12-31　23:59:59")] after_first_tick)).

Lemma get_or_create_user_fullwidth_expiry :
  Py.strptime "２０２３-12-31　23:59:59" = Some (Py.mk_datetime 2023 12 31 23 59 59 0)
  /\ fst (get_or_create_user (clock_at 50000 13 53 20) pkA fullwidth_date_db)
     = Ok (1, "User_1", Some 0).
Proof. vm_compute. split; reflexivity. Qed.

(** *** The heartbeat of the system roll-up *)

(** What the two loops of a tick leave alone: the heartbeat and the
    system_stats table with its counter. *)
Definition same_rollup (st st' : state) : Prop :=
  last_stats_update st' = last_stats_update st
  /\ system_stats (db st') = system_stats (db st)
  /\ system_stats_seq (db st') = system_stats_seq (db st).

Lemma same_rollup_refl (st : state) : same_rollup st st.
Proof. now repeat split. Qed.

Lemma same_rollup_trans (a b c : state) :
  same_rollup a b -> same_rollup b c -> same_rollup a c.
Proof.
  intros (H1 & H2 & H3) (K1 & K2 & K3). repeat split; congruence.
Qed.

Lemma get_or_create_user_system_stats (c : clock) (pubkey : string) (d : database) :
  system_stats (snd (get_or_create_user c pubkey d)) = system_stats d
  /\ system_stats_seq (snd (get_or_create_user c pubkey d)) = system_stats_seq d.
Proof.
  unfold get_or_create_user.
  destruct (validate_pubkey pubkey); simpl; [| now split].
  destruct (select_user_by_pubkey pubkey d) as [u |].
  - destruct (truthy (expiry_date u)); [| now split].
    destruct (Py.strptime _); [| now split].
    now destruct (Py.dt_gt _ _).
  - unfold insert_user. now destruct (users_constraints _ _).
Qed.

Lemma close_session_system_stats (c : clock) (id : Z) (frx ftx : option Z) (d : database) :
  system_stats (close_session c id frx ftx d) = system_stats d
  /\ system_stats_seq (close_session c id frx ftx d) = system_stats_seq d.
Proof.
  unfold close_session. now destruct (select_event_by_id id d).
Qed.

Lemma handle_peer_online_rollup (c : clock) (pubkey : string) (info : peer_info) (st : state) :
  same_rollup st (handle_peer_online c pubkey info st).
Proof.
  unfold handle_peer_online, same_rollup.
  destruct (get_or_create_user_system_stats c pubkey (db st)) as [H1 H2].
  destruct (get_or_create_user c pubkey (db st)) as [[[[uid nick] en] | e] d];
    simpl in H1, H2; [| now repeat split].
  destruct (match en with Some 0 => true | _ => false end); [now repeat split |].
  simpl user_sessions.
  destruct (dict_get pubkey (user_sessions st)) as [s |].
  - destruct (session_delta s (rx info) (tx info)) as [[[a b] a'] b']. now repeat split.
  - now repeat split.
Qed.

Lemma handle_peer_offline_rollup (c : clock) (pubkey reason : string) (st : state) :
  same_rollup st (handle_peer_offline c pubkey reason st).
Proof.
  unfold handle_peer_offline, same_rollup.
  destruct (dict_get pubkey (user_sessions st)) as [s |]; [| now repeat split].
  destruct (close_session_system_stats c (event_id s) None None (db st)) as [H1 H2].
  now repeat split.
Qed.

Lemma handle_snapshot_rollup (c : clock) (max_age : option Z)
    (peers : list (string * peer_info)) (st : state) :
  same_rollup st (handle_snapshot c max_age peers st).
Proof.
  unfold handle_snapshot. revert st.
  induction peers as [| p peers IH]; intros st; simpl; [apply same_rollup_refl |].
  eapply same_rollup_trans; [| apply IH].
  destruct (is_peer_online c (handshake (snd p)) max_age).
  - apply handle_peer_online_rollup.
  - destruct (dict_get (fst p) (user_sessions st));
      [apply handle_peer_offline_rollup | apply same_rollup_refl].
Qed.

Lemma close_all_rollup (c : clock) (keys : list string) (st : state) :
  same_rollup st (fold_left (fun st k => handle_peer_offline c k "disappeared" st) keys st).
Proof.
  revert st. induction keys as [| k keys IH]; intros st; simpl; [apply same_rollup_refl |].
  eapply same_rollup_trans; [apply handle_peer_offline_rollup | apply IH].
Qed.

(** The state a tick has reached when it comes to the heartbeat test. *)
Definition after_loops (c : clock) (max_age : option Z)
    (peers : list (string * peer_info)) (offline_iter : list string) (st : state) : state :=
  fold_left (fun st k => handle_peer_offline c k "disappeared" st) offline_iter
            (handle_snapshot c max_age peers st).

(** Two ticks with no peer, five minutes apart to the second. *)
Definition tick_at_1000 : state :=
  monitor_wireguard (clock_at 1000 0 16 40) None [] [] initial_state.

Definition tick_at_1300 : state :=
  monitor_wireguard (clock_at 1300 0 21 40) None [] [] tick_at_1000.

(** C7, as stated, fails at exactly 300 seconds: the second tick leaves the
    heartbeat at 1000 and the state as it was, where a roll-up would have
    written a second row version. *)
Lemma heartbeat_at_300_skipped :
  (time_time (clock_at 1300 0 21 40) - last_stats_update tick_at_1000 == 300)%Q
  /\ tick_at_1300 = tick_at_1000
  /\ last_stats_update tick_at_1300 = inject_Z 1000
  /\ system_stats_seq (db tick_at_1300) = 1
  /\ system_stats_seq (db (update_system_stats (clock_at 1300 0 21 40) tick_at_1000)) = 2.
Proof. vm_compute. repeat split; reflexivity. Qed.

(** C7, amended: a tick at which more than 300 seconds have passed since the
    last heartbeat calls [update_system_stats] (on the state its two loops
    left).  When the call completes, the time of the tick becomes the new
    heartbeat and the row of the day carries the time of the tick; when the
    call raises (a SUM over the lifetime totals overflows), the exception is
    swallowed, nothing is written and the heartbeat stays, so that the next
    tick tries again.  A tick at which 300 seconds or fewer have passed
    runs no roll-up: the heartbeat and the system_stats table stay as they
    were before the tick. *)
Theorem monitor_wireguard_heartbeat
    (c : clock) (max_age : option Z) (peers : list (string * peer_info))
    (offline_iter : list string) (st : state) :
  ((300 < time_time c - last_stats_update st)%Q ->
   (update_system_stats_raises (after_loops c max_age peers offline_iter st) = false ->
    monitor_wireguard c max_age peers offline_iter st
    = mk_state (db (update_system_stats c (after_loops c max_age peers offline_iter st)))
               (user_sessions (after_loops c max_age peers offline_iter st))
               (wg_calls (after_loops c max_age peers offline_iter st))
               (time_time c)
               (engine (after_loops c max_age peers offline_iter st))
    /\ exists row : system_stat,
         find (fun s => String.eqb (s_date s) (Py.strftime_date (now c)))
              (system_stats (db (monitor_wireguard c max_age peers offline_iter st)))
         = Some row
         /\ s_updated_at row = get_current_timestamp c)
   /\ (update_system_stats_raises (after_loops c max_age peers offline_iter st) = true ->
       monitor_wireguard c max_age peers offline_iter st
       = after_loops c max_age peers offline_iter st
       /\ last_stats_update (monitor_wireguard c max_age peers offline_iter st)
          = last_stats_update st
       /\ system_stats (db (monitor_wireguard c max_age peers offline_iter st))
          = system_stats (db st)))
  /\ ((time_time c - last_stats_update st <= 300)%Q ->
      monitor_wireguard c max_age peers offline_iter st
      = after_loops c max_age peers offline_iter st
      /\ last_stats_update (monitor_wireguard c max_age peers offline_iter st)
         = last_stats_update st
      /\ system_stats (db (monitor_wireguard c max_age peers offline_iter st))
         = system_stats (db st)).
Proof.
  assert (Hsame : same_rollup st (after_loops c max_age peers offline_iter st)).
  { unfold after_loops. eapply same_rollup_trans;
      [apply handle_snapshot_rollup | apply close_all_rollup]. }
  destruct Hsame as (Hlast & Hsys & _).
  unfold monitor_wireguard. fold (after_loops c max_age peers offline_iter st).
  rewrite Hlast. split; intros H.
  - destruct (Qlt_le_dec 300 (time_time c - last_stats_update st)) as [L | L].
    + split; intros Hr; rewrite Hr.
      * split; [reflexivity |].
        unfold update_system_stats. simpl.
        rewrite (find_replaced (fun s => String.eqb (s_date s) (Py.strftime_date (now c)))).
        -- eexists. split; reflexivity.
        -- simpl. apply String.eqb_refl.
      * now repeat split.
    + exfalso. apply (Qlt_irrefl 300). eapply Qlt_le_trans; eassumption.
  - destruct (Qlt_le_dec 300 (time_time c - last_stats_update st)) as [L | L].
    + exfalso. apply (Qlt_irrefl 300). eapply Qlt_le_trans; eassumption.
    + now repeat split.
Qed.

Lemma monitor_wireguard_heartbeat_witness :
  (300 < time_time (clock_at 1301 0 21 41) - last_stats_update tick_at_1000)%Q
  /\ last_stats_update
       (monitor_wireguard (clock_at 1301 0 21 41) None [] [] tick_at_1000)
     = inject_Z 1301.
Proof.
  split; [vm_compute; reflexivity |].
  destruct (monitor_wireguard_heartbeat (clock_at 1301 0 21 41) None [] [] tick_at_1000)
    as [Hgt _].
  destruct Hgt as [Hok _]; [vm_compute; reflexivity |].
  destruct Hok as [Heq _]; [vm_compute; reflexivity |].
  rewrite Heq. reflexivity.
Defined.

(** *** The shape of a state: keys of users, events and live sessions *)

Definition ukeys (d : database) : list (Z * string) :=
  map (fun u => (u_id u, peer_pubkey u)) (users d).

Definition ekeys (d : database) : list (Z * Z * bool) :=
  map (fun e => (e_id e, e_user_id e, is_open e)) (events d).

Definition skeys (m : list (string * session)) : list (string * Z * Z) :=
  map (fun p => (fst p, event_id (snd p), s_user_id (snd p))) m.

Definition ek_id (t : Z * Z * bool) : Z := fst (fst t).
Definition sk_key (t : string * Z * Z) : string := fst (fst t).
Definition sk_user (t : string * Z * Z) : Z := snd t.

(** The invariant of a run, on the keys alone. *)
Record Inv5 (us : list (Z * string)) (useq : Z) (es : list (Z * Z * bool)) (eseq : Z)
    (ss : list (string * Z * Z)) : Prop := mk_Inv5 {
  inv_uid : NoDup (map fst us);
  inv_ubound : Forall (fun t => fst t <= useq) us;
  inv_valid : Forall (fun t => validate_pubkey (snd t) = true) us;
  inv_eid : NoDup (map ek_id es);
  inv_ebound : Forall (fun t => ek_id t <= eseq) es;
  inv_skey : NoDup (map sk_key ss);
  inv_suser : forall k eid uid, In (k, eid, uid) ss -> In (uid, k) us;
  inv_open : forall eid uid, In (eid, uid, true) es -> exists k, In (k, eid, uid) ss
}.

Definition Inv (st : state) : Prop :=
  Inv5 (ukeys (db st)) (users_seq (db st)) (ekeys (db st)) (events_seq (db st))
       (skeys (user_sessions st)).

Lemma Inv5_add_user us useq es eseq ss (pk : string) :
  Inv5 us useq es eseq ss -> validate_pubkey pk = true ->
  Inv5 (us ++ [(useq + 1, pk)]) (useq + 1) es eseq ss.
Proof.
  intros [H1 H2 H3 H4 H5 H6 H7 H8] Hv. constructor; try assumption.
  - rewrite map_app. simpl. apply NoDup_app; [assumption | repeat constructor; easy |].
    intros x Hin [Hx | []]. subst x. apply in_map_iff in Hin.
    destruct Hin as (t & Ht & Hin). rewrite Forall_forall in H2.
    specialize (H2 t Hin). lia.
  - apply Forall_app. split.
    + eapply Forall_impl; [| exact H2]. simpl. intros; lia.
    + repeat constructor. simpl. lia.
  - apply Forall_app. split; [assumption | now repeat constructor].
  - intros k eid uid Hin. apply in_or_app. left. eauto.
Qed.

Lemma Inv5_open us useq es eseq ss (pk : string) (uid : Z) :
  Inv5 us useq es eseq ss -> In (uid, pk) us -> ~ In pk (map sk_key ss) ->
  Inv5 us useq (es ++ [(eseq + 1, uid, true)]) (eseq + 1) (ss ++ [(pk, eseq + 1, uid)]).
Proof.
  intros [H1 H2 H3 H4 H5 H6 H7 H8] Hu Hfresh. constructor; try assumption.
  - rewrite map_app. simpl. apply NoDup_app; [assumption | repeat constructor; easy |].
    intros x Hin [Hx | []]. subst x. apply in_map_iff in Hin.
    destruct Hin as (t & Ht & Hin). rewrite Forall_forall in H5.
    specialize (H5 t Hin). unfold ek_id in *. simpl in Ht. lia.
  - apply Forall_app. split.
    + eapply Forall_impl; [| exact H5]. simpl. intros; lia.
    + repeat constructor. unfold ek_id. simpl. lia.
  - rewrite map_app. simpl. apply NoDup_app; [assumption | repeat constructor; easy |].
    intros x Hin [Hx | []]. subst x. contradiction.
  - intros k eid u Hin. apply in_app_or in Hin. destruct Hin as [Hin | [Heq | []]].
    + eauto.
    + now inversion Heq; subst.
  - intros eid u Hin. apply in_app_or in Hin. destruct Hin as [Hin | [Heq | []]].
    + destruct (H8 eid u Hin) as [k Hk]. exists k. apply in_or_app. now left.
    + inversion Heq; subst. exists pk. apply in_or_app. right. now left.
Qed.

(** [UPDATE events SET end_time = ... WHERE id = eid], on the keys. *)
Definition close_key (eid : Z) (t : Z * Z * bool) : Z * Z * bool :=
  if ek_id t =? eid then (fst (fst t), snd (fst t), false) else t.

Lemma close_key_id (eid : Z) (l : list (Z * Z * bool)) :
  map ek_id (map (close_key eid) l) = map ek_id l.
Proof.
  rewrite map_map. apply map_ext. intros [[a b] o]. unfold close_key, ek_id. simpl.
  now destruct (a =? eid).
Qed.

Lemma in_close_key_open (eid : Z) (l : list (Z * Z * bool)) (i u : Z) :
  In (i, u, true) (map (close_key eid) l) -> In (i, u, true) l /\ i <> eid.
Proof.
  intros Hin. apply in_map_iff in Hin. destruct Hin as ([[a b] o] & Ht & Hin).
  unfold close_key, ek_id in Ht. simpl in Ht.
  destruct (Z.eqb_spec a eid) as [E | E]; inversion Ht; subst. now split.
Qed.

Lemma Inv5_close us useq es eseq ss (eid : Z) :
  Inv5 us useq es eseq ss -> Inv5 us useq (map (close_key eid) es) eseq ss.
Proof.
  intros [H1 H2 H3 H4 H5 H6 H7 H8]. constructor; try assumption.
  - now rewrite close_key_id.
  - rewrite Forall_forall in *. intros t Hin. apply in_map_iff in Hin.
    destruct Hin as ([[a b] o] & Ht & Hin). specialize (H5 _ Hin). subst t.
    unfold close_key, ek_id in *. simpl in *. now destruct (a =? eid).
  - intros i u Hin. apply in_close_key_open in Hin. destruct Hin as [Hin _]. eauto.
Qed.

(** Rows that survive a DELETE or a [del] keep distinct keys. *)
Lemma NoDup_keys_filter {K V : Type} (key : V -> K) (keep : V -> bool) (rows : list V)
    (distinct : NoDup (map key rows)) :
  NoDup (map key (filter keep rows)).
Proof.
  induction rows as [| r rows IH]; simpl in *; [constructor |].
  apply NoDup_cons_iff in distinct. destruct distinct as [Hfresh Hrest].
  destruct (keep r); simpl; [| now apply IH].
  apply NoDup_cons_iff. split; [| now apply IH].
  rewrite in_map_iff in *. intros (r' & Hkey & Hin). apply Hfresh.
  apply filter_In in Hin. exists r'. tauto.
Qed.

Lemma NoDup_key_eq (ss : list (string * Z * Z)) k e1 u1 e2 u2 :
  NoDup (map sk_key ss) -> In (k, e1, u1) ss -> In (k, e2, u2) ss ->
  e1 = e2 /\ u1 = u2.
Proof.
  induction ss as [| t ss IH]; simpl; intros ND H1 H2; [contradiction |].
  inversion ND as [| ? ? Hn ND']; subst.
  destruct H1 as [H1 | H1], H2 as [H2 | H2].
  - subst t. now inversion H2.
  - subst t. exfalso. apply Hn. apply in_map_iff. exists (k, e2, u2). now split.
  - subst t. exfalso. apply Hn. apply in_map_iff. exists (k, e1, u1). now split.
  - now apply IH.
Qed.

(** Dropping the entry of [pk], once the event it names is closed. *)
Lemma Inv5_offline us useq es eseq ss (pk : string) (eid uid : Z) :
  Inv5 us useq es eseq ss -> In (pk, eid, uid) ss ->
  Inv5 us useq (map (close_key eid) es) eseq
       (filter (fun t => negb (String.eqb (sk_key t) pk)) ss).
Proof.
  intros HI Hs. pose proof (Inv5_close _ _ _ _ _ eid HI) as [H1 H2 H3 H4 H5 H6 H7 H8].
  constructor; try assumption.
  - now apply NoDup_keys_filter.
  - intros k e u Hin. apply filter_In in Hin. destruct Hin as [Hin _]. eauto.
  - intros i u Hin. pose proof (in_close_key_open _ _ _ _ Hin) as [Hin' Hne].
    destruct (H8 i u Hin) as [k Hk]. exists k. apply filter_In. split; [assumption |].
    unfold sk_key. simpl. destruct (String.eqb_spec k pk) as [E | E]; [| reflexivity].
    subst k. destruct (NoDup_key_eq ss pk i u eid uid H6 Hk Hs) as [E1 _]. contradiction.
Qed.

Lemma NoDup_fst_eq (us : list (Z * string)) (u : Z) (k k' : string) :
  NoDup (map fst us) -> In (u, k) us -> In (u, k') us -> k = k'.
Proof.
  induction us as [| t us IH]; simpl; intros ND H1 H2; [contradiction |].
  inversion ND as [| ? ? Hn ND']; subst.
  destruct H1 as [H1 | H1], H2 as [H2 | H2].
  - subst t. now inversion H2.
  - subst t. exfalso. apply Hn. apply in_map_iff. exists (u, k'). now split.
  - subst t. exfalso. apply Hn. apply in_map_iff. exists (u, k). now split.
  - now apply IH.
Qed.

(** Deleting a user all of whose events are closed, with its live entries. *)
Lemma Inv5_delete_user us useq es eseq ss (uid : Z) (foreign_keys : bool) :
  Inv5 us useq es eseq ss -> (forall eid, ~ In (eid, uid, true) es) ->
  Inv5 (filter (fun t => negb (fst t =? uid)) us) useq
       (if foreign_keys then filter (fun t => negb (snd (fst t) =? uid)) es else es) eseq
       (filter (fun t => negb (sk_user t =? uid)) ss).
Proof.
  intros [H1 H2 H3 H4 H5 H6 H7 H8] Hclosed. constructor.
  - now apply NoDup_keys_filter.
  - rewrite Forall_forall in *. intros t Hin. apply filter_In in Hin. now apply H2.
  - rewrite Forall_forall in *. intros t Hin. apply filter_In in Hin. now apply H3.
  - destruct foreign_keys; [now apply NoDup_keys_filter | assumption].
  - destruct foreign_keys; [| assumption].
    rewrite Forall_forall in *. intros t Hin. apply filter_In in Hin. now apply H5.
  - now apply NoDup_keys_filter.
  - intros k e u Hin. apply filter_In in Hin. destruct Hin as [Hin Hne].
    apply filter_In. split; [exact (H7 k e u Hin) |]. unfold sk_user in Hne. simpl in *. exact Hne.
  - intros i u Hin.
    assert (Hin' : In (i, u, true) es).
    { destruct foreign_keys; [apply filter_In in Hin; tauto | assumption]. }
    destruct (H8 i u Hin') as [k Hk]. exists k. apply filter_In. split; [assumption |].
    unfold sk_user. simpl. destruct (Z.eqb_spec u uid) as [E | E]; [| reflexivity].
    subst u. exfalso. exact (Hclosed i Hin').
Qed.

(** The loop of [delete_user] over the live map drops every entry of the
    user: there is at most one. *)
Lemma remove_first_is_filter (us : list (Z * string)) (uid : Z) (m : list (string * session)) :
  NoDup (map fst us) -> NoDup (map sk_key (skeys m)) ->
  (forall k e u, In (k, e, u) (skeys m) -> In (u, k) us) ->
  skeys (remove_first_session_of uid m)
  = filter (fun t => negb (sk_user t =? uid)) (skeys m).
Proof.
  intros Hu. induction m as [| [k s] m IH]; simpl; intros ND Hs; [reflexivity |].
  inversion ND as [| ? ? Hn ND']; subst.
  unfold sk_user at 1. simpl.
  destruct (Z.eqb_spec (s_user_id s) uid) as [E | E]; simpl.
  - symmetry. apply forallb_filter_id. apply forallb_forall. intros [[k' e'] u'] Hin.
    unfold sk_user. simpl. destruct (Z.eqb_spec u' uid) as [E' | E']; [| reflexivity].
    exfalso. subst u'. apply Hn.
    assert (k' = k).
    { apply (NoDup_fst_eq us uid); [assumption | |].
      - apply (Hs k' e' uid). now right.
      - apply (Hs k (event_id s) uid). left. now rewrite E. }
    subst k'. apply in_map_iff. exists (k, e', uid). now split.
  - f_equal. apply IH; [assumption |]. intros k' e' u' Hin. apply (Hs k' e' u'). now right.
Qed.

(** Closing a list of events, on the keys. *)
Definition close_keys (ids : list Z) (es : list (Z * Z * bool)) : list (Z * Z * bool) :=
  fold_left (fun es id => map (close_key id) es) ids es.

Lemma Inv5_close_keys us useq es eseq ss (ids : list Z) :
  Inv5 us useq es eseq ss -> Inv5 us useq (close_keys ids es) eseq ss.
Proof.
  unfold close_keys. revert es. induction ids as [| id ids IH]; intros es HI; simpl;
    [assumption |].
  apply IH. now apply Inv5_close.
Qed.

Lemma in_close_keys_open (ids : list Z) (es : list (Z * Z * bool)) (i u : Z) :
  In (i, u, true) (close_keys ids es) -> In (i, u, true) es /\ ~ In i ids.
Proof.
  unfold close_keys. revert es. induction ids as [| id ids IH]; intros es Hin; simpl in *.
  - tauto.
  - destruct (IH _ Hin) as [Hin' Hn]. apply in_close_key_open in Hin'.
    destruct Hin' as [Hin' Hne]. split; [assumption |]. intros [E | E]; [now subst | tauto].
Qed.

(** *** What the operations of the code do to the shape *)

Lemma ukeys_update_users (id : Z) (f : user -> user) (d : database) :
  (forall u, u_id (f u) = u_id u /\ peer_pubkey (f u) = peer_pubkey u) ->
  ukeys (update_users id f d) = ukeys d.
Proof.
  intros Hf. unfold ukeys, update_users. simpl. rewrite map_map. apply map_ext.
  intros u. destruct (u_id u =? id); [| reflexivity].
  destruct (Hf u) as [-> ->]. reflexivity.
Qed.

Lemma ekeys_update_events_same (id : Z) (f : event -> event) (d : database) :
  (forall e, e_id (f e) = e_id e /\ e_user_id (f e) = e_user_id e
             /\ is_open (f e) = is_open e) ->
  ekeys (update_events id f d) = ekeys d.
Proof.
  intros Hf. unfold ekeys, update_events. simpl. rewrite map_map. apply map_ext.
  intros e. destruct (e_id e =? id); [| reflexivity].
  destruct (Hf e) as (-> & -> & ->). reflexivity.
Qed.

Lemma ekeys_update_events_close (id : Z) (f : event -> event) (d : database) :
  (forall e, e_id (f e) = e_id e /\ e_user_id (f e) = e_user_id e
             /\ is_open (f e) = false) ->
  ekeys (update_events id f d) = map (close_key id) (ekeys d).
Proof.
  intros Hf. unfold ekeys, update_events. simpl. rewrite !map_map. apply map_ext.
  intros e. unfold close_key, ek_id. simpl. destruct (e_id e =? id); [| reflexivity].
  destruct (Hf e) as (-> & -> & ->). reflexivity.
Qed.

Lemma close_key_absent (id : Z) (l : list event) :
  find (fun e => e_id e =? id) l = None ->
  map (close_key id) (map (fun e => (e_id e, e_user_id e, is_open e)) l)
  = map (fun e => (e_id e, e_user_id e, is_open e)) l.
Proof.
  induction l as [| e l IH]; simpl; intros Hf; [reflexivity |].
  unfold close_key at 1, ek_id. simpl.
  destruct (e_id e =? id); [discriminate |]. now rewrite IH.
Qed.

Lemma close_session_shape (c : clock) (id : Z) (frx ftx : option Z) (d : database) :
  ukeys (close_session c id frx ftx d) = ukeys d
  /\ users_seq (close_session c id frx ftx d) = users_seq d
  /\ ekeys (close_session c id frx ftx d) = map (close_key id) (ekeys d)
  /\ events_seq (close_session c id frx ftx d) = events_seq d.
Proof.
  unfold close_session. destruct (select_event_by_id id d) as [e |] eqn:He.
  - split; [| split; [| split]]; try reflexivity.
    + unfold update_events, update_daily_traffic_stats, update_user_traffic_stats.
      unfold ukeys. simpl. rewrite map_map. apply map_ext. intros u.
      now destruct (u_id u =? e_user_id e).
    + rewrite ekeys_update_events_close by (intros; now repeat split). reflexivity.
  - split; [| split; [| split]]; try reflexivity.
    unfold ekeys. now rewrite close_key_absent.
Qed.

Lemma dict_get_in_skeys (k : string) (m : list (string * session)) (s : session) :
  dict_get k m = Some s -> In (k, event_id s, s_user_id s) (skeys m).
Proof.
  induction m as [| [k' v] m IH]; simpl; [discriminate |].
  destruct (String.eqb_spec k' k) as [E | E].
  - intros H. inversion H; subst. now left.
  - intros H. right. now apply IH.
Qed.

Lemma dict_get_none_notin (k : string) (m : list (string * session)) :
  dict_get k m = None -> ~ In k (map sk_key (skeys m)).
Proof.
  induction m as [| [k' v] m IH]; simpl; [tauto |].
  destruct (String.eqb_spec k' k) as [E | E]; [discriminate |].
  intros H [H1 | H1]; [contradiction | now apply IH].
Qed.

Lemma skeys_dict_set_new (k : string) (v : session) (m : list (string * session)) :
  dict_get k m = None -> skeys (dict_set k v m) = (skeys m ++ [(k, event_id v, s_user_id v)])%list.
Proof.
  induction m as [| [k' v'] m IH]; simpl; [reflexivity |].
  destruct (String.eqb_spec k' k) as [E | E]; [discriminate |].
  intros H. simpl. now rewrite IH.
Qed.

Lemma skeys_dict_set_same (k : string) (v s : session) (m : list (string * session)) :
  dict_get k m = Some s -> event_id v = event_id s -> s_user_id v = s_user_id s ->
  skeys (dict_set k v m) = skeys m.
Proof.
  intros Hg He Hu. induction m as [| [k' v'] m IH]; simpl in *; [discriminate |].
  destruct (String.eqb_spec k' k) as [E | E].
  - inversion Hg; subst. simpl. now rewrite He, Hu.
  - simpl. now rewrite IH.
Qed.

Lemma skeys_dict_del (k : string) (m : list (string * session)) :
  skeys (dict_del k m) = filter (fun t => negb (String.eqb (sk_key t) k)) (skeys m).
Proof.
  unfold dict_del. induction m as [| [k' v'] m IH]; simpl; [reflexivity |].
  unfold sk_key at 1. simpl. destruct (String.eqb k' k); simpl; now rewrite IH.
Qed.

Lemma find_some_in_ukeys (pubkey : string) (d : database) (u : user) :
  select_user_by_pubkey pubkey d = Some u -> In (u_id u, pubkey) (ukeys d).
Proof.
  unfold select_user_by_pubkey, ukeys. intros H. apply find_some in H.
  destruct H as [Hin Heq]. apply String.eqb_eq in Heq. subst pubkey.
  apply in_map_iff. exists u. now split.
Qed.

(** What resolving a user does to the shape: nothing, or one new row whose
    key has passed [validate_pubkey]. *)
Lemma get_or_create_user_shape (c : clock) (pubkey : string) (d : database) :
  let r := get_or_create_user c pubkey d in
  ekeys (snd r) = ekeys d /\ events_seq (snd r) = events_seq d
  /\ ((ukeys (snd r) = ukeys d /\ users_seq (snd r) = users_seq d)
      \/ (ukeys (snd r) = (ukeys d ++ [(users_seq d + 1, pubkey)])%list
          /\ users_seq (snd r) = users_seq d + 1 /\ validate_pubkey pubkey = true))
  /\ (forall uid nick en, fst r = Ok (uid, nick, en) -> In (uid, pubkey) (ukeys (snd r))).
Proof.
  unfold get_or_create_user.
  destruct (validate_pubkey pubkey) eqn:Hv; simpl;
    [| repeat split; try tauto; discriminate].
  destruct (select_user_by_pubkey pubkey d) as [u |] eqn:Hu.
  - pose proof (find_some_in_ukeys pubkey d u Hu) as Hin.
    assert (Hdis : forall ts, ukeys (update_users (u_id u) (set_enabled (Some 0) ts) d)
                              = ukeys d).
    { intros ts. apply ukeys_update_users. intros; now split. }
    destruct (truthy (expiry_date u));
      [| simpl; repeat split; try tauto; intros ? ? ? E; inversion E; now subst].
    destruct (Py.strptime _);
      [| simpl; repeat split; try tauto; intros ? ? ? E; inversion E; now subst].
    destruct (Py.dt_gt _ _); simpl.
    + rewrite Hdis. repeat split; try tauto. intros ? ? ? E; inversion E; now subst.
    + repeat split; try tauto. intros ? ? ? E; inversion E; now subst.
  - unfold insert_user. destruct (users_constraints _ _); simpl.
    + split; [reflexivity |]. split; [reflexivity |]. split.
      * right. unfold ukeys. simpl. rewrite map_app. simpl. now repeat split.
      * intros uid nick en E. inversion E; subst. unfold ukeys. simpl.
        rewrite map_app. apply in_or_app. right. now left.
    + repeat split; try tauto. discriminate.
Qed.

Lemma Inv_same (st st' : state) :
  ukeys (db st') = ukeys (db st) -> users_seq (db st') = users_seq (db st) ->
  ekeys (db st') = ekeys (db st) -> events_seq (db st') = events_seq (db st) ->
  skeys (user_sessions st') = skeys (user_sessions st) ->
  Inv st -> Inv st'.
Proof.
  unfold Inv. intros -> -> -> -> ->. tauto.
Qed.

Lemma update_user_status_shape (c : clock) (uid s : Z) (d : database) :
  ukeys (update_user_status c uid s d) = ukeys d
  /\ users_seq (update_user_status c uid s d) = users_seq d
  /\ ekeys (update_user_status c uid s d) = ekeys d
  /\ events_seq (update_user_status c uid s d) = events_seq d.
Proof.
  unfold update_user_status. rewrite ukeys_update_users by (intros; now split).
  now repeat split.
Qed.

Lemma update_session_traffic_shape (c : clock) (id a b : Z) (d : database) :
  ukeys (update_session_traffic c id a b d) = ukeys d
  /\ users_seq (update_session_traffic c id a b d) = users_seq d
  /\ ekeys (update_session_traffic c id a b d) = ekeys d
  /\ events_seq (update_session_traffic c id a b d) = events_seq d.
Proof.
  unfold update_session_traffic.
  rewrite ekeys_update_events_same by (intros; now repeat split).
  now repeat split.
Qed.

Lemma create_new_session_shape (c : clock) (uid a b : Z) (lip ep : option string)
    (d : database) :
  let r := create_new_session c uid a b lip ep d in
  fst r = events_seq d + 1
  /\ ukeys (snd r) = ukeys d /\ users_seq (snd r) = users_seq d
  /\ ekeys (snd r) = (ekeys d ++ [(events_seq d + 1, uid, true)])%list
  /\ events_seq (snd r) = events_seq d + 1.
Proof.
  unfold create_new_session, ekeys. simpl. rewrite map_app. now repeat split.
Qed.

Lemma Inv_make (d : database) (m : list (string * session)) (w : list wg_call) (l : Q)
    (e : sqlite) :
  Inv5 (ukeys d) (users_seq d) (ekeys d) (events_seq d) (skeys m) ->
  Inv (mk_state d m w l e).
Proof. exact (fun H => H). Qed.

Lemma Inv_handle_peer_online (c : clock) (pubkey : string) (info : peer_info) (st : state) :
  Inv st -> Inv (handle_peer_online c pubkey info st).
Proof.
  intros HI. unfold handle_peer_online.
  pose proof (get_or_create_user_shape c pubkey (db st)) as Hshape. simpl in Hshape.
  destruct (get_or_create_user c pubkey (db st)) as [r d'].
  simpl in Hshape. destruct Hshape as (Hek & Hes & Hus & Hin).
  assert (HI' : Inv (with_db st d')).
  { unfold Inv in *. simpl. rewrite Hek, Hes.
    destruct Hus as [[-> ->] | (-> & -> & Hv)]; [assumption |].
    now apply Inv5_add_user. }
  destruct r as [[[uid nick] en] | e]; [| exact HI'].
  specialize (Hin uid nick en eq_refl).
  change (db (with_db st d')) with d'.
  destruct (match en with Some 0 => true | _ => false end).
  - destruct (update_user_status_shape c uid 0 d') as (A & B & C & D).
    eapply Inv_same; [| | | | | exact HI']; simpl; assumption || reflexivity.
  - simpl user_sessions.
    destruct (dict_get pubkey (user_sessions st)) as [s |] eqn:Hs.
    + destruct (session_delta s (rx info) (tx info)) as [[[a b] a'] b'].
      destruct (update_session_traffic_shape c (event_id s) a b d') as (A & B & C & D).
      eapply Inv_same; [| | | | | exact HI']; simpl; try assumption.
      now apply (skeys_dict_set_same pubkey _ s).
    + pose proof (create_new_session_shape c uid (rx info) (tx info) None (endpoint info) d')
        as Hnew.
      destruct (create_new_session c uid (rx info) (tx info) None (endpoint info) d')
        as [eid d1].
      simpl in Hnew. destruct Hnew as (-> & A1 & B1 & C1 & D1).
      destruct (update_user_status_shape c uid 1 d1) as (A & B & C & D).
      apply Inv_make. rewrite A, B, C, D, A1, B1, C1, D1.
      rewrite skeys_dict_set_new by assumption. simpl.
      apply Inv5_open; [exact HI' | assumption |].
      now apply dict_get_none_notin.
Qed.

Lemma Inv_handle_peer_offline (c : clock) (pubkey reason : string) (st : state) :
  Inv st -> Inv (handle_peer_offline c pubkey reason st).
Proof.
  intros HI. unfold handle_peer_offline.
  destruct (dict_get pubkey (user_sessions st)) as [s |] eqn:Hs; [| assumption].
  destruct (close_session_shape c (event_id s) None None (db st)) as (A & B & C & D).
  destruct (update_user_status_shape c (s_user_id s) 0
              (close_session c (event_id s) None None (db st))) as (A' & B' & C' & D').
  apply Inv_make. rewrite A', B', C', D', A, B, C, D, skeys_dict_del.
  apply (Inv5_offline _ _ _ _ _ pubkey (event_id s) (s_user_id s)); [assumption |].
  now apply dict_get_in_skeys.
Qed.

Lemma Inv_handle_snapshot (c : clock) (max_age : option Z)
    (peers : list (string * peer_info)) (st : state) :
  Inv st -> Inv (handle_snapshot c max_age peers st).
Proof.
  unfold handle_snapshot. revert st.
  induction peers as [| p peers IH]; intros st HI; simpl; [assumption |].
  apply IH. destruct (is_peer_online c (handshake (snd p)) max_age).
  - now apply Inv_handle_peer_online.
  - destruct (dict_get (fst p) (user_sessions st)); [| assumption].
    now apply Inv_handle_peer_offline.
Qed.

Lemma Inv_close_all (c : clock) (keys : list string) (st : state) :
  Inv st -> Inv (fold_left (fun st k => handle_peer_offline c k "disappeared" st) keys st).
Proof.
  revert st. induction keys as [| k keys IH]; intros st HI; simpl; [assumption |].
  apply IH. now apply Inv_handle_peer_offline.
Qed.

Lemma Inv_monitor_wireguard (c : clock) (max_age : option Z)
    (peers : list (string * peer_info)) (offline_iter : list string) (st : state) :
  Inv st -> Inv (monitor_wireguard c max_age peers offline_iter st).
Proof.
  intros HI. unfold monitor_wireguard.
  destruct (Qlt_le_dec _ _); [destruct (update_system_stats_raises _) |].
  - apply Inv_close_all, Inv_handle_snapshot, HI.
  - eapply Inv_same; [| | | | | apply Inv_close_all, Inv_handle_snapshot, HI];
      reflexivity.
  - apply Inv_close_all, Inv_handle_snapshot, HI.
Qed.

Lemma filter_map_comm {A B : Type} (f : A -> B) (p : B -> bool) (l : list A) :
  map f (filter (fun x => p (f x)) l) = filter p (map f l).
Proof.
  induction l as [| x l IH]; simpl; [reflexivity |].
  destruct (p (f x)); simpl; now rewrite IH.
Qed.

Lemma close_sessions_shape (c : clock) (ids : list Z) (d : database) :
  let d1 := fold_left (fun d id => close_session c id (Some 0) (Some 0) d) ids d in
  ukeys d1 = ukeys d /\ users_seq d1 = users_seq d
  /\ ekeys d1 = close_keys ids (ekeys d) /\ events_seq d1 = events_seq d.
Proof.
  revert d. induction ids as [| id ids IH]; intros d; simpl; [now repeat split |].
  destruct (close_session_shape c id (Some 0) (Some 0) d) as (A & B & C & D).
  destruct (IH (close_session c id (Some 0) (Some 0) d)) as (A' & B' & C' & D').
  simpl in *. rewrite A', B', C', D', A, B, C, D. now repeat split.
Qed.

Lemma open_event_listed (uid eid : Z) (d : database) :
  In (eid, uid, true) (ekeys d) -> In eid (open_events_of uid d).
Proof.
  unfold ekeys, open_events_of. intros Hin. apply in_map_iff in Hin.
  destruct Hin as (e & He & Hin). inversion He; subst.
  apply in_map_iff. exists e. split; [reflexivity |]. apply filter_In.
  split; [assumption |]. rewrite Z.eqb_refl. simpl. assumption.
Qed.

Lemma Inv_delete_user (foreign_keys : bool) (c : clock) (uid : Z) (st : state) :
  Inv st -> Inv (snd (delete_user foreign_keys c uid st)).
Proof.
  intros HI. unfold delete_user.
  destruct (select_user_by_id uid (db st)) as [u |]; [| exact HI].
  simpl. apply Inv_make.
  destruct (close_sessions_shape c (open_events_of uid (db st)) (db st))
    as (A & B & C & D). simpl in A, B, C, D.
  set (d1 := fold_left (fun d id => close_session c id (Some 0) (Some 0) d)
                       (open_events_of uid (db st)) (db st)) in *.
  assert (Hu : ukeys (delete_user_row foreign_keys uid d1)
               = filter (fun t => negb (fst t =? uid)) (ukeys (db st))).
  { rewrite <- A. unfold ukeys, delete_user_row. simpl.
    apply (filter_map_comm (fun u => (u_id u, peer_pubkey u))
                           (fun t => negb (fst t =? uid))). }
  assert (He : ekeys (delete_user_row foreign_keys uid d1)
               = if foreign_keys
                 then filter (fun t => negb (snd (fst t) =? uid))
                             (close_keys (open_events_of uid (db st)) (ekeys (db st)))
                 else close_keys (open_events_of uid (db st)) (ekeys (db st))).
  { rewrite <- C. unfold ekeys, delete_user_row. simpl. destruct foreign_keys; [| reflexivity].
    apply (filter_map_comm (fun e => (e_id e, e_user_id e, is_open e))
                           (fun t => negb (snd (fst t) =? uid))). }
  rewrite Hu, He.
  change (users_seq (delete_user_row foreign_keys uid d1)) with (users_seq d1).
  change (events_seq (delete_user_row foreign_keys uid d1)) with (events_seq d1).
  rewrite B, D. cbn [user_sessions].
  rewrite (remove_first_is_filter (ukeys (db st)));
    [| apply HI | apply HI | apply HI].
  apply Inv5_delete_user.
  - now apply Inv5_close_keys.
  - intros eid Hin. apply in_close_keys_open in Hin. destruct Hin as [Hin Hn].
    apply Hn. now apply open_event_listed.
Qed.

Lemma insert_user_shape (row : Z -> user) (d : database) :
  (forall id, u_id (row id) = id) ->
  let r := insert_user row d in
  ekeys (snd r) = ekeys d /\ events_seq (snd r) = events_seq d
  /\ ((exists e, fst r = Raise e) /\ snd r = d
      \/ fst r = Ok (users_seq d + 1)
         /\ ukeys (snd r)
            = (ukeys d ++ [(users_seq d + 1, peer_pubkey (row (users_seq d + 1)))])%list
         /\ users_seq (snd r) = users_seq d + 1).
Proof.
  intros Hrow. unfold insert_user. destruct (users_constraints _ _); simpl.
  - split; [reflexivity |]. split; [reflexivity |]. right.
    unfold ukeys. simpl. rewrite map_app. simpl. rewrite Hrow. now repeat split.
  - split; [reflexivity |]. split; [reflexivity |]. left. split; [now exists e | reflexivity].
Qed.

Lemma validate_pubkey_of_true (v : pyval) :
  validate_pubkey_of v = Ok true -> exists key, v = PStr key /\ validate_pubkey key = true.
Proof.
  unfold validate_pubkey_of. destruct (py_truthy v); simpl; [| discriminate].
  destruct v; try discriminate. intros H. inversion H. eauto.
Qed.

(** The row of a create call whose values were all bound. *)
Lemma new_user_row_shape (e : sqlite) (ts key ip cfg : string)
    (nick ml ph bw dl ex nt : pyval) (row : Z -> user) :
  new_user_row e ts key ip cfg nick ml ph bw dl ex nt = Ok row ->
  exists n m p b d x t : sqlval,
    bind 3 nick = Ok n /\ bind 4 ml = Ok m /\ bind 5 ph = Ok p /\ bind 6 bw = Ok b
    /\ bind 7 dl = Ok d /\ bind 8 ex = Ok x /\ bind 9 nt = Ok t
    /\ row = (fun id =>
                mk_user id key (Some ip) (text_column e n) (text_column e m) (text_column e p)
                        None (integer_column e b) (integer_column e d) (text_column e x)
                        0 (Some 1) 0 0 None (text_column e t) (Some cfg) ts ts).
Proof.
  unfold new_user_row, try.
  destruct (bind 3 nick) as [n |]; [| discriminate].
  destruct (bind 4 ml) as [m |]; [| discriminate].
  destruct (bind 5 ph) as [p |]; [| discriminate].
  destruct (bind 6 bw) as [b |]; [| discriminate].
  destruct (bind 7 dl) as [d |]; [| discriminate].
  destruct (bind 8 ex) as [x |]; [| discriminate].
  destruct (bind 9 nt) as [t |]; [| discriminate].
  intros H. inversion H. exists n, m, p, b, d, x, t. now repeat split.
Qed.

(** What a create call leaves: the state as it was, the state with the key
    added to the interface and removed again, or the state with the key
    added and the row inserted. *)
Lemma create_user_cases (c : clock) (pubkey nick ml ph bw dl ex nt : pyval) (st : state) :
  let r := create_user c pubkey nick ml ph bw dl ex nt st in
  ((exists e, fst r = Raise e) /\ snd r = st)
  \/ (exists key ip,
        pubkey = PStr key
        /\ (exists msg, fst r = Raise (RuntimeError msg))
        /\ get_next_available_ip (db st) = Ok ip
        /\ snd r = snd (remove_wg_peer key (snd (add_wg_peer key ip st))))
  \/ (exists key ip row uid d',
        pubkey = PStr key /\ validate_pubkey key = true
        /\ select_user_by_pubkey key (db st) = None
        /\ get_next_available_ip (db st) = Ok ip
        /\ new_user_row (engine st) (get_current_timestamp c) key ip
              (generate_wg_config None key ip) nick ml ph bw dl ex nt = Ok row
        /\ insert_user row (db st) = (Ok uid, d')
        /\ r = (Ok (uid, ip, generate_wg_config None key ip),
                with_db (snd (add_wg_peer key ip st)) d')).
Proof.
  unfold create_user.
  destruct (validate_pubkey_of pubkey) as [[|] | e0] eqn:Hv;
    [| left; split; [eexists |]; reflexivity ..].
  destruct (validate_pubkey_of_true _ Hv) as (key & -> & Hkey).
  destruct (if py_truthy ml then validate_email_of ml else Ok true) as [[|] | e0];
    [| left; split; [eexists |]; reflexivity ..].
  destruct (select_user_by_pubkey key (db st)) eqn:Hsel;
    [left; split; [eexists |]; reflexivity |].
  destruct (get_next_available_ip (db st)) as [ip | e0] eqn:Hip;
    [| left; destruct e0; split; try eexists; reflexivity].
  unfold add_wg_peer. cbn [negb fst snd engine db].
  destruct (new_user_row (engine st) _ key ip _ nick ml ph bw dl ex nt) as [row | e1] eqn:Hrow.
  - destruct (insert_user row (db st)) as [[uid | e2] d'] eqn:Hins.
    + right. right. exists key, ip, row, uid, d'. now repeat split.
    + right. left. exists key, ip. split; [reflexivity |]. split; [eexists; reflexivity |].
      split; reflexivity.
  - right. left. exists key, ip. split; [reflexivity |]. split; [eexists; reflexivity |].
    split; reflexivity.
Qed.

Lemma Inv_create_user (c : clock) (pubkey nick ml ph bw dl ex nt : pyval) (st : state) :
  Inv st -> Inv (snd (create_user c pubkey nick ml ph bw dl ex nt st)).
Proof.
  intros HI.
  destruct (create_user_cases c pubkey nick ml ph bw dl ex nt st)
    as [[_ ->] | [(key & ip & _ & _ & _ & ->)
                 | (key & ip & row & uid & d' & _ & Hkey & _ & _ & Hrow & Hins & ->)]];
    [exact HI | exact HI |].
  destruct (new_user_row_shape _ _ _ _ _ _ _ _ _ _ _ _ _ Hrow)
    as (n & m & p & b & d & x & t & _ & _ & _ & _ & _ & _ & _ & ->).
  match type of Hins with
  | insert_user ?row _ = _ =>
      pose proof (insert_user_shape row (db st) (fun id => eq_refl)) as Hshape
  end.
  rewrite Hins in Hshape. simpl in Hshape. destruct Hshape as (A & B & Hcase).
  destruct Hcase as [[[e He] _] | (_ & Hu & Hs)]; [discriminate He |].
  simpl. apply Inv_make. rewrite A, B, Hu, Hs.
  now apply Inv5_add_user.
Qed.

(** The state in which [update_user] runs its UPDATE: the one it was called
    in, but for a call to the interface. *)
Definition interface_called (st st1 : state) : Prop :=
  st1 = st
  \/ (exists key, st1 = snd (remove_wg_peer key st))
  \/ (exists key ip, st1 = snd (add_wg_peer key ip st)).

(** What an update call leaves: that state, or that state with the row
    rewritten. *)
Lemma update_user_cases (c : clock) (uid : Z) (k : list (string * pyval)) (st : state) :
  let r := update_user c uid k st in
  exists st1,
    interface_called st st1
    /\ (snd r = st1
        \/ exists values u,
             bind_from 1 (updates_of k) = Ok values
             /\ select_user_by_id uid (db st1) = Some u
             /\ update_checks (engine st1) values u = Ok tt
             /\ r = (Ok (Some true),
                     with_db st1
                       (update_users uid
                          (apply_update (engine st1) values (get_current_timestamp c))
                          (db st1)))).
Proof.
  unfold update_user.
  destruct (update_user_args k) as [[| p l] | e] eqn:Hargs;
    [exists st; split; [now left | now left] | | exists st; split; [now left | now left]].
  assert (Hup : updates_of k = p :: l).
  { unfold update_user_args in Hargs. destruct (updates_of k); [discriminate |].
    destruct (match dict_get "mail" k with
              | Some m => if py_truthy m then validate_email_of m else Ok true
              | None => Ok true
              end) as [[|] |]; now inversion Hargs. }
  rewrite Hup.
  set (st1 := match dict_get "enabled" k with Some v => _ | None => st end).
  assert (H1 : interface_called st st1).
  { unfold st1. destruct (dict_get "enabled" k) as [v |]; [| now left].
    destruct (eq_int v 0).
    - destruct (select_user_by_id uid (db st)) as [u |]; [| now left].
      right. left. now exists (peer_pubkey u).
    - destruct (eq_int v 1); [| now left].
      destruct (select_user_by_id uid (db st)) as [u |]; [| now left].
      destruct (client_ip u) as [ip |]; [| now left].
      destruct (String.eqb ip ""); [now left |].
      right. right. now exists (peer_pubkey u), ip. }
  clearbody st1. exists st1. split; [exact H1 |].
  destruct (bind_from 1 (p :: l)) as [values | e]; [| now left].
  destruct (select_user_by_id uid (db st1)) as [u |] eqn:Hu; [| now left].
  destruct (update_checks (engine st1) values u) as [[] | e] eqn:Hc; [| now left].
  right. exists values, u. now repeat split.
Qed.

Lemma Inv_interface_called (st st1 : state) : interface_called st st1 -> Inv st -> Inv st1.
Proof.
  intros [-> | [[key ->] | (key & ip & ->)]] HI; exact HI.
Qed.

Lemma apply_update_keys (e : sqlite) (values : list (string * sqlval)) (ts : string) (u : user) :
  u_id (apply_update e values ts u) = u_id u
  /\ peer_pubkey (apply_update e values ts u) = peer_pubkey u.
Proof. now split. Qed.

Lemma Inv_update_user (c : clock) (uid : Z) (k : list (string * pyval)) (st : state) :
  Inv st -> Inv (snd (update_user c uid k st)).
Proof.
  intros HI.
  destruct (update_user_cases c uid k st) as (st1 & H1 & [-> | (values & u & _ & _ & _ & ->)]).
  - exact (Inv_interface_called _ _ H1 HI).
  - pose proof (Inv_interface_called _ _ H1 HI) as HI1.
    simpl. eapply Inv_same; [| | | | | exact HI1]; try reflexivity.
    simpl. apply ukeys_update_users. intros; now split.
Qed.

(** The state a create request leaves is the state [create_user] leaves, or
    the state as it was. *)
Lemma handle_create_user_api_state (c : clock) (data : pyval) (st : state) :
  snd (handle_create_user_api c data st) = st
  \/ exists pubkey nick ml ph bw dl ex nt,
       snd (handle_create_user_api c data st)
       = snd (create_user c pubkey nick ml ph bw dl ex nt st).
Proof.
  unfold handle_create_user_api. destruct data as [| b | n | x | s | l | d]; try (now left).
  - destruct (contains _ _); now left.
  - destruct (existsb _ _); now left.
  - destruct (dict_get "peer_pubkey" d) as [pk |]; [| now left].
    right. exists pk, (get "nickname" PNone d), (get "mail" PNone d), (get "phone" PNone d),
      (get "bandwidth_limit" (PInt 0) d), (get "data_limit" (PInt 0) d),
      (get "expiry_date" PNone d), (get "note" PNone d).
    destruct (create_user _ _ _ _ _ _ _ _ _ _) as [[[[uid ip] cfg] | e] st1];
      [reflexivity | destruct e; reflexivity].
Qed.

(** The state an update request leaves is the state [update_user] leaves,
    or the state as it was. *)
Lemma handle_update_user_api_state (c : clock) (uid : Z) (data : pyval) (st : state) :
  snd (handle_update_user_api c uid data st) = st
  \/ exists k, snd (handle_update_user_api c uid data st) = snd (update_user c uid k st).
Proof.
  unfold handle_update_user_api. destruct data as [| b | n | x | s | l | d]; try (now left).
  destruct (dict_get "user_id" d); [now left |].
  destruct (int64 uid).
  - right. exists d.
    destruct (update_user c uid d st) as [[r | e] st1]; [reflexivity | destruct e; reflexivity].
  - left. destruct (update_user_unbound d) as [r | e]; [reflexivity | destruct e; reflexivity].
Qed.

(** The state an action leaves: the state as it was, the state an update of
    the flag leaves, the state with the totals of the user reset, or the
    state a close of the user's session leaves. *)
Lemma handle_user_action_api_state (c : clock) (uid : Z) (action : string) (st : state) :
  snd (handle_user_action_api c uid action st) = st
  \/ (exists v, snd (handle_user_action_api c uid action st)
                = snd (update_user c uid (enabled_update v) st))
  \/ snd (handle_user_action_api c uid action st)
     = with_db st (update_users uid
                     (fun u => set_totals 0 0 (last_login u) (get_current_timestamp c) u)
                     (db st))
  \/ (exists pubkey, snd (handle_user_action_api c uid action st)
                     = handle_peer_offline c pubkey "kicked" st).
Proof.
  unfold handle_user_action_api.
  destruct (String.eqb action "enable").
  { destruct (negb (int64 uid)); [now left |]. right. left. exists 1.
    now destruct (update_user c uid (enabled_update 1) st) as [[r | e] st']. }
  destruct (String.eqb action "disable").
  { destruct (negb (int64 uid)); [now left |]. right. left. exists 0.
    now destruct (update_user c uid (enabled_update 0) st) as [[r | e] st']. }
  destruct (String.eqb action "reset").
  { destruct (negb (int64 uid)); [now left |]. right. right. now left. }
  destruct (String.eqb action "kick"); [| now left].
  destruct (session_key_of uid (user_sessions st)) as [k |]; [| now left].
  right. right. right. now exists k.
Qed.

(** The state a DELETE leaves is the state [delete_user] leaves, or the
    state as it was. *)
Lemma handle_delete_state (foreign_keys : bool) (c : clock) (uid : Z) (st : state) :
  snd (handle_delete foreign_keys c uid st) = st
  \/ snd (handle_delete foreign_keys c uid st) = snd (delete_user foreign_keys c uid st).
Proof.
  unfold handle_delete. destruct (negb (int64 uid)); [now left |]. right.
  destruct (delete_user foreign_keys c uid st) as [[r | e] st1];
    [reflexivity | destruct e; reflexivity].
Qed.

Lemma Inv_handle_user_action_api (c : clock) (uid : Z) (action : string) (st : state) :
  Inv st -> Inv (snd (handle_user_action_api c uid action st)).
Proof.
  intros HI.
  destruct (handle_user_action_api_state c uid action st)
    as [-> | [[v ->] | [-> | [k ->]]]].
  - exact HI.
  - now apply Inv_update_user.
  - simpl. eapply Inv_same; [| | | | | exact HI]; try reflexivity.
    simpl. apply ukeys_update_users. intros; now split.
  - now apply Inv_handle_peer_offline.
Qed.

(** *** Runs *)

(** One operation of the process: a tick of the monitor on some snapshot,
    or one of the mutating requests of the API.  Each reads the clock anew;
    [foreign_keys] is the pragma of the SQLite build. *)
Inductive step (foreign_keys : bool) (st : state) : state -> Prop :=
| step_tick (c : clock) (max_age : option Z) (peers : list (string * peer_info))
    (offline_iter : list string) :
    NoDup (map fst peers) ->
    Permutation offline_iter
      (offline_pubkeys peers (handle_snapshot c max_age peers st)) ->
    step foreign_keys st (monitor_wireguard c max_age peers offline_iter st)
| step_create (c : clock) (data : pyval) :
    step foreign_keys st (snd (handle_create_user_api c data st))
| step_action (c : clock) (user_id : Z) (action : string) :
    step foreign_keys st (snd (handle_user_action_api c user_id action st))
| step_update (c : clock) (user_id : Z) (data : pyval) :
    step foreign_keys st (snd (handle_update_user_api c user_id data st))
| step_delete (c : clock) (user_id : Z) :
    step foreign_keys st (snd (handle_delete foreign_keys c user_id st)).

Inductive reachable (foreign_keys : bool) : state -> Prop :=
| reach_initial (e : sqlite) : reachable foreign_keys (initial_state_on e)
| reach_step (st st' : state) :
    reachable foreign_keys st -> step foreign_keys st st' -> reachable foreign_keys st'.

Lemma Inv_initial (e : sqlite) : Inv (initial_state_on e).
Proof.
  constructor; simpl; try constructor; intros; contradiction.
Qed.

Lemma Inv_step (foreign_keys : bool) (st st' : state) :
  Inv st -> step foreign_keys st st' -> Inv st'.
Proof.
  intros HI Hstep. destruct Hstep.
  - now apply Inv_monitor_wireguard.
  - destruct (handle_create_user_api_state c data st)
      as [-> | (pk & a1 & a2 & a3 & a4 & a5 & a6 & a7 & ->)]; [exact HI |].
    now apply Inv_create_user.
  - now apply Inv_handle_user_action_api.
  - destruct (handle_update_user_api_state c user_id data st) as [-> | (k & ->)]; [exact HI |].
    now apply Inv_update_user.
  - destruct (handle_delete_state foreign_keys c user_id st) as [-> | ->]; [exact HI |].
    now apply Inv_delete_user.
Qed.

Lemma Inv_reachable (foreign_keys : bool) (st : state) :
  reachable foreign_keys st -> Inv st.
Proof.
  induction 1 as [| st st' _ IH Hstep]; [apply Inv_initial |].
  eapply Inv_step; eassumption.
Qed.

(** *** At most one open event per user *)





Lemma after_first_tick_reachable : reachable false after_first_tick.
Proof.
  apply (reach_step false initial_state); [apply reach_initial |].
  unfold after_first_tick. apply step_tick.
  - repeat constructor. simpl. tauto.
  - vm_compute. constructor.
Defined.

(** *** Creating a user whose key is already stored *)

(** C6, as stated, fails on the message and on the status: the key of
    peer A is stored, and a request that repeats it with a malformed mail
    address is refused with the e-mail error, the mail being checked before
    the key is looked up; with a mail that is a number, [re.match] raises and
    the answer is a 500. *)
Lemma create_user_duplicate_bad_mail :
  option_map u_id (select_user_by_pubkey pkA (db after_first_tick)) = Some 1
  /\ handle_create_user_api (clock_at 43300 12 1 40)
       (PDict [("peer_pubkey", PStr pkA); ("mail", PStr "nobody")]) after_first_tick
     = (error_response "Invalid email format" 400, after_first_tick)
  /\ handle_create_user_api (clock_at 43300 12 1 40)
       (PDict [("peer_pubkey", PStr pkA); ("mail", PInt 5)]) after_first_tick
     = (error_response
          "Failed to create user: expected string or bytes-like object, got 'int'" 500,
        after_first_tick).
Proof. vm_compute. repeat split; reflexivity. Qed.

(** C6, amended: in a reachable state, a create-user request whose
    peer_pubkey is already in the users table leaves the state as it was: no
    users row is inserted and neither [add_wg_peer] nor [remove_wg_peer] is
    called.  The answer depends on the mail of the request, whatever JSON
    value it is: 400 "Public key already exists" when it is absent, falsy
    or a well-formed address; 400 "Invalid email format" when it is a
    malformed address; and 500 with the TypeError of [re.match] when it is
    truthy and no str. *)
Theorem create_user_duplicate_pubkey
    (foreign_keys : bool) (c : clock) (data : list (string * pyval)) (st : state)
    (pubkey : string) (u : user) :
  reachable foreign_keys st ->
  dict_get "peer_pubkey" data = Some (PStr pubkey) ->
  select_user_by_pubkey pubkey (db st) = Some u ->
  snd (handle_create_user_api c (PDict data) st) = st
  /\ users (db (snd (handle_create_user_api c (PDict data) st))) = users (db st)
  /\ wg_calls (snd (handle_create_user_api c (PDict data) st)) = wg_calls st
  /\ (py_truthy (get "mail" PNone data) = false ->
      fst (handle_create_user_api c (PDict data) st)
      = error_response "Public key already exists" 400)
  /\ (forall address : string,
        get "mail" PNone data = PStr address -> validate_email address = true ->
        fst (handle_create_user_api c (PDict data) st)
        = error_response "Public key already exists" 400)
  /\ (forall address : string,
        get "mail" PNone data = PStr address -> validate_email address = false ->
        fst (handle_create_user_api c (PDict data) st)
        = error_response "Invalid email format" 400)
  /\ (py_truthy (get "mail" PNone data) = true ->
      (forall address : string, get "mail" PNone data <> PStr address) ->
      fst (handle_create_user_api c (PDict data) st)
      = error_response
          ("Failed to create user: expected string or bytes-like object, got '"
           ++ type_name (get "mail" PNone data) ++ "'") 500).
Proof.
  intros Hreach Hpk Hu.
  assert (Hv : validate_pubkey pubkey = true).
  { pose proof (inv_valid _ _ _ _ _ (Inv_reachable foreign_keys st Hreach)) as Hall.
    rewrite Forall_forall in Hall.
    exact (Hall _ (find_some_in_ukeys pubkey (db st) u Hu)). }
  assert (Hne : String.eqb pubkey "" = false).
  { destruct (String.eqb pubkey "") eqn:E; [| reflexivity].
    apply String.eqb_eq in E. subst pubkey. discriminate Hv. }
  unfold handle_create_user_api, create_user. rewrite Hpk.
  unfold validate_pubkey_of. cbn [py_truthy]. rewrite Hne, Hv. cbn [negb].
  generalize (get "mail" PNone data). intros ml.
  assert (Hfalsy : py_truthy ml = false -> validate_email_of ml = Ok true).
  { intros E. unfold validate_email_of. now rewrite E. }
  destruct (py_truthy ml) eqn:Ht.
  - unfold validate_email_of. rewrite Ht. cbn [negb].
    destruct ml as [| b | n | x | s | l | d];
      try (cbn [type_name]; repeat split; try reflexivity; try discriminate;
           intros; try discriminate; reflexivity).
    destruct (validate_email s) eqn:Hs; rewrite ?Hu; cbn [fst snd];
      repeat split; try reflexivity; try discriminate.
    + intros a Ha. inversion Ha; subst. congruence.
    + intros _ Hno. now elim (Hno s).
    + intros a Ha. inversion Ha; subst. congruence.
    + intros _ Hno. now elim (Hno s).
  - rewrite Hu. cbn [fst snd]. repeat split; try reflexivity; try discriminate.
    intros a Ha Hva. subst ml. unfold validate_email in Hva.
    cbn [py_truthy] in Ht. apply negb_false_iff in Ht. rewrite Ht in Hva. discriminate.
Qed.

Lemma create_user_duplicate_pubkey_witness :
  reachable false after_first_tick
  /\ handle_create_user_api (clock_at 43300 12 1 40)
       (PDict [("peer_pubkey", PStr pkA); ("nickname", PStr "again")]) after_first_tick
     = (error_response "Public key already exists" 400, after_first_tick).
Proof.
  split; [exact after_first_tick_reachable |].
  destruct (create_user_duplicate_pubkey false (clock_at 43300 12 1 40)
              [("peer_pubkey", PStr pkA); ("nickname", PStr "again")]
              after_first_tick pkA
              (mk_user 1 pkA None None None None None (SInteger 0) (SInteger 0) None 1
                       (Some 1) 0 0 None None None "2024-01-01 12:00:00"
                       "2024-01-01 12:00:00"))
    as (Hst & _ & _ & Hans & _).
  - exact after_first_tick_reachable.
  - reflexivity.
  - vm_compute. reflexivity.
  - rewrite (surjective_pairing (handle_create_user_api _ _ _)), Hst, Hans; reflexivity.
Defined.

(** *** The address allocator *)

Definition create_req (pubkey : string) : pyval := PDict [("peer_pubkey", PStr pubkey)].

(** Nine users created through the API on an empty store. *)
Definition nine_users : state :=
  fold_left
    (fun st tail =>
       snd (handle_create_user_api (clock_at 43200 12 0 0) (create_req (key_of tail)) st))
    ["A"; "B"; "C"; "D"; "E"; "F"; "G"; "H"; "I"] initial_state.

(** C4 (code_bug): [get_next_available_ip] answers "10.0.0.2" on an empty
    store, but with the addresses 10.0.0.2 to 10.0.0.10 assigned it sorts
    them as strings, takes "10.0.0.9" for the largest and answers
    "10.0.0.10", which is assigned already; the tenth create request then
    fails on the UNIQUE constraint of client_ip. *)
Theorem get_next_available_ip_reuses_address :
  get_next_available_ip empty_db = Ok "10.0.0.2"
  /\ assigned_ips (db nine_users)
     = ["10.0.0.2"; "10.0.0.3"; "10.0.0.4"; "10.0.0.5"; "10.0.0.6"; "10.0.0.7";
        "10.0.0.8"; "10.0.0.9"; "10.0.0.10"]
  /\ last (Py.sort (assigned_ips (db nine_users))) "" = "10.0.0.9"
  /\ get_next_available_ip (db nine_users) = Ok "10.0.0.10"
  /\ In "10.0.0.10" (assigned_ips (db nine_users))
  /\ fst (handle_create_user_api (clock_at 43260 12 1 0) (create_req (key_of "J")) nine_users)
     = error_response
         "Failed to create user in database: UNIQUE constraint failed: users.client_ip" 500.
Proof.
  vm_compute. repeat split; try reflexivity.
  do 8 right. now left.
Qed.

(* ===================================================================== *)
(** ** Further properties: the session engine *)
(* ===================================================================== *)

Lemma with_db_same (st : state) : with_db st (db st) = st.
Proof. now destruct st. Qed.

(** X1: a snapshot entry whose key does not pass [validate_pubkey] changes
    nothing: no user, no event and no live-map entry is made for it. *)
Theorem handle_peer_online_malformed_key
    (c : clock) (pubkey : string) (info : peer_info) (st : state) :
  validate_pubkey pubkey = false ->
  handle_peer_online c pubkey info st = st.
Proof.
  intros Hv. unfold handle_peer_online, get_or_create_user. rewrite Hv. simpl.
  apply with_db_same.
Qed.

Lemma handle_peer_online_malformed_key_witness :
  validate_pubkey "not-a-key" = false
  /\ handle_peer_online (clock_at 43210 12 0 10) "not-a-key"
       (mk_peer_info 5 5 43210 None) after_first_tick = after_first_tick.
Proof.
  split; [reflexivity |].
  apply handle_peer_online_malformed_key. reflexivity.
Defined.

Lemma select_by_pubkey_update (pubkey : string) (id : Z) (f : user -> user)
    (d : database) (u : user) :
  (forall x, peer_pubkey (f x) = peer_pubkey x) ->
  select_user_by_pubkey pubkey d = Some u ->
  select_user_by_pubkey pubkey (update_users id f d)
  = Some (if u_id u =? id then f u else u).
Proof.
  intros Hf. unfold select_user_by_pubkey, update_users. simpl.
  induction (users d) as [| x l IH]; simpl; [discriminate |].
  destruct (u_id x =? id) eqn:E.
  - rewrite Hf. destruct (String.eqb (peer_pubkey x) pubkey).
    + intros H. inversion H; subst. now rewrite E.
    + exact IH.
  - destruct (String.eqb (peer_pubkey x) pubkey).
    + intros H. inversion H; subst. now rewrite E.
    + exact IH.
Qed.

(** The expiry test of [get_or_create_user] on a stored row. *)
Definition expired (c : clock) (u : user) : bool :=
  truthy (expiry_date u)
  && match Py.strptime (match expiry_date u with Some s => s | None => "" end) with
     | Some expiry => Py.dt_gt (now c) expiry
     | None => false
     end.

Lemma get_or_create_user_existing (c : clock) (pubkey : string) (d : database) (u : user) :
  validate_pubkey pubkey = true ->
  select_user_by_pubkey pubkey d = Some u ->
  get_or_create_user c pubkey d
  = if expired c u
    then (Ok (u_id u, str_or (nickname u) (default_nickname (u_id u)), Some 0),
          update_users (u_id u) (set_enabled (Some 0) (get_current_timestamp c)) d)
    else (Ok (u_id u, str_or (nickname u) (default_nickname (u_id u)), enabled u), d).
Proof.
  intros Hv Hu. unfold get_or_create_user, expired. rewrite Hv, Hu. simpl negb. cbv iota.
  destruct (truthy (expiry_date u)); simpl; [| reflexivity].
  destruct (Py.strptime _); [| reflexivity].
  now destruct (Py.dt_gt _ _).
Qed.

(** X2: a fresh snapshot entry of a stored user who is disabled, or whose
    expiry date has passed, opens nothing: the events table and the live map
    stay as they were, and the stored row ends with status 0 and, when the
    expiry has passed, with enabled 0. *)
Theorem handle_peer_online_disabled_or_expired
    (c : clock) (pubkey : string) (info : peer_info) (st : state) (u : user) :
  validate_pubkey pubkey = true ->
  select_user_by_pubkey pubkey (db st) = Some u ->
  enabled u = Some 0 \/ expired c u = true ->
  events (db (handle_peer_online c pubkey info st)) = events (db st)
  /\ user_sessions (handle_peer_online c pubkey info st) = user_sessions st
  /\ exists u' : user,
       select_user_by_pubkey pubkey (db (handle_peer_online c pubkey info st)) = Some u'
       /\ u_status u' = 0
       /\ (expired c u = true -> enabled u' = Some 0)
       /\ (expired c u = false -> enabled u' = enabled u).
Proof.
  intros Hv Hu Hdis. unfold handle_peer_online.
  rewrite (get_or_create_user_existing c pubkey (db st) u Hv Hu).
  destruct (expired c u) eqn:Hex.
  - cbv iota beta. unfold with_db, update_user_status. cbn [db user_sessions].
    split; [reflexivity |]. split; [reflexivity |].
    erewrite select_by_pubkey_update; [| reflexivity |].
    2:{ erewrite select_by_pubkey_update; [reflexivity | reflexivity | exact Hu]. }
    rewrite Z.eqb_refl. simpl. rewrite Z.eqb_refl.
    eexists. split; [reflexivity |]. simpl. split; [reflexivity |].
    split; [reflexivity | discriminate].
  - destruct Hdis as [Hen | Hno]; [| discriminate].
    rewrite Hen. cbv iota beta. unfold with_db, update_user_status. cbn [db user_sessions].
    split; [reflexivity |]. split; [reflexivity |].
    erewrite select_by_pubkey_update; [| reflexivity | exact Hu].
    rewrite Z.eqb_refl.
    eexists. split; [reflexivity |]. simpl. split; [reflexivity |].
    split; [discriminate | now rewrite Hen].
Qed.

(** Peer A, its session open, after its expiry was set to the last day of
    2023: the next fresh snapshot disables it. *)
Definition expired_db : state :=
  snd (update_user (clock_at 43200 12 0 0) 1
         [("expiry_date", PStr "2023-12-31 23:59:59")]
         after_first_tick).

(** C2, as stated, fails for a live session whose user is disabled: peer A
    holds the session opened at 12:00:00 with both baselines at 10000, its
    expiry has passed, and a fresh snapshot with the counters at 10500 and
    10700 writes nothing: the event keeps session_rx = session_tx = 0 where
    the claim has 500 and 700, and the baselines stay. *)
Lemma handle_peer_online_expired_not_updated :
  dict_get pkA (user_sessions expired_db) = Some (mk_session 1 10000 10000 43200 1 "User_1")
  /\ option_map (fun e => (session_rx e, session_tx e, end_time e))
       (select_event_by_id 1
          (db (handle_peer_online (clock_at 43210 12 0 10) pkA
                 (mk_peer_info 10500 10700 43210 None) expired_db)))
     = Some (0, 0, None)
  /\ user_sessions (handle_peer_online (clock_at 43210 12 0 10) pkA
                      (mk_peer_info 10500 10700 43210 None) expired_db)
     = user_sessions expired_db.
Proof. vm_compute. repeat split; reflexivity. Qed.

Lemma handle_peer_online_disabled_or_expired_witness :
  option_map enabled
    (select_user_by_pubkey pkA
       (db (handle_peer_online (clock_at 43210 12 0 10) pkA
              (mk_peer_info 20000 20000 43210 None) expired_db)))
  = Some (Some 0)
  /\ events (db (handle_peer_online (clock_at 43210 12 0 10) pkA
                   (mk_peer_info 20000 20000 43210 None) expired_db))
     = events (db expired_db).
Proof.
  destruct (handle_peer_online_disabled_or_expired (clock_at 43210 12 0 10) pkA
              (mk_peer_info 20000 20000 43210 None) expired_db
              (mk_user 1 pkA None None None None None (SInteger 0) (SInteger 0)
                       (Some "2023-12-31 23:59:59") 1 (Some 1) 0 0 None None None
                       "2024-01-01 12:00:00" "2024-01-01 12:00:00"))
    as (Hev & _ & u' & Hsel & _ & Hen & _).
  - vm_compute. reflexivity.
  - vm_compute. reflexivity.
  - right. vm_compute. reflexivity.
  - split; [| exact Hev]. rewrite Hsel. simpl. rewrite Hen; [reflexivity |].
    vm_compute. reflexivity.
Defined.

Lemma dict_set_absent {V : Type} (k : string) (v : V) (m : list (string * V)) :
  dict_get k m = None -> dict_set k v m = (m ++ [(k, v)])%list.
Proof.
  induction m as [| [k' v'] m IH]; simpl; [reflexivity |].
  destruct (String.eqb k' k); [discriminate |].
  intros H. now rewrite IH.
Qed.

(** X3: a fresh snapshot entry of a key that has no live-map entry, for a
    user that resolves and is not disabled, opens a session: one event row
    is appended (next id, start_time and last_update now, counters 0, no
    end_time, ONLINE, login_ip NULL, the endpoint of the snapshot), and the
    live map gets an entry for the key whose baselines are the current
    counters of the snapshot. *)
Theorem handle_peer_online_opens
    (c : clock) (pubkey : string) (info : peer_info) (st : state)
    (user_id : Z) (nick : string) (en : option Z) (d1 : database) :
  get_or_create_user c pubkey (db st) = (Ok (user_id, nick, en), d1) ->
  en <> Some 0 ->
  dict_get pubkey (user_sessions st) = None ->
  events (db (handle_peer_online c pubkey info st))
  = (events (db st)
     ++ [mk_event (events_seq (db st) + 1) user_id
           (get_current_timestamp c) None (get_current_timestamp c) 0 0 None
           (endpoint info) ONLINE 0])%list
  /\ events_seq (db (handle_peer_online c pubkey info st)) = events_seq (db st) + 1
  /\ user_sessions (handle_peer_online c pubkey info st)
     = (user_sessions st
        ++ [(pubkey, mk_session (events_seq (db st) + 1) (rx info) (tx info)
                                (handshake info) user_id nick)])%list.
Proof.
  intros Hg Hen Hs.
  pose proof (get_or_create_user_events c pubkey (db st)) as Hev.
  pose proof (get_or_create_user_shape c pubkey (db st)) as Hshape.
  rewrite Hg in Hev, Hshape. simpl in Hev, Hshape. destruct Hshape as (_ & Hseq & _).
  unfold handle_peer_online. rewrite Hg.
  assert (Hdis : match en with Some 0 => true | _ => false end = false).
  { destruct en as [[| p | p] |]; try reflexivity. now elim Hen. }
  rewrite Hdis. simpl user_sessions. rewrite Hs.
  unfold create_new_session, update_user_status, update_users, with_db.
  cbn [db events events_seq user_sessions with_users].
  rewrite Hev, Hseq, (dict_set_absent pubkey _ _ Hs). now repeat split.
Qed.

Lemma handle_peer_online_opens_witness :
  events_seq (db (handle_peer_online (clock_at 43210 12 0 10) pkB
                    (mk_peer_info 7 9 43210 None) after_first_tick)) = 2
  /\ dict_get pkB (user_sessions
       (handle_peer_online (clock_at 43210 12 0 10) pkB
          (mk_peer_info 7 9 43210 None) after_first_tick))
     = Some (mk_session 2 7 9 43210 2 "User_2").
Proof.
  destruct (handle_peer_online_opens (clock_at 43210 12 0 10) pkB
              (mk_peer_info 7 9 43210 None) after_first_tick 2 "User_2" (Some 1)
              (snd (get_or_create_user (clock_at 43210 12 0 10) pkB (db after_first_tick))))
    as (_ & Hseq & Hmap).
  - vm_compute. reflexivity.
  - discriminate.
  - vm_compute. reflexivity.
  - split; [rewrite Hseq; reflexivity |]. rewrite Hmap. vm_compute. reflexivity.
Defined.

(** *** Live entries and open events *)

(** Every live-map entry names an event that is open and belongs to the
    entry's user. *)
Definition live_open (es : list (Z * Z * bool)) (ss : list (string * Z * Z)) : Prop :=
  forall k eid uid, In (k, eid, uid) ss -> In (eid, uid, true) es.

Definition Live_open (st : state) : Prop :=
  live_open (ekeys (db st)) (skeys (user_sessions st)).

Lemma NoDup_ek_eq (es : list (Z * Z * bool)) (i u u' : Z) (o o' : bool) :
  NoDup (map ek_id es) -> In (i, u, o) es -> In (i, u', o') es -> u = u' /\ o = o'.
Proof.
  induction es as [| t es IH]; simpl; intros ND H1 H2; [contradiction |].
  apply NoDup_cons_iff in ND. destruct ND as [Hn ND].
  destruct H1 as [H1 | H1], H2 as [H2 | H2].
  - subst t. now inversion H2.
  - subst t. exfalso. apply Hn. apply in_map_iff. exists (i, u', o'). now split.
  - subst t. exfalso. apply Hn. apply in_map_iff. exists (i, u, o). now split.
  - now apply IH.
Qed.

Lemma close_key_keeps (eid i u : Z) (es : list (Z * Z * bool)) :
  In (i, u, true) es -> i <> eid -> In (i, u, true) (map (close_key eid) es).
Proof.
  intros Hin Hne. apply in_map_iff. exists (i, u, true). split; [| assumption].
  unfold close_key, ek_id. simpl. destruct (Z.eqb_spec i eid); [contradiction | reflexivity].
Qed.

Lemma close_keys_keeps (ids : list Z) (i u : Z) (es : list (Z * Z * bool)) :
  In (i, u, true) es -> ~ In i ids -> In (i, u, true) (close_keys ids es).
Proof.
  unfold close_keys. revert es. induction ids as [| id ids IH]; intros es Hin Hn; simpl;
    [assumption |].
  apply IH.
  - apply close_key_keeps; [assumption |]. intros E. apply Hn. now left.
  - intros H. apply Hn. now right.
Qed.

Lemma live_open_offline us useq es eseq ss (pk : string) (eid uid : Z) :
  Inv5 us useq es eseq ss -> live_open es ss -> In (pk, eid, uid) ss ->
  live_open (map (close_key eid) es)
            (filter (fun t => negb (String.eqb (sk_key t) pk)) ss).
Proof.
  intros HI HL Hs k e u Hin. apply filter_In in Hin. destruct Hin as [Hin Hk].
  apply close_key_keeps; [now apply (HL k) |].
  intros E. subst e.
  destruct (NoDup_ek_eq es eid u uid true true (inv_eid _ _ _ _ _ HI)
              (HL _ _ _ Hin) (HL _ _ _ Hs)) as [Eu _]. subst u.
  pose proof (NoDup_fst_eq us uid k pk (inv_uid _ _ _ _ _ HI)
                (inv_suser _ _ _ _ _ HI _ _ _ Hin) (inv_suser _ _ _ _ _ HI _ _ _ Hs)) as Ek.
  subst k. unfold sk_key in Hk. simpl in Hk. now rewrite String.eqb_refl in Hk.
Qed.

Lemma live_open_delete us useq es eseq ss (uid : Z) (ids : list Z) (foreign_keys : bool) :
  Inv5 us useq es eseq ss -> live_open es ss ->
  (forall i, In i ids -> exists o, In (i, uid, o) es) ->
  live_open
    (if foreign_keys
     then filter (fun t => negb (snd (fst t) =? uid)) (close_keys ids es)
     else close_keys ids es)
    (filter (fun t => negb (sk_user t =? uid)) ss).
Proof.
  intros HI HL Hids k e u Hin. apply filter_In in Hin. destruct Hin as [Hin Hu].
  unfold sk_user in Hu. simpl in Hu.
  assert (Hopen : In (e, u, true) (close_keys ids es)).
  { apply close_keys_keeps; [now apply (HL k) |].
    intros Hi. destruct (Hids e Hi) as [o Ho].
    destruct (NoDup_ek_eq es e u uid true o (inv_eid _ _ _ _ _ HI) (HL _ _ _ Hin) Ho)
      as [E _].
    subst u. now rewrite Z.eqb_refl in Hu. }
  destruct foreign_keys; [| assumption].
  apply filter_In. split; [assumption | exact Hu].
Qed.

Lemma Live_same (st st' : state) :
  ekeys (db st') = ekeys (db st) ->
  skeys (user_sessions st') = skeys (user_sessions st) ->
  Live_open st -> Live_open st'.
Proof. unfold Live_open. now intros -> ->. Qed.

Lemma Live_handle_peer_online (c : clock) (pubkey : string) (info : peer_info) (st : state) :
  Live_open st -> Live_open (handle_peer_online c pubkey info st).
Proof.
  intros HL. unfold handle_peer_online.
  pose proof (get_or_create_user_shape c pubkey (db st)) as Hshape. simpl in Hshape.
  destruct (get_or_create_user c pubkey (db st)) as [r d'].
  simpl in Hshape. destruct Hshape as (Hek & _ & _ & _).
  assert (HL' : Live_open (with_db st d')).
  { eapply Live_same; [| | exact HL]; [exact Hek | reflexivity]. }
  destruct r as [[[uid nick] en] | e]; [| exact HL'].
  change (db (with_db st d')) with d'.
  destruct (match en with Some 0 => true | _ => false end).
  - destruct (update_user_status_shape c uid 0 d') as (_ & _ & C & _).
    eapply Live_same; [| | exact HL']; [exact C | reflexivity].
  - simpl user_sessions.
    destruct (dict_get pubkey (user_sessions st)) as [s |] eqn:Hs.
    + destruct (session_delta s (rx info) (tx info)) as [[[a b] a'] b'].
      destruct (update_session_traffic_shape c (event_id s) a b d') as (_ & _ & C & _).
      eapply Live_same; [| | exact HL']; [exact C |].
      now apply (skeys_dict_set_same pubkey _ s).
    + pose proof (create_new_session_shape c uid (rx info) (tx info) None (endpoint info) d')
        as Hnew.
      destruct (create_new_session c uid (rx info) (tx info) None (endpoint info) d')
        as [eid d1].
      simpl in Hnew. destruct Hnew as (-> & _ & _ & C1 & _).
      destruct (update_user_status_shape c uid 1 d1) as (_ & _ & C & _).
      unfold Live_open. cbn [db user_sessions].
      rewrite C, C1, Hek, skeys_dict_set_new by assumption. simpl.
      intros k e u Hin. apply in_app_or in Hin. apply in_or_app.
      destruct Hin as [Hin | [Heq | []]].
      * left. exact (HL _ _ _ Hin).
      * right. left. now inversion Heq.
Qed.

Lemma Live_handle_peer_offline (c : clock) (pubkey reason : string) (st : state) :
  Inv st -> Live_open st -> Live_open (handle_peer_offline c pubkey reason st).
Proof.
  intros HI HL. unfold handle_peer_offline.
  destruct (dict_get pubkey (user_sessions st)) as [s |] eqn:Hs; [| assumption].
  destruct (close_session_shape c (event_id s) None None (db st)) as (_ & _ & C & _).
  destruct (update_user_status_shape c (s_user_id s) 0
              (close_session c (event_id s) None None (db st))) as (_ & _ & C' & _).
  unfold Live_open. cbn [db user_sessions]. rewrite C', C, skeys_dict_del.
  eapply live_open_offline; [exact HI | exact HL |].
  apply (dict_get_in_skeys pubkey _ s Hs).
Qed.

(** The invariant of a run together with the link from live entries to
    open events. *)
Definition Inv2 (st : state) : Prop := Inv st /\ Live_open st.

Lemma Inv2_handle_peer_online (c : clock) (pubkey : string) (info : peer_info) (st : state) :
  Inv2 st -> Inv2 (handle_peer_online c pubkey info st).
Proof.
  intros [HI HL]. split; [now apply Inv_handle_peer_online | now apply Live_handle_peer_online].
Qed.

Lemma Inv2_handle_peer_offline (c : clock) (pubkey reason : string) (st : state) :
  Inv2 st -> Inv2 (handle_peer_offline c pubkey reason st).
Proof.
  intros [HI HL].
  split; [now apply Inv_handle_peer_offline | now apply Live_handle_peer_offline].
Qed.

Lemma Inv2_handle_snapshot (c : clock) (max_age : option Z)
    (peers : list (string * peer_info)) (st : state) :
  Inv2 st -> Inv2 (handle_snapshot c max_age peers st).
Proof.
  unfold handle_snapshot. revert st.
  induction peers as [| p peers IH]; intros st HI; simpl; [assumption |].
  apply IH. destruct (is_peer_online c (handshake (snd p)) max_age).
  - now apply Inv2_handle_peer_online.
  - destruct (dict_get (fst p) (user_sessions st)); [| assumption].
    now apply Inv2_handle_peer_offline.
Qed.

Lemma Inv2_close_all (c : clock) (keys : list string) (st : state) :
  Inv2 st -> Inv2 (fold_left (fun st k => handle_peer_offline c k "disappeared" st) keys st).
Proof.
  revert st. induction keys as [| k keys IH]; intros st HI; simpl; [assumption |].
  apply IH. now apply Inv2_handle_peer_offline.
Qed.

Lemma Live_monitor_wireguard (c : clock) (max_age : option Z)
    (peers : list (string * peer_info)) (offline_iter : list string) (st : state) :
  Inv2 st -> Live_open (monitor_wireguard c max_age peers offline_iter st).
Proof.
  intros HI.
  pose proof (Inv2_close_all c offline_iter _ (Inv2_handle_snapshot c max_age peers st HI))
    as [_ HL].
  unfold monitor_wireguard. destruct (Qlt_le_dec _ _); [| exact HL].
  destruct (update_system_stats_raises _); [exact HL |].
  eapply Live_same; [| | exact HL]; reflexivity.
Qed.

Lemma open_events_have_user (uid : Z) (d : database) (i : Z) :
  In i (open_events_of uid d) -> exists o, In (i, uid, o) (ekeys d).
Proof.
  unfold open_events_of, ekeys. intros Hin. apply in_map_iff in Hin.
  destruct Hin as (e & He & Hin). apply filter_In in Hin. destruct Hin as [Hin P].
  apply andb_true_iff in P. destruct P as [U _]. apply Z.eqb_eq in U.
  exists (is_open e). apply in_map_iff. exists e. subst. now split.
Qed.

Lemma Live_delete_user (foreign_keys : bool) (c : clock) (uid : Z) (st : state) :
  Inv st -> Live_open st -> Live_open (snd (delete_user foreign_keys c uid st)).
Proof.
  intros HI HL. unfold delete_user.
  destruct (select_user_by_id uid (db st)) as [u |]; [| exact HL].
  unfold remove_wg_peer, with_db, Live_open. cbn [db user_sessions snd].
  destruct (close_sessions_shape c (open_events_of uid (db st)) (db st))
    as (_ & _ & C & _). simpl in C.
  set (d1 := fold_left (fun d id => close_session c id (Some 0) (Some 0) d)
                       (open_events_of uid (db st)) (db st)) in *.
  assert (He : ekeys (delete_user_row foreign_keys uid d1)
               = if foreign_keys
                 then filter (fun t => negb (snd (fst t) =? uid))
                             (close_keys (open_events_of uid (db st)) (ekeys (db st)))
                 else close_keys (open_events_of uid (db st)) (ekeys (db st))).
  { rewrite <- C. unfold ekeys, delete_user_row. simpl. destruct foreign_keys; [| reflexivity].
    apply (filter_map_comm (fun e => (e_id e, e_user_id e, is_open e))
                           (fun t => negb (snd (fst t) =? uid))). }
  rewrite He.
  rewrite (remove_first_is_filter (ukeys (db st))); [| apply HI | apply HI | apply HI].
  eapply live_open_delete; [exact HI | exact HL |].
  apply open_events_have_user.
Qed.

Lemma create_user_frame (c : clock) (pubkey nick ml ph bw dl ex nt : pyval) (st : state) :
  events (db (snd (create_user c pubkey nick ml ph bw dl ex nt st))) = events (db st)
  /\ user_sessions (snd (create_user c pubkey nick ml ph bw dl ex nt st)) = user_sessions st.
Proof.
  destruct (create_user_cases c pubkey nick ml ph bw dl ex nt st)
    as [[_ ->] | [(key & ip & _ & _ & _ & ->)
                 | (key & ip & row & uid & d' & _ & _ & _ & _ & _ & Hins & ->)]];
    [now split | now split |].
  pose proof (insert_user_events row (db st)) as He. rewrite Hins in He.
  simpl in *. now split.
Qed.

Lemma interface_called_frame (st st1 : state) :
  interface_called st st1 ->
  db st1 = db st /\ user_sessions st1 = user_sessions st /\ engine st1 = engine st.
Proof. intros [-> | [[key ->] | (key & ip & ->)]]; now repeat split. Qed.

Lemma update_user_frame (c : clock) (uid : Z) (k : list (string * pyval)) (st : state) :
  events (db (snd (update_user c uid k st))) = events (db st)
  /\ user_sessions (snd (update_user c uid k st)) = user_sessions st.
Proof.
  destruct (update_user_cases c uid k st) as (st1 & H1 & [-> | (values & u & _ & _ & _ & ->)]);
    destruct (interface_called_frame _ _ H1) as (Hd & Hs & _).
  - now rewrite Hd, Hs.
  - simpl. now rewrite Hd, Hs.
Qed.

Lemma Live_frame (st st' : state) :
  events (db st') = events (db st) /\ user_sessions st' = user_sessions st ->
  Live_open st -> Live_open st'.
Proof.
  intros [He Hs]. apply Live_same; [unfold ekeys; now rewrite He | now rewrite Hs].
Qed.

Lemma Inv2_step (foreign_keys : bool) (st st' : state) :
  Inv2 st -> step foreign_keys st st' -> Inv2 st'.
Proof.
  intros [HI HL] Hstep. split; [exact (Inv_step foreign_keys st st' HI Hstep) |].
  destruct Hstep.
  - apply Live_monitor_wireguard. now split.
  - destruct (handle_create_user_api_state c data st)
      as [-> | (pk & a1 & a2 & a3 & a4 & a5 & a6 & a7 & ->)]; [exact HL |].
    exact (Live_frame _ _ (create_user_frame c pk a1 a2 a3 a4 a5 a6 a7 st) HL).
  - destruct (handle_user_action_api_state c user_id action st)
      as [-> | [[v ->] | [-> | [k ->]]]].
    + exact HL.
    + exact (Live_frame _ _ (update_user_frame c user_id (enabled_update v) st) HL).
    + apply (Live_frame st); [now split | exact HL].
    + now apply Live_handle_peer_offline.
  - destruct (handle_update_user_api_state c user_id data st) as [-> | (k & ->)]; [exact HL |].
    exact (Live_frame _ _ (update_user_frame c user_id k st) HL).
  - destruct (handle_delete_state foreign_keys c user_id st) as [-> | ->]; [exact HL |].
    now apply Live_delete_user.
Qed.

Lemma Inv2_reachable (foreign_keys : bool) (st : state) :
  reachable foreign_keys st -> Inv2 st.
Proof.
  induction 1 as [e | st st' _ IH Hstep].
  - split; [apply Inv_initial | intros k ev u []].
  - eapply Inv2_step; eassumption.
Qed.

(** *** From keys back to rows *)

Lemma find_by_id_unique {A : Type} (key : A -> Z) (rows : list A) (x : A) :
  NoDup (map key rows) -> In x rows -> find (fun y => key y =? key x) rows = Some x.
Proof.
  induction rows as [| r rows IH]; simpl; intros ND Hin; [contradiction |].
  apply NoDup_cons_iff in ND. destruct ND as [Hn ND].
  destruct Hin as [-> | Hin]; [now rewrite Z.eqb_refl |].
  destruct (Z.eqb_spec (key r) (key x)) as [E | E]; [| now apply IH].
  exfalso. apply Hn. rewrite E. now apply in_map.
Qed.

Lemma dict_get_unique {V : Type} (k : string) (v : V) (m : list (string * V)) :
  NoDup (dict_keys m) -> In (k, v) m -> dict_get k m = Some v.
Proof.
  unfold dict_keys. induction m as [| [k' v'] m IH]; simpl; intros ND Hin; [contradiction |].
  apply NoDup_cons_iff in ND. destruct ND as [Hn ND].
  destruct Hin as [E | Hin].
  - inversion E; subst. now rewrite String.eqb_refl.
  - destruct (String.eqb_spec k' k) as [E | E]; [| now apply IH].
    exfalso. apply Hn. subst k'. apply in_map_iff. exists (k, v). now split.
Qed.

Lemma dict_get_in {V : Type} (k : string) (v : V) (m : list (string * V)) :
  dict_get k m = Some v -> In (k, v) m.
Proof.
  induction m as [| [k' v'] m IH]; simpl; [discriminate |].
  destruct (String.eqb_spec k' k) as [E | E].
  - intros H. inversion H; subst. now left.
  - intros H. right. now apply IH.
Qed.

Lemma skeys_keys (m : list (string * session)) : map sk_key (skeys m) = dict_keys m.
Proof.
  unfold skeys, dict_keys. rewrite map_map. now apply map_ext.
Qed.

Lemma ekeys_ids (d : database) : map ek_id (ekeys d) = map e_id (events d).
Proof.
  unfold ekeys. rewrite map_map. now apply map_ext.
Qed.

Lemma ukeys_ids (d : database) : map fst (ukeys d) = map u_id (users d).
Proof.
  unfold ukeys. rewrite map_map. now apply map_ext.
Qed.

Lemma in_ekeys_select (d : database) (eid uid : Z) (o : bool) :
  NoDup (map e_id (events d)) -> In (eid, uid, o) (ekeys d) ->
  exists e, select_event_by_id eid d = Some e /\ In e (events d)
            /\ e_id e = eid /\ e_user_id e = uid /\ is_open e = o.
Proof.
  intros ND Hin. apply in_map_iff in Hin. destruct Hin as (e & He & Hin).
  inversion He; subst. exists e. split; [| now repeat split].
  unfold select_event_by_id. now apply (find_by_id_unique e_id).
Qed.

Lemma in_ukeys_select (d : database) (uid : Z) (k : string) :
  NoDup (map u_id (users d)) -> In (uid, k) (ukeys d) ->
  exists u, select_user_by_id uid d = Some u /\ In u (users d)
            /\ u_id u = uid /\ peer_pubkey u = k.
Proof.
  intros ND Hin. apply in_map_iff in Hin. destruct Hin as (u & Hu & Hin).
  inversion Hu; subst. exists u. split; [| now repeat split].
  unfold select_user_by_id. now apply (find_by_id_unique u_id).
Qed.

Lemma is_open_none (e : event) : is_open e = true <-> end_time e = None.
Proof. unfold is_open. destruct (end_time e); split; congruence. Qed.


(** What the invariants say about a live entry, in rows. *)
Lemma live_entry_rows (st : state) (k : string) (s : session) :
  Inv2 st -> dict_get k (user_sessions st) = Some s ->
  exists (e : event) (u : user),
    select_event_by_id (event_id s) (db st) = Some e
    /\ end_time e = None /\ e_id e = event_id s /\ e_user_id e = s_user_id s
    /\ select_user_by_id (s_user_id s) (db st) = Some u
    /\ u_id u = s_user_id s /\ peer_pubkey u = k.
Proof.
  intros [HI HL] Hs. pose proof (dict_get_in_skeys k _ s Hs) as Hk.
  destruct (in_ekeys_select (db st) _ _ _
              ltac:(rewrite <- ekeys_ids; apply HI) (HL _ _ _ Hk))
    as (e & He & _ & Hid & Hu & Ho).
  destruct (in_ukeys_select (db st) _ _
              ltac:(rewrite <- ukeys_ids; apply HI) (inv_suser _ _ _ _ _ HI _ _ _ Hk))
    as (u & Hsel & _ & Huid & Hpk).
  exists e, u. repeat split; try assumption. now apply is_open_none.
Qed.

(** C2, amended: in a reachable state, a fresh snapshot entry for a key
    with a live session always resolves the user, and the event of the
    session is stored.  When the flag returned is not 0, a current rx below
    [start_rx] or a current tx below [start_tx] moves both baselines to the
    current values and writes 0 and 0 to the event row; otherwise the
    baselines stay and the row gets current minus baseline; the values
    written are never negative.  When the flag is 0 (the user is disabled,
    or has just been disabled by the expiry check), nothing is written: the
    event row and the live entry stay as they were. *)
Theorem handle_peer_online_update
    (foreign_keys : bool) (c : clock) (pubkey : string) (info : peer_info) (st : state)
    (s : session) :
  reachable foreign_keys st ->
  dict_get pubkey (user_sessions st) = Some s ->
  exists (user_id : Z) (nick : string) (en : option Z) (d1 : database) (e : event),
    get_or_create_user c pubkey (db st) = (Ok (user_id, nick, en), d1)
    /\ select_event_by_id (event_id s) (db st) = Some e
    /\ (en <> Some 0 ->
        exists (s' : session) (e' : event),
          dict_get pubkey (user_sessions (handle_peer_online c pubkey info st)) = Some s'
          /\ select_event_by_id (event_id s) (db (handle_peer_online c pubkey info st))
             = Some e'
          /\ ((rx info < start_rx s \/ tx info < start_tx s) ->
              start_rx s' = rx info /\ start_tx s' = tx info
              /\ session_rx e' = 0 /\ session_tx e' = 0)
          /\ (~ (rx info < start_rx s \/ tx info < start_tx s) ->
              start_rx s' = start_rx s /\ start_tx s' = start_tx s
              /\ session_rx e' = rx info - start_rx s
              /\ session_tx e' = tx info - start_tx s)
          /\ 0 <= session_rx e' /\ 0 <= session_tx e')
    /\ (en = Some 0 ->
        events (db (handle_peer_online c pubkey info st)) = events (db st)
        /\ user_sessions (handle_peer_online c pubkey info st) = user_sessions st).
Proof.
  intros Hreach Hs.
  pose proof (Inv2_reachable foreign_keys st Hreach) as H2.
  destruct (live_entry_rows st pubkey s H2 Hs) as (e & u & He & _ & _ & _ & Hu & _ & Hpk).
  destruct H2 as [HI _].
  assert (Hin : In u (users (db st))).
  { unfold select_user_by_id in Hu. apply find_some in Hu. tauto. }
  assert (Hv : validate_pubkey pubkey = true).
  { pose proof (inv_valid _ _ _ _ _ HI) as Hall. rewrite Forall_forall in Hall.
    apply (Hall (u_id u, pubkey)). apply in_map_iff. exists u. now rewrite Hpk. }
  destruct (select_user_by_pubkey pubkey (db st)) as [u' |] eqn:Hsel.
  2:{ exfalso. unfold select_user_by_pubkey in Hsel.
      pose proof (find_none _ _ Hsel u Hin) as Hno. cbv beta in Hno.
      rewrite Hpk, String.eqb_refl in Hno. discriminate. }
  assert (Hg : exists user_id nick en d1,
             get_or_create_user c pubkey (db st) = (Ok (user_id, nick, en), d1)).
  { unfold get_or_create_user. rewrite Hv, Hsel. cbn [negb].
    destruct (truthy (expiry_date u')); [| now repeat eexists].
    destruct (Py.strptime _); [| now repeat eexists].
    destruct (Py.dt_gt _ _); now repeat eexists. }
  destruct Hg as (user_id & nick & en & d1 & Hg).
  exists user_id, nick, en, d1, e. split; [exact Hg |]. split; [exact He |].
  exact (handle_peer_online_resolved c pubkey info st user_id nick en d1 s e Hg Hs He).
Qed.

(** The snapshot of the second tick of the counter-reset scenario: both
    counters of peer A have fallen from 10000 to 200. *)
Lemma handle_peer_online_update_witness :
  exists (s' : session) (e' : event),
    dict_get pkA (user_sessions
      (handle_peer_online (clock_at 43210 12 0 10) pkA
         (mk_peer_info 200 200 43210 None) after_first_tick)) = Some s'
    /\ select_event_by_id 1 (db
      (handle_peer_online (clock_at 43210 12 0 10) pkA
         (mk_peer_info 200 200 43210 None) after_first_tick)) = Some e'
    /\ start_rx s' = 200 /\ session_rx e' = 0 /\ session_tx e' = 0.
Proof.
  destruct (handle_peer_online_update false (clock_at 43210 12 0 10) pkA
              (mk_peer_info 200 200 43210 None) after_first_tick
              (mk_session 1 10000 10000 43200 1 "User_1")
              after_first_tick_reachable eq_refl)
    as (user_id & nick & en & d1 & e & Hg & _ & Hlive & _).
  assert (Hen : en = Some 1) by (vm_compute in Hg; now inversion Hg).
  destruct Hlive as (s' & e' & Hs & He & Hreset & _ & _ & _);
    [rewrite Hen; discriminate |].
  exists s', e'. split; [exact Hs |]. split; [exact He |].
  destruct Hreset as (A & _ & B & C); [left; simpl; lia |].
  now repeat split.
Defined.



Lemma close_session_user (c : clock) (eid : Z) (frx ftx : option Z) (d : database)
    (e : event) (u : user) :
  select_event_by_id eid d = Some e ->
  select_user_by_id (e_user_id e) d = Some u ->
  select_user_by_id (e_user_id e) (close_session c eid frx ftx d)
  = Some (set_totals (total_rx u + py_or frx (session_rx e))
                     (total_tx u + py_or ftx (session_tx e))
                     (Some (get_current_timestamp c)) (get_current_timestamp c) u).
Proof.
  intros He Hu. unfold close_session. rewrite He.
  unfold select_user_by_id, update_events, update_daily_traffic_stats,
    update_user_traffic_stats, update_users. simpl.
  rewrite find_update_users by reflexivity.
  unfold select_user_by_id in Hu. now rewrite Hu.
Qed.

Lemma no_open_events_left (st : state) (pk : string) (s : session) (d' : database) :
  Inv st -> dict_get pk (user_sessions st) = Some s ->
  ekeys d' = map (close_key (event_id s)) (ekeys (db st)) ->
  open_events_of (s_user_id s) d' = [].
Proof.
  intros HI Hs Hek.
  destruct (open_events_of (s_user_id s) d') as [| i l] eqn:Hopen; [reflexivity |].
  exfalso.
  assert (Hin : In i (open_events_of (s_user_id s) d')) by (rewrite Hopen; now left).
  unfold open_events_of in Hin. apply in_map_iff in Hin. destruct Hin as (e & He & Hin).
  apply filter_In in Hin. destruct Hin as [Hin P]. apply andb_true_iff in P.
  destruct P as [U O]. apply Z.eqb_eq in U.
  assert (K : In (i, s_user_id s, true) (ekeys d')).
  { apply in_map_iff. exists e. rewrite He, U, O. now split. }
  rewrite Hek in K. apply in_close_key_open in K. destruct K as [K Hne].
  destruct (inv_open _ _ _ _ _ HI _ _ K) as [k' Hk'].
  pose proof (dict_get_in_skeys pk _ s Hs) as Hpk.
  pose proof (NoDup_fst_eq _ _ _ _ (inv_uid _ _ _ _ _ HI)
                (inv_suser _ _ _ _ _ HI _ _ _ Hk') (inv_suser _ _ _ _ _ HI _ _ _ Hpk)) as E.
  subst k'. destruct (NoDup_key_eq _ _ _ _ _ _ (inv_skey _ _ _ _ _ HI) Hk' Hpk) as [E _].
  contradiction.
Qed.

(** X5: in a reachable state, taking a peer with a live entry offline
    (handshake timeout, disappearance or kick alike) removes its entry,
    closes its event with the counters the event holds, adds those counters
    to the lifetime totals of its user, stamps last_login, sets the user's
    status to 0, and leaves that user without any open event. *)
Theorem handle_peer_offline_closes
    (foreign_keys : bool) (c : clock) (pubkey reason : string) (st : state) (s : session) :
  reachable foreign_keys st ->
  dict_get pubkey (user_sessions st) = Some s ->
  exists (e : event) (u : user),
    select_event_by_id (event_id s) (db st) = Some e
    /\ select_user_by_id (s_user_id s) (db st) = Some u
    /\ dict_get pubkey (user_sessions (handle_peer_offline c pubkey reason st)) = None
    /\ (exists e' : event,
          select_event_by_id (event_id s) (db (handle_peer_offline c pubkey reason st))
          = Some e'
          /\ end_time e' = Some (get_current_timestamp c) /\ e_status e' = OFFLINE
          /\ session_rx e' = session_rx e /\ session_tx e' = session_tx e)
    /\ (exists u' : user,
          select_user_by_id (s_user_id s) (db (handle_peer_offline c pubkey reason st))
          = Some u'
          /\ total_rx u' = total_rx u + session_rx e
          /\ total_tx u' = total_tx u + session_tx e
          /\ last_login u' = Some (get_current_timestamp c)
          /\ u_status u' = 0)
    /\ open_events_of (s_user_id s) (db (handle_peer_offline c pubkey reason st)) = [].
Proof.
  intros Hreach Hs. pose proof (Inv2_reachable foreign_keys st Hreach) as HI2.
  destruct (live_entry_rows st pubkey s HI2 Hs)
    as (e & u & He & _ & _ & Heu & Hu & _ & _).
  exists e, u. split; [exact He |]. split; [exact Hu |].
  unfold handle_peer_offline. rewrite Hs. cbn [db user_sessions].
  split; [apply dict_get_del_same |]. split; [| split].
  - unfold update_user_status, update_users, select_event_by_id. cbn [events with_users].
    fold (select_event_by_id (event_id s)
            (close_session c (event_id s) None None (db st))).
    rewrite (close_session_row c (event_id s) None None (db st) e He).
    eexists. split; [reflexivity |]. simpl. now repeat split.
  - unfold update_user_status, update_users, select_user_by_id. cbn [users with_users].
    rewrite find_update_users by reflexivity.
    fold (select_user_by_id (s_user_id s)
            (close_session c (event_id s) None None (db st))).
    rewrite <- Heu in *.
    rewrite (close_session_user c (event_id s) None None (db st) e u He Hu).
    eexists. split; [reflexivity |]. simpl. now repeat split.
  - apply (no_open_events_left st pubkey s); [apply HI2 | exact Hs |].
    destruct (close_session_shape c (event_id s) None None (db st)) as (_ & _ & C & _).
    destruct (update_user_status_shape c (s_user_id s) 0
                (close_session c (event_id s) None None (db st))) as (_ & _ & C' & _).
    now rewrite C', C.
Qed.

Lemma handle_peer_offline_closes_witness :
  reachable false after_first_tick
  /\ dict_get pkA (user_sessions
       (handle_peer_offline (clock_at 43400 12 3 20) pkA "kicked" after_first_tick)) = None
  /\ open_events_of 1
       (db (handle_peer_offline (clock_at 43400 12 3 20) pkA "kicked" after_first_tick))
     = [].
Proof.
  split; [exact after_first_tick_reachable |].
  destruct (handle_peer_offline_closes false (clock_at 43400 12 3 20) pkA "kicked"
              after_first_tick (mk_session 1 10000 10000 43200 1 "User_1")
              after_first_tick_reachable eq_refl)
    as (e & u & _ & _ & Hgone & _ & _ & Hnone).
  split; [exact Hgone | exact Hnone].
Defined.

(** *** The live map after a tick *)

Lemma dict_get_none_keys {V : Type} (k : string) (m : list (string * V)) :
  dict_get k m = None <-> ~ In k (dict_keys m).
Proof.
  unfold dict_keys. induction m as [| [k' v] m IH]; simpl; [tauto |].
  destruct (String.eqb_spec k' k) as [E | E].
  - split; [discriminate | intros H; exfalso; apply H; now left].
  - rewrite IH. tauto.
Qed.

Lemma dict_keys_del {V : Type} (k : string) (m : list (string * V)) (x : string) :
  In x (dict_keys (dict_del k m)) <-> In x (dict_keys m) /\ x <> k.
Proof.
  unfold dict_keys, dict_del. rewrite !in_map_iff. split.
  - intros ([k' v] & Hx & Hin). apply filter_In in Hin. destruct Hin as [Hin Hne].
    simpl in *. subst k'. split; [exists (x, v); now split |].
    intros E. subst x. now rewrite String.eqb_refl in Hne.
  - intros [([k' v] & Hx & Hin) Hne]. simpl in Hx. subst k'. exists (x, v).
    split; [reflexivity |]. apply filter_In. split; [assumption |]. simpl.
    now destruct (String.eqb_spec x k).
Qed.

Lemma dict_keys_set {V : Type} (k : string) (v : V) (m : list (string * V)) (x : string) :
  In x (dict_keys (dict_set k v m)) -> In x (dict_keys m) \/ x = k.
Proof.
  unfold dict_keys. induction m as [| [k' v'] m IH]; simpl.
  - intros [E | []]. now right.
  - destruct (String.eqb_spec k' k) as [E | E]; simpl.
    + intros [H | H]; [right; now symmetry | left; now right].
    + intros [H | H]; [left; now left |].
      destruct (IH H) as [H' | H']; [left; now right | now right].
Qed.

Lemma offline_keys (c : clock) (k reason : string) (st : state) (x : string) :
  In x (dict_keys (user_sessions (handle_peer_offline c k reason st)))
  <-> In x (dict_keys (user_sessions st)) /\ x <> k.
Proof.
  unfold handle_peer_offline.
  destruct (dict_get k (user_sessions st)) as [s |] eqn:Hs.
  - cbn [user_sessions]. apply dict_keys_del.
  - apply dict_get_none_keys in Hs. split; [| tauto].
    intros H. split; [assumption |]. intros E. subst x. contradiction.
Qed.

Lemma online_keys (c : clock) (k : string) (info : peer_info) (st : state) (x : string) :
  In x (dict_keys (user_sessions (handle_peer_online c k info st))) ->
  In x (dict_keys (user_sessions st)) \/ x = k.
Proof.
  unfold handle_peer_online.
  destruct (get_or_create_user c k (db st)) as [[[[uid nick] en] | e] d']; [| now left].
  destruct (match en with Some 0 => true | _ => false end); [now left |].
  simpl user_sessions.
  destruct (dict_get k (user_sessions st)) as [s |].
  - destruct (session_delta s (rx info) (tx info)) as [[[a b] a'] b'].
    cbn [user_sessions]. apply dict_keys_set.
  - destruct (create_new_session c uid (rx info) (tx info) None (endpoint info)
                (db (with_db st d'))) as [eid d1].
    cbn [user_sessions]. apply dict_keys_set.
Qed.

Lemma snapshot_keys (c : clock) (max_age : option Z) (peers : list (string * peer_info))
    (st : state) (x : string) :
  In x (dict_keys (user_sessions (handle_snapshot c max_age peers st))) ->
  In x (dict_keys (user_sessions st)) \/ In x (map fst peers).
Proof.
  unfold handle_snapshot. revert st.
  induction peers as [| p peers IH]; intros st; simpl; [now left |].
  intros Hin. destruct (IH _ Hin) as [H | H]; [| right; now right].
  destruct (is_peer_online c (handshake (snd p)) max_age).
  - destruct (online_keys _ _ _ _ _ H) as [H' | H']; [now left | right; now left].
  - destruct (dict_get (fst p) (user_sessions st)); [| now left].
    apply offline_keys in H. left. tauto.
Qed.

Lemma snapshot_stale_gone (c : clock) (max_age : option Z)
    (peers : list (string * peer_info)) (st : state) (k : string) (info : peer_info) :
  NoDup (map fst peers) -> In (k, info) peers ->
  is_peer_online c (handshake info) max_age = false ->
  ~ In k (dict_keys (user_sessions (handle_snapshot c max_age peers st))).
Proof.
  revert st. induction peers as [| p peers IH]; intros st ND Hin Hstale; [contradiction |].
  simpl in ND. apply NoDup_cons_iff in ND. destruct ND as [Hn ND].
  destruct Hin as [E | Hin].
  - subst p. unfold handle_snapshot. simpl. rewrite Hstale.
    fold (handle_snapshot c max_age peers).
    intros H. apply snapshot_keys in H. destruct H as [H | H]; [| contradiction].
    destruct (dict_get k (user_sessions st)) eqn:Hs.
    + apply offline_keys in H. tauto.
    + apply dict_get_none_keys in Hs. contradiction.
  - unfold handle_snapshot. simpl. fold (handle_snapshot c max_age peers).
    now apply IH.
Qed.

Lemma close_all_keys (c : clock) (keys : list string) (st : state) (x : string) :
  In x (dict_keys (user_sessions
          (fold_left (fun st k => handle_peer_offline c k "disappeared" st) keys st)))
  <-> In x (dict_keys (user_sessions st)) /\ ~ In x keys.
Proof.
  revert st. induction keys as [| k keys IH]; intros st; simpl; [tauto |].
  rewrite IH, offline_keys. split.
  - intros [[H1 H2] H3]. split; [assumption |]. intros [E | E]; [now subst | contradiction].
  - intros [H1 H2]. repeat split; [assumption | |]; intros E; apply H2; [now left | now right].
Qed.

(** X6: after a tick, every key left in the live map is a peer of the
    snapshot of that tick whose handshake [is_peer_online] found fresh:
    peers that are stale and peers that are gone hold no live entry. *)
Theorem monitor_wireguard_live_keys_fresh
    (c : clock) (max_age : option Z) (peers : list (string * peer_info))
    (offline_iter : list string) (st : state) (k : string) :
  NoDup (map fst peers) ->
  Permutation offline_iter (offline_pubkeys peers (handle_snapshot c max_age peers st)) ->
  In k (dict_keys (user_sessions (monitor_wireguard c max_age peers offline_iter st))) ->
  exists info : peer_info,
    In (k, info) peers /\ is_peer_online c (handshake info) max_age = true.
Proof.
  intros ND Hperm Hin.
  assert (Hin' : In k (dict_keys (user_sessions
                   (fold_left (fun st k => handle_peer_offline c k "disappeared" st)
                              offline_iter (handle_snapshot c max_age peers st))))).
  { unfold monitor_wireguard in Hin.
    destruct (Qlt_le_dec _ _); [destruct (update_system_stats_raises _) |]; exact Hin. }
  apply close_all_keys in Hin'. destruct Hin' as [Hlive Hnot].
  assert (Hpeer : In k (map fst peers)).
  { destruct (existsb (String.eqb k) (map fst peers)) eqn:E.
    - apply existsb_exists in E. destruct E as (x & Hx & Heq).
      apply String.eqb_eq in Heq. now subst.
    - exfalso. apply Hnot. apply (Permutation_in _ (Permutation_sym Hperm)).
      unfold offline_pubkeys. apply filter_In. split; [assumption |]. now rewrite E. }
  apply in_map_iff in Hpeer. destruct Hpeer as ([k' info] & Hk & Hp). simpl in Hk. subst k'.
  exists info. split; [assumption |].
  destruct (is_peer_online c (handshake info) max_age) eqn:Hfresh; [reflexivity |].
  exfalso. exact (snapshot_stale_gone c max_age peers st k info ND Hp Hfresh Hlive).
Qed.

Lemma monitor_wireguard_live_keys_fresh_witness :
  In pkA (dict_keys (user_sessions after_first_tick))
  /\ exists info : peer_info,
       In (pkA, info) [(pkA, mk_peer_info 10000 10000 43200 (Some "198.51.100.7:51820"))]
       /\ is_peer_online (clock_at 43200 12 0 0) (handshake info) None = true.
Proof.
  split; [vm_compute; now left |].
  apply (monitor_wireguard_live_keys_fresh (clock_at 43200 12 0 0) None
           [(pkA, mk_peer_info 10000 10000 43200 (Some "198.51.100.7:51820"))] []
           initial_state pkA).
  - repeat constructor. simpl. tauto.
  - vm_compute. constructor.
  - vm_compute. now left.
Defined.

(** *** Kick and delete *)

Lemma session_key_of_some (uid : Z) (m : list (string * session)) (k : string) :
  session_key_of uid m = Some k -> exists s, In (k, s) m /\ s_user_id s = uid.
Proof.
  unfold session_key_of. destruct (find _ m) as [[k' s] |] eqn:F; [| discriminate].
  intros H. inversion H; subst. apply find_some in F. destruct F as [Hin Hu].
  exists s. split; [assumption |]. now apply Z.eqb_eq in Hu.
Qed.

Lemma session_key_of_none (uid : Z) (m : list (string * session)) :
  (forall k e u, In (k, e, u) (skeys m) -> u <> uid) -> session_key_of uid m = None.
Proof.
  intros H. unfold session_key_of. destruct (find _ m) as [[k s] |] eqn:F; [| reflexivity].
  exfalso. apply find_some in F. destruct F as [Hin Hu]. apply Z.eqb_eq in Hu.
  apply (H k (event_id s) (s_user_id s)); [| assumption].
  apply in_map_iff. exists (k, s). now split.
Qed.

(** X7: the kick action.  When no live-map entry belongs to the user, the
    answer is the "info" body and nothing changes.  Otherwise, in a
    reachable state, the answer is "success", and afterwards no live-map
    entry belongs to the user and the user has no open event. *)
Theorem kick_ends_the_session (foreign_keys : bool) (c : clock) (user_id : Z) (st : state) :
  reachable foreign_keys st ->
  (session_key_of user_id (user_sessions st) = None ->
   handle_user_action_api c user_id "kick" st
   = (mk_response 200 [("status", JString "info"); ("message", JString "用户当前不在线")], st))
  /\ (forall pubkey : string,
        session_key_of user_id (user_sessions st) = Some pubkey ->
        handle_user_action_api c user_id "kick" st
        = (success_response "用户已踢出", handle_peer_offline c pubkey "kicked" st)
        /\ session_key_of user_id
             (user_sessions (snd (handle_user_action_api c user_id "kick" st))) = None
        /\ open_events_of user_id (db (snd (handle_user_action_api c user_id "kick" st)))
           = []).
Proof.
  intros Hreach. pose proof (Inv_reachable foreign_keys st Hreach) as HI. split.
  - intros Hnone. unfold handle_user_action_api. simpl. now rewrite Hnone.
  - intros pubkey Hk.
    assert (Heq : handle_user_action_api c user_id "kick" st
                  = (success_response "用户已踢出", handle_peer_offline c pubkey "kicked" st)).
    { unfold handle_user_action_api. simpl. now rewrite Hk. }
    rewrite Heq. cbn [snd]. split; [reflexivity |].
    destruct (session_key_of_some _ _ _ Hk) as (s & Hin & Hu).
    assert (Hs : dict_get pubkey (user_sessions st) = Some s).
    { apply dict_get_unique; [| assumption]. rewrite <- skeys_keys. apply HI. }
    split.
    + unfold handle_peer_offline. rewrite Hs. cbn [user_sessions].
      apply session_key_of_none. intros k e u Hk' E. subst u.
      rewrite skeys_dict_del in Hk'. apply filter_In in Hk'. destruct Hk' as [Hk' Hne].
      pose proof (dict_get_in_skeys pubkey _ s Hs) as Hpk. rewrite Hu in Hpk.
      pose proof (NoDup_fst_eq _ _ _ _ (inv_uid _ _ _ _ _ HI)
                    (inv_suser _ _ _ _ _ HI _ _ _ Hk') (inv_suser _ _ _ _ _ HI _ _ _ Hpk))
        as E.
      subst k. unfold sk_key in Hne. simpl in Hne. now rewrite String.eqb_refl in Hne.
    + rewrite <- Hu. apply (no_open_events_left st pubkey s _ HI Hs).
      unfold handle_peer_offline. rewrite Hs. cbn [db].
      destruct (close_session_shape c (event_id s) None None (db st)) as (_ & _ & C & _).
      destruct (update_user_status_shape c (s_user_id s) 0
                  (close_session c (event_id s) None None (db st))) as (_ & _ & C' & _).
      now rewrite C', C.
Qed.

Lemma kick_ends_the_session_witness :
  reachable false after_first_tick
  /\ session_key_of 1
       (user_sessions (snd (handle_user_action_api (clock_at 43400 12 3 20) 1 "kick"
                              after_first_tick))) = None.
Proof.
  split; [exact after_first_tick_reachable |].
  destruct (kick_ends_the_session false (clock_at 43400 12 3 20) 1 after_first_tick
              after_first_tick_reachable) as [_ H].
  destruct (H pkA eq_refl) as (_ & Hnone & _). exact Hnone.
Defined.

Lemma find_filtered_out {A : Type} (p keep : A -> bool) (l : list A) :
  (forall x, p x = true -> keep x = false) -> find p (filter keep l) = None.
Proof.
  intros H. induction l as [| x l IH]; simpl; [reflexivity |].
  destruct (keep x) eqn:K; [| exact IH]. simpl.
  destruct (p x) eqn:P; [| exact IH]. rewrite (H x P) in K. discriminate.
Qed.

Lemma in_close_key_any (eid i u : Z) (o : bool) (es : list (Z * Z * bool)) :
  In (i, u, o) (map (close_key eid) es) -> exists o', In (i, u, o') es.
Proof.
  intros Hin. apply in_map_iff in Hin. destruct Hin as ([[a b] o1] & Ht & Hin).
  unfold close_key, ek_id in Ht. simpl in Ht.
  destruct (a =? eid); inversion Ht; subst; eexists; eassumption.
Qed.

Lemma filter_update_same (uid : Z) (f : user -> user) (l : list user) :
  (forall x, u_id (f x) = u_id x) ->
  filter (fun x => negb (u_id x =? uid)) (map (fun x => if u_id x =? uid then f x else x) l)
  = filter (fun x => negb (u_id x =? uid)) l.
Proof.
  intros Hf. induction l as [| x l IH]; simpl; [reflexivity |].
  destruct (u_id x =? uid) eqn:E.
  - rewrite Hf, E. simpl. exact IH.
  - rewrite E. simpl. now rewrite IH.
Qed.

Lemma close_session_other_users (c : clock) (i uid : Z) (frx ftx : option Z) (d : database) :
  (forall e, select_event_by_id i d = Some e -> e_user_id e = uid) ->
  filter (fun x => negb (u_id x =? uid)) (users (close_session c i frx ftx d))
  = filter (fun x => negb (u_id x =? uid)) (users d).
Proof.
  intros H. unfold close_session. destruct (select_event_by_id i d) as [e |]; [| reflexivity].
  rewrite (H e eq_refl).
  unfold update_events, update_daily_traffic_stats, update_user_traffic_stats, update_users.
  cbn [users with_users with_events]. now apply filter_update_same.
Qed.

Lemma close_sessions_other_users (c : clock) (uid : Z) (ids : list Z) (d0 d : database) :
  NoDup (map ek_id (ekeys d0)) ->
  (forall i, In i ids -> exists o, In (i, uid, o) (ekeys d0)) ->
  (forall i u o, In (i, u, o) (ekeys d) -> exists o', In (i, u, o') (ekeys d0)) ->
  filter (fun x => negb (u_id x =? uid))
         (users (fold_left (fun d id => close_session c id (Some 0) (Some 0) d) ids d))
  = filter (fun x => negb (u_id x =? uid)) (users d).
Proof.
  intros ND. revert d. induction ids as [| i ids IH]; intros d Hids Hd; simpl;
    [reflexivity |].
  rewrite IH.
  - apply close_session_other_users. intros e He.
    unfold select_event_by_id in He. apply find_some in He. destruct He as [Hin Hid].
    apply Z.eqb_eq in Hid.
    assert (K : In (i, e_user_id e, is_open e) (ekeys d)).
    { apply in_map_iff. exists e. rewrite Hid. now split. }
    destruct (Hd _ _ _ K) as [o' K0]. destruct (Hids i (or_introl eq_refl)) as [o K1].
    now destruct (NoDup_ek_eq _ _ _ _ _ _ ND K0 K1).
  - intros j Hj. apply Hids. now right.
  - intros j u o Hin.
    destruct (close_session_shape c i (Some 0) (Some 0) d) as (_ & _ & C & _).
    rewrite C in Hin. destruct (in_close_key_any _ _ _ _ _ Hin) as [o1 H1]. eauto.
Qed.

(** X8: deleting a user.  An id with no users row raises "User not found"
    and changes nothing, and the DELETE endpoint answers 400 "Invalid user
    ID"; an id of more than 64 bits cannot be bound, and the endpoint
    answers 500 and changes nothing.  For a stored user of a reachable state the call succeeds: the row
    is gone, the other rows of users stay as they were, the user has no
    open event left and no live-map entry, and the last call made to the
    interface is the removal of the user's key. *)
Theorem delete_user_removes
    (foreign_keys : bool) (c : clock) (user_id : Z) (st : state) :
  reachable foreign_keys st ->
  (select_user_by_id user_id (db st) = None ->
   int64 user_id = true ->
   delete_user foreign_keys c user_id st = (Raise (ValueError "User not found"), st)
   /\ handle_delete foreign_keys c user_id st = (error_response "Invalid user ID" 400, st))
  /\ (int64 user_id = false ->
      handle_delete foreign_keys c user_id st
      = (error_response "Python int too large to convert to SQLite INTEGER" 500, st))
  /\ (forall u : user,
        select_user_by_id user_id (db st) = Some u ->
        fst (delete_user foreign_keys c user_id st) = Ok true
        /\ select_user_by_id user_id (db (snd (delete_user foreign_keys c user_id st)))
           = None
        /\ users (db (snd (delete_user foreign_keys c user_id st)))
           = filter (fun x => negb (u_id x =? user_id)) (users (db st))
        /\ open_events_of user_id (db (snd (delete_user foreign_keys c user_id st))) = []
        /\ session_key_of user_id
             (user_sessions (snd (delete_user foreign_keys c user_id st))) = None
        /\ wg_calls (snd (delete_user foreign_keys c user_id st))
           = (wg_calls st ++ [RemovePeer (peer_pubkey u)])%list).
Proof.
  intros Hreach. pose proof (Inv_reachable foreign_keys st Hreach) as HI.
  split; [| split].
  - intros Hnone Hid. unfold handle_delete, delete_user. now rewrite Hnone, Hid.
  - intros Hid. unfold handle_delete. now rewrite Hid.
  - intros u Hu. unfold delete_user. rewrite Hu.
    unfold remove_wg_peer, with_db. cbn [fst snd db user_sessions wg_calls].
    destruct (close_sessions_shape c (open_events_of user_id (db st)) (db st))
      as (A & _ & C & _). simpl in A, C.
    set (d1 := fold_left (fun d id => close_session c id (Some 0) (Some 0) d)
                         (open_events_of user_id (db st)) (db st)) in *.
    split; [reflexivity |]. split; [| split; [| split; [| split]]].
    + unfold select_user_by_id, delete_user_row. cbn [users].
      apply find_filtered_out. intros x Hx. now rewrite Hx.
    + unfold delete_user_row. cbn [users]. unfold d1.
      apply (close_sessions_other_users c user_id _ (db st) (db st)).
      * apply HI.
      * apply open_events_have_user.
      * intros i x o H. now exists o.
    + destruct (open_events_of user_id (delete_user_row foreign_keys user_id d1))
        as [| i l] eqn:Hopen; [reflexivity |]. exfalso.
      assert (Hin : In i (open_events_of user_id (delete_user_row foreign_keys user_id d1)))
        by (rewrite Hopen; now left).
      unfold open_events_of in Hin. apply in_map_iff in Hin. destruct Hin as (e & He & Hin).
      apply filter_In in Hin. destruct Hin as [Hin P]. apply andb_true_iff in P.
      destruct P as [U O]. apply Z.eqb_eq in U.
      assert (Hin1 : In e (events d1)).
      { unfold delete_user_row in Hin. cbn [events] in Hin.
        destruct foreign_keys; [apply filter_In in Hin; tauto | assumption]. }
      assert (K : In (i, user_id, true) (ekeys d1)).
      { apply in_map_iff. exists e. rewrite He, U, O. now split. }
      rewrite C in K. apply in_close_keys_open in K. destruct K as [K Hn].
      apply Hn. now apply open_event_listed.
    + apply session_key_of_none. intros k e x Hin E. subst x.
      rewrite (remove_first_is_filter (ukeys (db st))) in Hin;
        [| apply HI | apply HI | apply HI].
      apply filter_In in Hin. destruct Hin as [_ Hne]. unfold sk_user in Hne. simpl in Hne.
      now rewrite Z.eqb_refl in Hne.
    + reflexivity.
Qed.

Lemma delete_user_removes_witness :
  reachable false after_first_tick
  /\ users (db (snd (delete_user false (clock_at 43400 12 3 20) 1 after_first_tick))) = []
  /\ open_events_of 1
       (db (snd (delete_user false (clock_at 43400 12 3 20) 1 after_first_tick))) = [].
Proof.
  split; [exact after_first_tick_reachable |].
  destruct (delete_user_removes false (clock_at 43400 12 3 20) 1 after_first_tick
              after_first_tick_reachable) as (_ & _ & H).
  destruct (H (mk_user 1 pkA None None None None None (SInteger 0) (SInteger 0) None 1 (Some 1)
                       0 0 None None None "2024-01-01 12:00:00" "2024-01-01 12:00:00")
              eq_refl)
    as (_ & _ & Hus & Hopen & _).
  split; [rewrite Hus; reflexivity | exact Hopen].
Defined.

(** *** At most one open event for a user *)



(* ===================================================================== *)
(** ** Further properties: user administration *)
(* ===================================================================== *)

Lemma find_app_last {A : Type} (p : A -> bool) (l : list A) (x : A) :
  find p l = None -> p x = true -> find p (l ++ [x]) = Some x.
Proof.
  intros Hn Hx. induction l as [| y l IH]; simpl in *; [now rewrite Hx |].
  destruct (p y); [discriminate | now apply IH].
Qed.

Lemma no_pubkey_clash (pubkey : string) (d : database) :
  select_user_by_pubkey pubkey d = None ->
  existsb (fun o => String.eqb (peer_pubkey o) pubkey) (users d) = false.
Proof.
  unfold select_user_by_pubkey. induction (users d) as [| o l IH]; simpl; [reflexivity |].
  destruct (String.eqb (peer_pubkey o) pubkey); [discriminate | exact IH].
Qed.

Lemma no_null_ip_clash (l : list user) :
  existsb (fun o => same_ip (client_ip o) None) l = false.
Proof.
  induction l as [| o l IH]; simpl; [reflexivity |]. rewrite IH. now destruct (client_ip o).
Qed.

(** The row the engine inserts for a key it has not seen. *)
Definition engine_row (c : clock) (pubkey : string) (id : Z) : user :=
  mk_user id pubkey None None None None None (SInteger 0) (SInteger 0) None
          0 (Some 1) 0 0 None None None
          (get_current_timestamp c) (get_current_timestamp c).

(** X9: resolving a well-formed key that no users row holds inserts one
    row (next id, no nickname, no client_ip, enabled) and answers that id
    with the nickname "User_<id>" and the flag 1; resolving the same key
    again, at any later reading of the clock, answers the same and writes
    nothing. *)
Theorem get_or_create_user_creates_once
    (c c' : clock) (pubkey : string) (d : database) :
  validate_pubkey pubkey = true ->
  select_user_by_pubkey pubkey d = None ->
  get_or_create_user c pubkey d
  = (Ok (users_seq d + 1, default_nickname (users_seq d + 1), Some 1),
     mk_database (users d ++ [engine_row c pubkey (users_seq d + 1)]) (users_seq d + 1)
       (events d) (events_seq d) (traffic_stats d) (traffic_stats_seq d)
       (system_stats d) (system_stats_seq d))
  /\ get_or_create_user c' pubkey (snd (get_or_create_user c pubkey d))
     = (Ok (users_seq d + 1, default_nickname (users_seq d + 1), Some 1),
        snd (get_or_create_user c pubkey d)).
Proof.
  intros Hv Hnone.
  assert (Heq : get_or_create_user c pubkey d
                = (Ok (users_seq d + 1, default_nickname (users_seq d + 1), Some 1),
                   mk_database (users d ++ [engine_row c pubkey (users_seq d + 1)])
                     (users_seq d + 1) (events d) (events_seq d) (traffic_stats d)
                     (traffic_stats_seq d) (system_stats d) (system_stats_seq d))).
  { unfold get_or_create_user. rewrite Hv, Hnone. simpl negb. cbv iota.
    unfold insert_user, users_constraints. simpl.
    now rewrite (no_pubkey_clash pubkey d Hnone), no_null_ip_clash. }
  split; [exact Heq |]. rewrite Heq. cbn [snd].
  rewrite (get_or_create_user_existing c' pubkey _ (engine_row c pubkey (users_seq d + 1)) Hv).
  - reflexivity.
  - unfold select_user_by_pubkey. cbn [users]. apply find_app_last; [exact Hnone |].
    simpl. apply String.eqb_refl.
Qed.

Lemma get_or_create_user_creates_once_witness :
  get_or_create_user (clock_at 43210 12 0 10) pkB (db after_first_tick)
  = (Ok (2, "User_2", Some 1),
     snd (get_or_create_user (clock_at 43210 12 0 10) pkB (db after_first_tick)))
  /\ get_or_create_user (clock_at 50000 13 53 20) pkB
       (snd (get_or_create_user (clock_at 43210 12 0 10) pkB (db after_first_tick)))
     = (Ok (2, "User_2", Some 1),
        snd (get_or_create_user (clock_at 43210 12 0 10) pkB (db after_first_tick))).
Proof.
  destruct (get_or_create_user_creates_once (clock_at 43210 12 0 10)
              (clock_at 50000 13 53 20) pkB (db after_first_tick))
    as [H1 H2].
  - vm_compute. reflexivity.
  - vm_compute. reflexivity.
  - split; [| exact H2]. rewrite H1. reflexivity.
Defined.

(** X10: a create-user call that succeeds can be read back.  The key of
    the request is a str, every other value was bound, and the users row
    found under the key has the id, the address and the configuration text
    that the call returned, with each value as its column keeps it; the id
    is the next rowid, the address is what [get_next_available_ip] gave on
    the store before the call, and the only call made to the interface is
    the addition of the key with that address. *)
Theorem create_user_read_back
    (c : clock) (pubkey nick ml ph bw dl ex nt : pyval) (st st' : state)
    (uid : Z) (ip cfg : string) :
  create_user c pubkey nick ml ph bw dl ex nt st = (Ok (uid, ip, cfg), st') ->
  exists (key : string) (n m p b d x t : sqlval),
    pubkey = PStr key
    /\ bind 3 nick = Ok n /\ bind 4 ml = Ok m /\ bind 5 ph = Ok p /\ bind 6 bw = Ok b
    /\ bind 7 dl = Ok d /\ bind 8 ex = Ok x /\ bind 9 nt = Ok t
    /\ uid = users_seq (db st) + 1
    /\ get_next_available_ip (db st) = Ok ip
    /\ cfg = generate_wg_config None key ip
    /\ select_user_by_pubkey key (db st')
       = Some (mk_user uid key (Some ip) (text_column (engine st) n)
                       (text_column (engine st) m) (text_column (engine st) p) None
                       (integer_column (engine st) b) (integer_column (engine st) d)
                       (text_column (engine st) x) 0 (Some 1) 0 0 None
                       (text_column (engine st) t) (Some cfg)
                       (get_current_timestamp c) (get_current_timestamp c))
    /\ users (db st')
       = (users (db st)
          ++ [mk_user uid key (Some ip) (text_column (engine st) n)
                      (text_column (engine st) m) (text_column (engine st) p) None
                      (integer_column (engine st) b) (integer_column (engine st) d)
                      (text_column (engine st) x) 0 (Some 1) 0 0 None
                      (text_column (engine st) t) (Some cfg)
                      (get_current_timestamp c) (get_current_timestamp c)])%list
    /\ wg_calls st' = (wg_calls st ++ [AddPeer key ip])%list.
Proof.
  intros Hcall.
  destruct (create_user_cases c pubkey nick ml ph bw dl ex nt st)
    as [[[e He] _] | [(key & ip0 & _ & [msg He] & _ & _)
                     | (key & ip0 & row & uid0 & d' & -> & _ & Hnone & Hip & Hrow & Hins & Hr)]];
    [rewrite Hcall in He; discriminate He | rewrite Hcall in He; discriminate He |].
  rewrite Hcall in Hr. inversion Hr; subst uid0 ip0 cfg st'. clear Hr.
  destruct (new_user_row_shape _ _ _ _ _ _ _ _ _ _ _ _ _ Hrow)
    as (n & m & p & b & d & x & t & B3 & B4 & B5 & B6 & B7 & B8 & B9 & ->).
  exists key, n, m, p, b, d, x, t.
  unfold insert_user in Hins. destruct (users_constraints _ _); [| discriminate].
  inversion Hins; subst. cbn [with_db db users wg_calls add_wg_peer snd].
  repeat split; try assumption; try reflexivity.
  unfold select_user_by_pubkey. cbn [users]. apply find_app_last; [exact Hnone |].
  simpl. apply String.eqb_refl.
Qed.

Definition first_create : result (Z * string * string) * state :=
  create_user (clock_at 43200 12 0 0) (PStr pkA) (PStr "alice") PNone PNone (PInt 0) (PInt 0)
              PNone PNone initial_state.

Lemma create_user_read_back_witness :
  option_map client_ip (select_user_by_pubkey pkA (db (snd first_create)))
  = Some (Some "10.0.0.2")
  /\ option_map nickname (select_user_by_pubkey pkA (db (snd first_create)))
     = Some (Some "alice")
  /\ wg_calls (snd first_create) = [AddPeer pkA "10.0.0.2"].
Proof.
  destruct (create_user_read_back (clock_at 43200 12 0 0) (PStr pkA) (PStr "alice") PNone
              PNone (PInt 0) (PInt 0) PNone PNone initial_state (snd first_create) 1
              "10.0.0.2" (generate_wg_config None pkA "10.0.0.2"))
    as (key & n & m & p & b & d & x & t & Hkey & B3 & _ & _ & _ & _ & _ & _ & _ & _ & _
        & Hsel & _ & Hwg).
  - vm_compute. reflexivity.
  - inversion Hkey; subst key. vm_compute in B3. inversion B3; subst n.
    split; [rewrite Hsel; reflexivity |]. split; [rewrite Hsel; reflexivity | exact Hwg].
Defined.

Lemma get_next_available_ip_raises (d : database) (e : exn) :
  get_next_available_ip d = Raise e -> forall msg, e <> RuntimeError msg.
Proof.
  unfold get_next_available_ip, next_ip_of.
  destruct (assigned_ips d) as [| a l]; [discriminate |].
  destruct (nth_error _ 3) as [p3 |]; [| intros H; inversion H; discriminate].
  destruct (Py.int p3) as [n |]; [| intros H; inversion H; discriminate].
  destruct (254 <? n + 1); [intros H; inversion H; discriminate | discriminate].
Qed.

(** X11: a create-user call that fails leaves the database and the live map
    as they were.  When it fails before the INSERT (a [ValueError] for the
    key, the mail, a duplicate or the address pool; a [TypeError] for a key
    or a mail of another type) the interface has not been called; when a
    value cannot be bound or the INSERT is refused, the peer that was added
    is removed again, and the error is a [RuntimeError]. *)
Theorem create_user_failure_rolls_back
    (c : clock) (pubkey nick ml ph bw dl ex nt : pyval) (st st' : state) (e : exn) :
  create_user c pubkey nick ml ph bw dl ex nt st = (Raise e, st') ->
  db st' = db st /\ user_sessions st' = user_sessions st
  /\ ((wg_calls st' = wg_calls st /\ forall msg, e <> RuntimeError msg)
      \/ (exists (key ip msg : string),
            pubkey = PStr key
            /\ get_next_available_ip (db st) = Ok ip
            /\ wg_calls st' = (wg_calls st ++ [AddPeer key ip; RemovePeer key])%list
            /\ e = RuntimeError msg)).
Proof.
  unfold create_user.
  destruct (validate_pubkey_of pubkey) as [[|] | e0] eqn:Hv.
  - destruct (validate_pubkey_of_true _ Hv) as (key & -> & Hkey).
    destruct (if py_truthy ml then validate_email_of ml else Ok true) as [[|] | e0] eqn:Hm.
    + destruct (select_user_by_pubkey key (db st)) eqn:Hnone;
        [intros H; inversion H; subst; repeat split; left; split;
         [reflexivity | discriminate] |].
      destruct (get_next_available_ip (db st)) as [ip0 | e0] eqn:Hip.
      * unfold add_wg_peer, remove_wg_peer. cbn [negb fst snd engine db].
        match goal with
        | |- (let (_, _) := ?ins in _) = _ -> _ => destruct ins as [[uid | e1] d']
        end; [discriminate |].
        cbn [db user_sessions wg_calls last_stats_update].
        intros H. inversion H; subst. cbn [db user_sessions wg_calls].
        repeat split. right. exists key, ip0. eexists. repeat split.
        now rewrite <- app_assoc.
      * pose proof (get_next_available_ip_raises (db st) e0 Hip) as Hno.
        destruct e0; intros H; inversion H; subst; repeat split; left;
          (split; [reflexivity | exact Hno]).
    + intros H; inversion H; subst; repeat split; left; split; [reflexivity | discriminate].
    + intros H; inversion H; subst; repeat split; left; split; [reflexivity |].
      intros msg E. subst e. destruct (py_truthy ml); [| discriminate Hm].
      unfold validate_email_of in Hm. destruct (negb (py_truthy ml)); [discriminate Hm |].
      destruct ml; discriminate Hm.
  - intros H; inversion H; subst; repeat split; left; split; [reflexivity | discriminate].
  - intros H; inversion H; subst; repeat split; left; split; [reflexivity |].
    intros msg E. subst e. unfold validate_pubkey_of in Hv.
    destruct (negb (py_truthy pubkey)); [discriminate Hv |].
    destruct pubkey; discriminate Hv.
Qed.

Lemma create_user_failure_rolls_back_witness :
  wg_calls (snd (create_user (clock_at 43260 12 1 0) (PStr (key_of "J")) PNone PNone PNone
                   (PInt 0) (PInt 0) PNone PNone nine_users))
  = (wg_calls nine_users ++ [AddPeer (key_of "J") "10.0.0.10"; RemovePeer (key_of "J")])%list
  /\ db (snd (create_user (clock_at 43260 12 1 0) (PStr (key_of "J")) PNone PNone PNone
                (PInt 0) (PInt 0) PNone PNone nine_users)) = db nine_users.
Proof.
  destruct (create_user_failure_rolls_back (clock_at 43260 12 1 0) (PStr (key_of "J")) PNone
              PNone PNone (PInt 0) (PInt 0) PNone PNone nine_users
              (snd (create_user (clock_at 43260 12 1 0) (PStr (key_of "J")) PNone PNone PNone
                      (PInt 0) (PInt 0) PNone PNone nine_users))
              (RuntimeError
                 "Failed to create user in database: UNIQUE constraint failed: users.client_ip"))
    as (Hdb & _ & [[_ Hno] | (key & ip & msg & Hkey & Hip & Hwg & _)]).
  - vm_compute. reflexivity.
  - exfalso. exact (Hno _ eq_refl).
  - split; [| exact Hdb]. rewrite Hwg. inversion Hkey; subst key.
    assert (E : ip = "10.0.0.10").
    { assert (K : get_next_available_ip (db nine_users) = Ok "10.0.0.10")
        by (vm_compute; reflexivity).
      rewrite K in Hip. now inversion Hip. }
    now rewrite E.
Defined.

(** *** The constraints of the users table along a run *)

(** The CHECK constraints of a users row. *)
Definition row_ok (u : user) : bool :=
  check_nonneg (bandwidth_limit u) && check_nonneg (data_limit u)
  && check_flag (Some (u_status u)) && check_flag (enabled u).

Record Store_ok (us : list user) : Prop := mk_Store_ok {
  so_rows : Forall (fun u => row_ok u = true) us;
  so_keys : NoDup (map peer_pubkey us);
  so_ips : NoDup (flat_map (fun u => match client_ip u with Some ip => [ip] | None => [] end) us)
}.

Lemma Store_update (id : Z) (f : user -> user) (us : list user) :
  (forall u, peer_pubkey (f u) = peer_pubkey u /\ client_ip (f u) = client_ip u) ->
  (forall u, row_ok u = true -> row_ok (f u) = true) ->
  Store_ok us -> Store_ok (map (fun u => if u_id u =? id then f u else u) us).
Proof.
  intros Hf Hok [H1 H2 H3]. constructor.
  - rewrite Forall_forall in *. intros x Hin. apply in_map_iff in Hin.
    destruct Hin as (u & Hx & Hin). subst x.
    destruct (u_id u =? id); [apply Hok |]; now apply H1.
  - rewrite map_map. erewrite map_ext; [exact H2 |].
    intros u. simpl. destruct (u_id u =? id); [| reflexivity]. now destruct (Hf u).
  - replace (flat_map _ (map _ us))
      with (flat_map (fun u => match client_ip u with Some ip => [ip] | None => [] end) us);
      [exact H3 |].
    clear -Hf. induction us as [| u us IH]; simpl; [reflexivity |].
    rewrite IH. f_equal. destruct (u_id u =? id); [| reflexivity]. now destruct (Hf u) as [_ ->].
Qed.

Lemma users_constraints_ok (u : user) (others : list user) :
  users_constraints u others = Ok tt ->
  row_ok u = true
  /\ existsb (fun o => String.eqb (peer_pubkey o) (peer_pubkey u)) others = false
  /\ existsb (fun o => same_ip (client_ip o) (client_ip u)) others = false.
Proof.
  unfold users_constraints, row_ok.
  destruct (check_nonneg (bandwidth_limit u)); [| discriminate].
  destruct (check_nonneg (data_limit u)); [| discriminate].
  destruct (check_flag (Some (u_status u))); [| discriminate].
  destruct (check_flag (enabled u)); [| discriminate]. cbn [negb andb].
  destruct (existsb _ others); [discriminate |].
  destruct (existsb _ others); [discriminate |]. now repeat split.
Qed.

Lemma Store_insert (row : Z -> user) (d : database) :
  Store_ok (users d) -> Store_ok (users (snd (insert_user row d))).
Proof.
  intros [H1 H2 H3]. unfold insert_user.
  destruct (users_constraints _ _) as [[] | e] eqn:Hcs; [| now constructor].
  apply users_constraints_ok in Hcs. destruct Hcs as (Hc & Hk & Hi).
  cbn [snd users]. constructor.
  - apply Forall_app. split; [assumption |]. repeat constructor. exact Hc.
  - rewrite map_app. simpl. apply NoDup_app; [assumption | repeat constructor; easy |].
    intros x Hin [E | []]. subst x. apply in_map_iff in Hin. destruct Hin as (o & Ho & Hin).
    assert (K : existsb (fun o => String.eqb (peer_pubkey o)
                                   (peer_pubkey (row (users_seq d + 1)))) (users d) = true).
    { apply existsb_exists. exists o. split; [assumption |]. now apply String.eqb_eq. }
    rewrite K in Hk. discriminate.
  - rewrite flat_map_app. simpl. rewrite app_nil_r.
    destruct (client_ip (row (users_seq d + 1))) as [ip |] eqn:Hip;
      [| now rewrite app_nil_r].
    apply NoDup_app; [assumption | repeat constructor; easy |].
    intros x Hin [E | []]. subst x. apply in_flat_map in Hin. destruct Hin as (o & Hin & Ho).
    destruct (client_ip o) as [ip' |] eqn:Hip'; [| contradiction].
    destruct Ho as [E | []]. subst ip'.
    assert (K : existsb (fun o => same_ip (client_ip o) (Some ip)) (users d) = true).
    { apply existsb_exists. exists o. split; [assumption |]. rewrite Hip'. simpl.
      apply String.eqb_refl. }
    rewrite K in Hi. discriminate.
Qed.

Lemma NoDup_flat_map_filter {A B : Type} (f : A -> list B) (keep : A -> bool) (l : list A) :
  NoDup (flat_map f l) -> NoDup (flat_map f (filter keep l)).
Proof.
  induction l as [| x l IH]; simpl; intros ND; [constructor |].
  assert (ND' : NoDup (flat_map f l)) by (eapply NoDup_app_remove_l; eassumption).
  destruct (keep x); simpl; [| now apply IH].
  apply NoDup_app.
  - eapply NoDup_app_remove_r; eassumption.
  - now apply IH.
  - intros y Hy Hy'. apply in_flat_map in Hy'. destruct Hy' as (z & Hz & Hin).
    apply filter_In in Hz. destruct Hz as [Hz _].
    assert (Hy2 : In y (flat_map f l)) by (apply in_flat_map; now exists z).
    clear -ND Hy Hy2. induction (f x) as [| a fa IHa]; simpl in *; [contradiction |].
    apply NoDup_cons_iff in ND. destruct ND as [Hn ND].
    destruct Hy as [E | Hy]; [| now apply IHa].
    subst a. apply Hn. apply in_or_app. now right.
Qed.

Lemma Store_delete (keep : user -> bool) (us : list user) :
  Store_ok us -> Store_ok (filter keep us).
Proof.
  intros [H1 H2 H3]. constructor.
  - rewrite Forall_forall in *. intros x Hin. apply filter_In in Hin. now apply H1.
  - now apply NoDup_keys_filter.
  - now apply NoDup_flat_map_filter.
Qed.

Definition SO (st : state) : Prop := Store_ok (users (db st)).

Lemma row_ok_parts (u : user) :
  row_ok u = true <->
  check_nonneg (bandwidth_limit u) = true /\ check_nonneg (data_limit u) = true
  /\ check_flag (Some (u_status u)) = true /\ check_flag (enabled u) = true.
Proof. unfold row_ok. rewrite !andb_true_iff. tauto. Qed.

Lemma SO_update_user_status (c : clock) (uid s : Z) (d : database) :
  s = 0 \/ s = 1 -> Store_ok (users d) -> Store_ok (users (update_user_status c uid s d)).
Proof.
  intros Hs H. unfold update_user_status, update_users. cbn [users with_users].
  apply Store_update; [intros; now split | | exact H].
  intros u Hu. apply row_ok_parts in Hu. apply row_ok_parts. simpl.
  destruct Hu as (A & B & _ & D). repeat split; try assumption.
  destruct Hs as [-> | ->]; reflexivity.
Qed.

Lemma SO_get_or_create_user (c : clock) (pubkey : string) (d : database) :
  Store_ok (users d) -> Store_ok (users (snd (get_or_create_user c pubkey d))).
Proof.
  intros H. unfold get_or_create_user.
  destruct (validate_pubkey pubkey); simpl negb; cbv iota; [| exact H].
  destruct (select_user_by_pubkey pubkey d) as [u |].
  - destruct (truthy (expiry_date u)); [| exact H].
    destruct (Py.strptime _); [| exact H].
    destruct (Py.dt_gt _ _); [| exact H].
    cbn [snd]. unfold update_users. cbn [users with_users].
    apply Store_update; [intros; now split | | exact H].
    intros x Hx. apply row_ok_parts in Hx. apply row_ok_parts. simpl. tauto.
  - match goal with
    | |- context [insert_user ?row d] =>
        pose proof (Store_insert row d H) as Hins; destruct (insert_user row d) as [[id | e] d']
    end; exact Hins.
Qed.

Lemma SO_close_session (c : clock) (id : Z) (frx ftx : option Z) (d : database) :
  Store_ok (users d) -> Store_ok (users (close_session c id frx ftx d)).
Proof.
  intros H. unfold close_session. destruct (select_event_by_id id d) as [e |]; [| exact H].
  unfold update_events, update_daily_traffic_stats, update_user_traffic_stats, update_users.
  cbn [users with_users with_events].
  apply Store_update; [intros; now split | | exact H].
  intros x Hx. apply row_ok_parts in Hx. apply row_ok_parts. simpl. tauto.
Qed.

Lemma SO_handle_peer_online (c : clock) (pubkey : string) (info : peer_info) (st : state) :
  SO st -> SO (handle_peer_online c pubkey info st).
Proof.
  unfold SO. intros H. unfold handle_peer_online.
  pose proof (SO_get_or_create_user c pubkey (db st) H) as H1.
  destruct (get_or_create_user c pubkey (db st)) as [[[[uid nick] en] | e] d'];
    cbn [snd] in H1; [| exact H1].
  change (db (with_db st d')) with d'.
  destruct (match en with Some 0 => true | _ => false end).
  - unfold with_db. cbn [db]. apply SO_update_user_status; [now left | exact H1].
  - simpl user_sessions. destruct (dict_get pubkey (user_sessions st)) as [s |].
    + destruct (session_delta s (rx info) (tx info)) as [[[a b] a'] b']. exact H1.
    + unfold create_new_session. cbn [db]. apply SO_update_user_status; [now right | exact H1].
Qed.

Lemma SO_handle_peer_offline (c : clock) (pubkey reason : string) (st : state) :
  SO st -> SO (handle_peer_offline c pubkey reason st).
Proof.
  unfold SO. intros H. unfold handle_peer_offline.
  destruct (dict_get pubkey (user_sessions st)) as [s |]; [| exact H].
  cbn [db]. apply SO_update_user_status; [now left |]. now apply SO_close_session.
Qed.

Lemma SO_monitor_wireguard (c : clock) (max_age : option Z)
    (peers : list (string * peer_info)) (offline_iter : list string) (st : state) :
  SO st -> SO (monitor_wireguard c max_age peers offline_iter st).
Proof.
  intros H.
  assert (H1 : SO (handle_snapshot c max_age peers st)).
  { unfold handle_snapshot. revert st H.
    induction peers as [| p peers IH]; intros st H; simpl; [assumption |].
    apply IH. destruct (is_peer_online c (handshake (snd p)) max_age).
    - now apply SO_handle_peer_online.
    - destruct (dict_get (fst p) (user_sessions st)); [| assumption].
      now apply SO_handle_peer_offline. }
  assert (H2 : forall keys s, SO s ->
                 SO (fold_left (fun st k => handle_peer_offline c k "disappeared" st) keys s)).
  { induction keys as [| k keys IH]; intros s Hs; simpl; [assumption |].
    apply IH. now apply SO_handle_peer_offline. }
  unfold monitor_wireguard. destruct (Qlt_le_dec _ _); [| now apply H2].
  destruct (update_system_stats_raises _); [now apply H2 |].
  exact (H2 offline_iter _ H1).
Qed.

Lemma SO_create_user (c : clock) (pubkey nick ml ph bw dl ex nt : pyval) (st : state) :
  SO st -> SO (snd (create_user c pubkey nick ml ph bw dl ex nt st)).
Proof.
  unfold SO. intros H.
  destruct (create_user_cases c pubkey nick ml ph bw dl ex nt st)
    as [[_ ->] | [(key & ip & _ & _ & _ & ->)
                 | (key & ip & row & uid & d' & _ & _ & _ & _ & _ & Hins & ->)]];
    [exact H | exact H |].
  pose proof (Store_insert row (db st) H) as Hs. rewrite Hins in Hs. exact Hs.
Qed.

Lemma row_ok_apply_update (e : sqlite) (values : list (string * sqlval)) (ts : string)
    (u x : user) :
  update_checks e values u = Ok tt ->
  row_ok x = true -> row_ok (apply_update e values ts x) = true.
Proof.
  intros Hc Hx. apply row_ok_parts in Hx. destruct Hx as (A & B & C & D).
  unfold update_checks in Hc.
  destruct (check_nonneg (bandwidth_limit (apply_update e values "" u))) eqn:Hb;
    [| discriminate].
  destruct (check_nonneg (data_limit (apply_update e values "" u))) eqn:Hd; [| discriminate].
  destruct (check_flag (Some (u_status u))); [| discriminate].
  cbn [negb] in Hc.
  destruct (match dict_get "enabled" values with
            | Some v => check_flag_value (integer_column e v)
            | None => check_flag (enabled u)
            end) eqn:He; [| discriminate].
  apply row_ok_parts.
  cbn [apply_update bandwidth_limit data_limit u_status enabled] in *. unfold upd in *.
  destruct (dict_get "bandwidth_limit" values), (dict_get "data_limit" values),
    (dict_get "enabled" values) as [v |];
    cbn [option_map] in *; repeat split; try assumption;
    destruct (integer_column e v); try discriminate He; exact He.
Qed.

Lemma SO_update_user (c : clock) (uid : Z) (k : list (string * pyval)) (st : state) :
  SO st -> SO (snd (update_user c uid k st)).
Proof.
  unfold SO. intros H.
  destruct (update_user_cases c uid k st) as (st1 & H1 & [-> | (values & u & _ & _ & Hc & ->)]);
    destruct (interface_called_frame _ _ H1) as (Hd & _ & _).
  - now rewrite Hd.
  - cbn [snd]. unfold with_db, update_users. cbn [db users with_users]. rewrite Hd.
    apply Store_update; [intros; now split | | exact H].
    intros x Hx. exact (row_ok_apply_update _ values _ u x Hc Hx).
Qed.

Lemma SO_delete_user (foreign_keys : bool) (c : clock) (uid : Z) (st : state) :
  SO st -> SO (snd (delete_user foreign_keys c uid st)).
Proof.
  unfold SO. intros H. unfold delete_user.
  destruct (select_user_by_id uid (db st)) as [u |]; [| exact H].
  unfold remove_wg_peer, with_db, delete_user_row. cbn [snd db users].
  apply Store_delete.
  generalize (open_events_of uid (db st)). intros ids. revert H. generalize (db st).
  induction ids as [| i ids IH]; intros d H; simpl; [exact H |].
  apply IH. now apply SO_close_session.
Qed.

Lemma SO_step (foreign_keys : bool) (st st' : state) :
  SO st -> step foreign_keys st st' -> SO st'.
Proof.
  intros H Hstep. destruct Hstep.
  - now apply SO_monitor_wireguard.
  - destruct (handle_create_user_api_state c data st)
      as [-> | (pk & a1 & a2 & a3 & a4 & a5 & a6 & a7 & ->)]; [exact H |].
    now apply SO_create_user.
  - destruct (handle_user_action_api_state c user_id action st)
      as [-> | [[v ->] | [-> | [k ->]]]].
    + exact H.
    + now apply SO_update_user.
    + unfold SO, with_db, update_users. cbn [snd db users with_users].
      apply Store_update; [intros; now split | | exact H].
      intros x Hx. apply row_ok_parts in Hx. apply row_ok_parts. simpl. tauto.
    + now apply SO_handle_peer_offline.
  - destruct (handle_update_user_api_state c user_id data st) as [-> | (k & ->)]; [exact H |].
    now apply SO_update_user.
  - destruct (handle_delete_state foreign_keys c user_id st) as [-> | ->]; [exact H |].
    now apply SO_delete_user.
Qed.

Lemma SO_reachable (foreign_keys : bool) (st : state) : reachable foreign_keys st -> SO st.
Proof.
  induction 1 as [| st st' _ IH Hstep].
  - constructor; simpl; constructor.
  - eapply SO_step; eassumption.
Qed.



(** A limit that is no number, and a flag that is a text: the update is
    answered with success; SQLite keeps the text "abc" in bandwidth_limit
    and turns the text "0" into the flag 0, and since "0" is not [0] for
    Python the key stays on the interface. *)
Lemma update_user_stores_text :
  fst (handle_update_user_api (clock_at 43300 12 1 40) 1
         (PDict [("bandwidth_limit", PStr "abc"); ("enabled", PStr "0")]) after_first_tick)
  = success_response "用户信息已更新"
  /\ option_map (fun u => (bandwidth_limit u, enabled u))
       (select_user_by_id 1
          (db (snd (handle_update_user_api (clock_at 43300 12 1 40) 1
                      (PDict [("bandwidth_limit", PStr "abc"); ("enabled", PStr "0")])
                      after_first_tick))))
     = Some (SText "abc", Some 0)
  /\ wg_calls (snd (handle_update_user_api (clock_at 43300 12 1 40) 1
                      (PDict [("bandwidth_limit", PStr "abc"); ("enabled", PStr "0")])
                      after_first_tick)) = [].
Proof. vm_compute. repeat split; reflexivity. Qed.

(** [update_user(user_id, enabled=v)], for a [v] of 64 bits. *)
Lemma update_user_enabled (c : clock) (uid v : Z) (st : state) :
  int64 v = true ->
  update_user c uid (enabled_update v) st
  = let st1 :=
      if v =? 0 then
        match select_user_by_id uid (db st) with
        | Some user => snd (remove_wg_peer (peer_pubkey user) st)
        | None => st
        end
      else if v =? 1 then
        match select_user_by_id uid (db st) with
        | Some user =>
            match client_ip user with
            | Some ip => if String.eqb ip "" then st
                         else snd (add_wg_peer (peer_pubkey user) ip st)
            | None => st
            end
        | None => st
        end
      else st in
    match select_user_by_id uid (db st1) with
    | None => (Ok (Some true), st1)
    | Some user =>
        match update_checks (engine st1) [("enabled", SInteger v)] user with
        | Raise e => (Raise e, st1)
        | Ok _ =>
            (Ok (Some true),
             with_db st1
               (update_users uid
                  (apply_update (engine st1) [("enabled", SInteger v)]
                                (get_current_timestamp c))
                  (db st1)))
        end
    end.
Proof.
  intros Hi. unfold update_user, enabled_update.
  change (update_user_args [("enabled", PInt v)]) with (Ok [("enabled", PInt v)]).
  change (dict_get "enabled" [("enabled", PInt v)]) with (Some (PInt v)).
  cbv iota. cbn [eq_int bind_from bind try]. rewrite Hi. reflexivity.
Qed.

(** X13: switching a stored user off and on, in a reachable state.  With
    [enabled = 0] the key is removed from the interface; with [enabled = 1]
    it is added again with the stored client address, and a user that has
    no address (one the engine created from a snapshot) causes no call at
    all.  Either way the call succeeds and the row ends with the new flag,
    its other columns but updated_at unchanged. *)
Theorem update_user_toggles_peer
    (foreign_keys : bool) (c : clock) (user_id : Z) (v : Z) (st : state) (u : user) :
  reachable foreign_keys st ->
  select_user_by_id user_id (db st) = Some u ->
  v = 0 \/ v = 1 ->
  fst (update_user c user_id (enabled_update v) st) = Ok (Some true)
  /\ select_user_by_id user_id (db (snd (update_user c user_id (enabled_update v) st)))
     = Some (set_enabled (Some v) (get_current_timestamp c) u)
  /\ wg_calls (snd (update_user c user_id (enabled_update v) st))
     = (wg_calls st
        ++ (if v =? 0 then [RemovePeer (peer_pubkey u)]
            else match client_ip u with
                 | Some ip => if String.eqb ip "" then [] else [AddPeer (peer_pubkey u) ip]
                 | None => []
                 end))%list.
Proof.
  intros Hreach Hu Hv.
  pose proof (SO_reachable foreign_keys st Hreach) as [Hrows _ _].
  rewrite Forall_forall in Hrows.
  assert (Hin : In u (users (db st))).
  { unfold select_user_by_id in Hu. apply find_some in Hu. tauto. }
  pose proof (proj1 (row_ok_parts u) (Hrows u Hin)) as (A & B & S & _).
  assert (Hsel : forall e d, users d = users (db st) ->
             select_user_by_id user_id
               (update_users user_id
                  (apply_update e [("enabled", SInteger v)] (get_current_timestamp c)) d)
             = Some (set_enabled (Some v) (get_current_timestamp c) u)).
  { intros e d Hd. unfold select_user_by_id, update_users. cbn [users with_users].
    rewrite find_update_users by reflexivity. rewrite Hd.
    unfold select_user_by_id in Hu. now rewrite Hu. }
  assert (Hchecks : forall e, update_checks e [("enabled", SInteger v)] u = Ok tt).
  { intros e. unfold update_checks.
    change (bandwidth_limit (apply_update e [("enabled", SInteger v)] "" u))
      with (bandwidth_limit u).
    change (data_limit (apply_update e [("enabled", SInteger v)] "" u)) with (data_limit u).
    rewrite A, B, S. destruct Hv as [-> | ->]; reflexivity. }
  rewrite (update_user_enabled c user_id v st) by (destruct Hv as [-> | ->]; reflexivity).
  destruct Hv as [-> | ->].
  - cbn [Z.eqb]. rewrite Hu. unfold remove_wg_peer. cbn [snd db engine]. rewrite Hu.
    rewrite Hchecks. cbn [fst snd with_db db wg_calls].
    split; [reflexivity |]. split; [now apply Hsel | reflexivity].
  - cbn [Z.eqb Pos.eqb]. rewrite Hu.
    destruct (client_ip u) as [ip |] eqn:Hip.
    + destruct (String.eqb ip "") eqn:Hempty.
      * rewrite Hu, Hchecks. cbn [fst snd with_db db wg_calls].
        split; [reflexivity |]. split; [now apply Hsel | now rewrite app_nil_r].
      * unfold add_wg_peer. cbn [snd db engine]. rewrite Hu, Hchecks.
        cbn [fst snd with_db db wg_calls].
        split; [reflexivity |]. split; [now apply Hsel | reflexivity].
    + rewrite Hu, Hchecks. cbn [fst snd with_db db wg_calls].
      split; [reflexivity |]. split; [now apply Hsel | now rewrite app_nil_r].
Qed.

Lemma update_user_toggles_peer_witness :
  reachable false after_first_tick
  /\ wg_calls (snd (update_user (clock_at 43300 12 1 40) 1 (enabled_update 0)
                      after_first_tick))
     = [RemovePeer pkA]
  /\ wg_calls (snd (update_user (clock_at 43300 12 1 40) 1 (enabled_update 1)
                      after_first_tick))
     = [].
Proof.
  split; [exact after_first_tick_reachable |].
  pose (u := mk_user 1 pkA None None None None None (SInteger 0) (SInteger 0) None 1 (Some 1)
                     0 0 None None None "2024-01-01 12:00:00" "2024-01-01 12:00:00").
  destruct (update_user_toggles_peer false (clock_at 43300 12 1 40) 1 0 after_first_tick u
              after_first_tick_reachable eq_refl (or_introl eq_refl)) as (_ & _ & H0).
  destruct (update_user_toggles_peer false (clock_at 43300 12 1 40) 1 1 after_first_tick u
              after_first_tick_reachable eq_refl (or_intror eq_refl)) as (_ & _ & H1).
  split; [exact H0 | exact H1].
Defined.

(* ===================================================================== *)
(** ** Further properties: the statistics tables *)
(* ===================================================================== *)

Lemma find_other_key {A : Type} (p q : A -> bool) (l : list A) (row : A) :
  (forall x, q x = true -> p x = false) -> q row = false ->
  find q (filter (fun x => negb (p x)) l ++ [row]) = find q l.
Proof.
  intros Hdis Hrow. induction l as [| x l IH]; simpl; [now rewrite Hrow |].
  destruct (q x) eqn:Q.
  - rewrite (Hdis x Q). simpl. now rewrite Q.
  - destruct (p x); simpl; [exact IH |]. now rewrite Q.
Qed.

Definition traffic_keys (d : database) : list (Z * string) :=
  map (fun t => (t_user_id t, t_date t)) (traffic_stats d).

(** X14: the daily upsert.  After [update_daily_traffic_stats] the row of
    (user, today) holds the former daily_rx, daily_tx and session_count of
    that key (0 when there was no row) plus the amounts given, under a new
    rowid and with the created_at of the former row when there was one; the
    row of every other (user, date) is found as before; and if no two rows
    shared a (user, date) before, none do after. *)
Theorem update_daily_traffic_stats_upsert
    (c : clock) (user_id rx_add tx_add sessions : Z) (d : database) :
  (exists row : traffic_stat,
      find (traffic_key user_id (Py.strftime_date (now c)))
           (traffic_stats (update_daily_traffic_stats c user_id rx_add tx_add sessions d))
      = Some row
      /\ t_id row = traffic_stats_seq d + 1
      /\ match find (traffic_key user_id (Py.strftime_date (now c))) (traffic_stats d) with
         | Some old =>
             daily_rx row = daily_rx old + rx_add /\ daily_tx row = daily_tx old + tx_add
             /\ session_count row = session_count old + sessions
             /\ t_created_at row = t_created_at old
         | None =>
             daily_rx row = rx_add /\ daily_tx row = tx_add
             /\ session_count row = sessions
             /\ t_created_at row = get_current_timestamp c
         end)
  /\ (forall (other : Z) (date : string),
        other <> user_id \/ date <> Py.strftime_date (now c) ->
        find (traffic_key other date)
             (traffic_stats (update_daily_traffic_stats c user_id rx_add tx_add sessions d))
        = find (traffic_key other date) (traffic_stats d))
  /\ (NoDup (traffic_keys d) ->
      NoDup (traffic_keys (update_daily_traffic_stats c user_id rx_add tx_add sessions d))).
Proof.
  split; [| split].
  - unfold update_daily_traffic_stats. cbn [traffic_stats].
    rewrite find_replaced.
    + eexists. split; [reflexivity |]. cbn. split; [reflexivity |].
      destruct (find _ (traffic_stats d)); repeat split; lia.
    + unfold traffic_key. cbn. now rewrite Z.eqb_refl, String.eqb_refl.
  - intros other date Hne. unfold update_daily_traffic_stats. cbn [traffic_stats].
    apply find_other_key.
    + intros x Hx. unfold traffic_key in *. apply andb_true_iff in Hx. destruct Hx as [U D].
      apply Z.eqb_eq in U. apply String.eqb_eq in D. rewrite U, D.
      destruct Hne as [Hne | Hne].
      * destruct (Z.eqb_spec other user_id); [contradiction | reflexivity].
      * destruct (String.eqb_spec date (Py.strftime_date (now c)));
          [contradiction | apply andb_false_r].
    + unfold traffic_key. cbn. destruct Hne as [Hne | Hne].
      * destruct (Z.eqb_spec user_id other); [now elim Hne | reflexivity].
      * destruct (String.eqb_spec (Py.strftime_date (now c)) date);
          [now elim Hne | apply andb_false_r].
  - intros ND. unfold traffic_keys, update_daily_traffic_stats. cbn [traffic_stats].
    rewrite map_app. cbn [map]. apply NoDup_app.
    + now apply NoDup_keys_filter.
    + repeat constructor. easy.
    + intros x Hin [E | []]. subst x. apply in_map_iff in Hin.
      destruct Hin as (t & Ht & Hin). apply filter_In in Hin. destruct Hin as [_ Hn].
      inversion Ht as [[U D]]. unfold traffic_key in Hn.
      rewrite U, D, Z.eqb_refl, String.eqb_refl in Hn. discriminate.
Qed.

(** X15: the system roll-up.  After [update_system_stats] the row of today
    holds the number of users with enabled = 1, the number of those with
    status 1 (NULL when there is none enabled), and a peak_concurrent that
    is the larger of the size of the live map and the peak of the row that
    was there for today (so it never falls within a day); the rows of other
    dates are found as before, and the users, the events, the daily traffic
    rows and the live map are not touched. *)
Theorem update_system_stats_rollup (c : clock) (st : state) :
  (exists row : system_stat,
      find (fun s => String.eqb (s_date s) (Py.strftime_date (now c)))
           (system_stats (db (update_system_stats c st))) = Some row
      /\ total_users row = Z.of_nat (List.length (filter is_enabled (users (db st))))
      /\ active_users row
         = sql_sum (map (fun u => if u_status u =? 1 then 1 else 0)
                        (filter is_enabled (users (db st))))
      /\ Z.of_nat (List.length (user_sessions st)) <= peak_concurrent row
      /\ match find (fun s => String.eqb (s_date s) (Py.strftime_date (now c)))
                    (system_stats (db st)) with
         | Some old =>
             peak_concurrent old <= peak_concurrent row
             /\ s_created_at row = s_created_at old
         | None =>
             peak_concurrent row = Z.of_nat (List.length (user_sessions st))
             /\ s_created_at row = get_current_timestamp c
         end)
  /\ (forall date : string,
        date <> Py.strftime_date (now c) ->
        find (fun s => String.eqb (s_date s) date)
             (system_stats (db (update_system_stats c st)))
        = find (fun s => String.eqb (s_date s) date) (system_stats (db st)))
  /\ users (db (update_system_stats c st)) = users (db st)
  /\ events (db (update_system_stats c st)) = events (db st)
  /\ traffic_stats (db (update_system_stats c st)) = traffic_stats (db st)
  /\ user_sessions (update_system_stats c st) = user_sessions st.
Proof.
  split; [| split; [| now repeat split]].
  - unfold update_system_stats, with_db. cbn [db system_stats].
    rewrite (find_replaced (fun s => String.eqb (s_date s) (Py.strftime_date (now c)))).
    + eexists. split; [reflexivity |]. cbn.
      split; [reflexivity |]. split; [reflexivity |]. split; [lia |].
      destruct (find _ (system_stats (db st))); split; try reflexivity; lia.
    + cbn. apply String.eqb_refl.
  - intros date Hne. unfold update_system_stats, with_db. cbn [db system_stats].
    apply (find_other_key (fun s => String.eqb (s_date s) (Py.strftime_date (now c)))).
    + intros x Hx. apply String.eqb_eq in Hx. rewrite Hx.
      now destruct (String.eqb_spec date (Py.strftime_date (now c))).
    + cbn. destruct (String.eqb_spec (Py.strftime_date (now c)) date);
        [now elim Hne | reflexivity].
Qed.

(* ===================================================================== *)
(** ** Further properties: keys, timestamps and the peer table *)
(* ===================================================================== *)

Lemma chars_str (l : list ascii) : Py.chars (Py.str l) = l.
Proof. apply list_ascii_of_string_of_list_ascii. Qed.

Lemma str_chars (s : string) : Py.str (Py.chars s) = s.
Proof. apply string_of_list_ascii_of_string. Qed.

Lemma chars_app (a b : string) : Py.chars (a ++ b) = (Py.chars a ++ Py.chars b)%list.
Proof.
  unfold Py.chars. induction a as [| ch a IH]; simpl; [reflexivity | now rewrite IH].
Qed.

Lemma length_str (l : list ascii) : String.length (Py.str l) = List.length l.
Proof. unfold Py.str. induction l as [| ch l IH]; simpl; [reflexivity | now rewrite IH]. Qed.

(** The number of characters of the base64 alphabet in a text. *)
Definition count_b64 (l : list ascii) : Z :=
  Z.of_nat (List.length (filter Py.is_b64 l)).

Lemma a2b_ok_body (body rest : list ascii) (q pads : Z) :
  Forall (fun ch => Py.is_char "=" ch = false) body -> 0 <= q < 4 ->
  Py.a2b_ok q pads (body ++ rest)
  = Py.a2b_ok ((q + count_b64 body) mod 4)
              (if count_b64 body =? 0 then pads else 0) rest.
Proof.
  unfold count_b64. revert q pads.
  induction body as [| ch body IH]; intros q pads Hall Hq; cbn [app filter].
  - cbn [List.length Z.of_nat Z.eqb]. rewrite Z.add_0_r, Z.mod_small by lia. reflexivity.
  - inversion Hall as [| ? ? Hch Hall']; subst. cbn [Py.a2b_ok]. rewrite Hch.
    destruct (Py.is_b64 ch) eqn:Hb.
    + rewrite IH by (try assumption; apply Z.mod_pos_bound; lia).
      rewrite Zplus_mod_idemp_l. cbn [List.length]. rewrite Nat2Z.inj_succ.
      replace (q + Z.succ (Z.of_nat (List.length (filter Py.is_b64 body))))
        with (q + 1 + Z.of_nat (List.length (filter Py.is_b64 body))) by lia.
      f_equal.
      destruct (Z.eqb_spec (Z.succ (Z.of_nat (List.length (filter Py.is_b64 body)))) 0);
        [lia |].
      now destruct (Z.of_nat _ =? 0).
    + apply IH; assumption.
Qed.

Lemma a2b_ok_pads (k : nat) (q : Z) :
  0 <= q < 4 ->
  Py.a2b_ok q 0 (repeat "="%char (k + 2)) = negb (q =? 1).
Proof.
  intros Hq.
  assert (Hskip : forall n p, q = 0 \/ q = 1 ->
                    Py.a2b_ok q p (repeat "="%char n) = (q =? 0)).
  { induction n as [| n IHn]; intros p H01; simpl; [reflexivity |].
    destruct H01 as [-> | ->]; simpl; apply IHn; tauto. }
  assert (Hcases : q = 0 \/ q = 1 \/ q = 2 \/ q = 3) by lia.
  destruct Hcases as [-> | [-> | [-> | ->]]].
  - now rewrite Hskip by tauto.
  - now rewrite Hskip by tauto.
  - replace (k + 2)%nat with (S (S k)) by lia. reflexivity.
  - replace (k + 2)%nat with (S (S k)) by lia. reflexivity.
Qed.

(** X16: which 44-character keys pass [validate_pubkey].  For a key made
    of ASCII characters other than "=", followed by any number of "=", the
    answer depends only on how many of its characters are in the base64
    alphabet: the key passes unless that number is 1 more than a multiple
    of 4.  Characters outside the alphabet are not a reason to refuse. *)
Theorem validate_pubkey_counts_alphabet (body : list ascii) (k : nat) :
  Forall (fun ch => Py.code ch < 128 /\ ch <> "="%char) body ->
  (List.length body + k = 44)%nat ->
  validate_pubkey (Py.str (body ++ repeat "="%char k))
  = negb (count_b64 body mod 4 =? 1).
Proof.
  intros Hall Hlen. unfold validate_pubkey.
  assert (Hne : String.eqb (Py.str (body ++ repeat "="%char k)) "" = false).
  { destruct (body ++ repeat "="%char k)%list eqn:E; [| reflexivity].
    apply (f_equal (@List.length ascii)) in E. rewrite length_app, repeat_length in E.
    simpl in E. lia. }
  rewrite Hne, length_str, length_app, repeat_length, Hlen. simpl orb. cbv iota.
  unfold Py.b64decode_ok. rewrite chars_app, chars_str.
  change (Py.chars "==") with (repeat "="%char 2).
  rewrite <- app_assoc, <- repeat_app.
  assert (Hascii : forallb (fun ch => Py.code ch <? 128)
                           (body ++ repeat "="%char (k + 2)) = true).
  { apply forallb_forall. intros ch Hin. apply in_app_or in Hin.
    destruct Hin as [Hin | Hin].
    - rewrite Forall_forall in Hall. apply Z.ltb_lt. now apply Hall.
    - apply repeat_spec in Hin. now subst. }
  rewrite Hascii. simpl andb.
  rewrite a2b_ok_body; [| | lia].
  - rewrite Z.add_0_l.
    assert (Hp : (if count_b64 body =? 0 then 0 else 0) = 0) by now destruct (_ =? 0).
    rewrite Hp. apply a2b_ok_pads. apply Z.mod_pos_bound. lia.
  - eapply Forall_impl; [| exact Hall]. intros ch [_ Hc]. cbv beta.
    unfold Py.is_char. apply Ascii.eqb_neq. intros E. now elim Hc.
Qed.

Lemma validate_pubkey_counts_alphabet_witness :
  validate_pubkey "!!!!!!!!!!!!!!!!!!!!!!!!!!!!!!!!!!!!!!!!!!!!" = true.
Proof.
  rewrite <- (str_chars "!!!!!!!!!!!!!!!!!!!!!!!!!!!!!!!!!!!!!!!!!!!!").
  rewrite <- (app_nil_r (Py.chars "!!!!!!!!!!!!!!!!!!!!!!!!!!!!!!!!!!!!!!!!!!!!")).
  change (@nil ascii) with (repeat "="%char 0).
  rewrite validate_pubkey_counts_alphabet.
  - reflexivity.
  - repeat constructor; try discriminate.
  - reflexivity.
Defined.

(** *** Timestamps written by the code parse back *)

Lemma range_forallb (f : Z -> bool) (lo len : Z) :
  forallb f (map (fun i => lo + Z.of_nat i) (seq 0 (Z.to_nat len))) = true ->
  forall z, lo <= z < lo + len -> f z = true.
Proof.
  intros H z Hz. rewrite forallb_forall in H. apply H.
  apply in_map_iff. exists (Z.to_nat (z - lo)). split; [lia |]. apply in_seq. lia.
Qed.

(** The characters of a text that is ASCII. *)
Definition text (s : string) : list Z := map Py.code (Py.chars s).

Lemma decode_cons_ascii (b : ascii) (l : list ascii) :
  Py.code b < 128 -> Py.decode (b :: l) = option_map (cons (Py.code b)) (Py.decode l).
Proof.
  intros Hb. apply Z.ltb_lt in Hb. destruct l; cbn [Py.decode]; now rewrite Hb.
Qed.

Lemma decode_ascii (l : list ascii) :
  Forall (fun b => Py.code b < 128) l -> Py.decode l = Some (map Py.code l).
Proof.
  induction 1 as [| b l Hb _ IH]; [reflexivity |].
  rewrite (decode_cons_ascii _ _ Hb), IH. reflexivity.
Qed.

Lemma to_ascii_ascii (l : list ascii) :
  Forall (fun b => Py.code b < 128) l -> Py.to_ascii (map Py.code l) = Some l.
Proof.
  induction 1 as [| b l Hb _ IH]; [reflexivity |].
  cbn [map Py.to_ascii]. rewrite IH. unfold Py.ascii_of_cp.
  apply Z.ltb_lt in Hb. rewrite Hb. unfold Py.code.
  now rewrite N2Z.id, ascii_N_embedding.
Qed.

(** On ASCII text [int] reads the bytes as they are. *)
Lemma int_ascii (s : string) :
  Forall (fun b => Py.code b < 128) (Py.chars s) -> Py.int s = Py.int_chars (Py.chars s).
Proof.
  intros H. unfold Py.int, Py.int_cps. now rewrite (decode_ascii _ H), (to_ascii_ascii _ H).
Qed.

Lemma digit_ascii (a : ascii) : Py.is_digit a = true -> Py.code a < 128.
Proof.
  unfold Py.is_digit, Py.in_range. change (Py.code "9") with 57.
  rewrite andb_true_iff, !Z.leb_le. lia.
Qed.

Lemma digit_decimal (a : ascii) : Py.is_digit a = true -> Py.is_decimal (Py.code a) = true.
Proof.
  unfold Py.is_digit, Py.in_range. change (Py.code "0") with 48. change (Py.code "9") with 57.
  rewrite andb_true_iff, !Z.leb_le. intros [H0 H9].
  unfold Py.is_decimal, Py.decimal_value, Py.decimal_blocks. cbn [find fst snd].
  destruct (Z.leb_spec 48 (Py.code a)); [| lia].
  destruct (Z.ltb_spec (Py.code a) (48 + 10)); [| lia]. reflexivity.
Qed.

Definition four_digits_ok (n : Z) : bool :=
  match Py.chars (Py.pad4 n) with
  | [a; b; c; e] =>
      Py.is_digit a && Py.is_digit b && Py.is_digit c && Py.is_digit e
      && match Py.int_cps (map Py.code [a; b; c; e]) with Some v => v =? n | None => false end
  | _ => false
  end.

Lemma all_four_digits : forallb four_digits_ok
                         (map (fun i => 1000 + Z.of_nat i) (seq 0 (Z.to_nat 9000))) = true.
Proof. vm_compute. reflexivity. Qed.

Lemma four_digits (n : Z) :
  1000 <= n <= 9999 ->
  exists a b c e : ascii,
    Py.chars (Py.pad4 n) = [a; b; c; e]
    /\ Py.is_digit a = true /\ Py.is_digit b = true
    /\ Py.is_digit c = true /\ Py.is_digit e = true
    /\ Py.int_cps (map Py.code [a; b; c; e]) = Some n.
Proof.
  intros Hn.
  assert (Hr : 1000 <= n < 1000 + 9000) by lia.
  pose proof (range_forallb four_digits_ok 1000 9000 all_four_digits n Hr) as H.
  clear Hr Hn.
  unfold four_digits_ok in H.
  destruct (Py.chars (Py.pad4 n)) as [| a [| b [| c [| e [| x l]]]]]; try discriminate.
  exists a, b, c, e. rewrite !andb_true_iff in H. destruct H as [[[[A B] C] D] E].
  destruct (Py.int_cps (map Py.code [a; b; c; e])) as [v |]; [| discriminate].
  apply Z.eqb_eq in E. subst v. now repeat split.
Qed.

Definition two_digits_ok (n : Z) : bool :=
  match Py.chars (Py.pad2 n) with
  | [a; b] =>
      Py.is_digit a && Py.is_digit b && negb (Py.is_uspace (Py.code a))
      && match Py.int_cps (map Py.code [a; b]) with Some v => v =? n | None => false end
  | _ => false
  end.

Lemma all_two_digits :
  forallb two_digits_ok (map (fun i => 0 + Z.of_nat i) (seq 0 (Z.to_nat 100))) = true.
Proof. vm_compute. reflexivity. Qed.

Lemma two_digits (n : Z) :
  0 <= n <= 99 ->
  exists a b : ascii,
    Py.chars (Py.pad2 n) = [a; b]
    /\ Py.is_digit a = true /\ Py.is_digit b = true /\ Py.is_uspace (Py.code a) = false
    /\ Py.int_cps (map Py.code [a; b]) = Some n.
Proof.
  intros Hn.
  assert (Hr : 0 <= n < 0 + 100) by lia.
  pose proof (range_forallb two_digits_ok 0 100 all_two_digits n Hr) as H.
  clear Hr Hn. unfold two_digits_ok in H.
  destruct (Py.chars (Py.pad2 n)) as [| a [| b [| x l]]]; try discriminate.
  exists a, b. rewrite !andb_true_iff in H. destruct H as [[[A B] C] D].
  destruct (Py.int_cps (map Py.code [a; b])) as [v |]; [| discriminate].
  apply Z.eqb_eq in D. apply negb_true_iff in C. subst v. now repeat split.
Qed.

Definition field_ok (r : Py.re Z) (p : list Z) : Prop :=
  forall (A : Type) (rest : list Z) (K : list Z -> option A) (a : A),
    K rest = Some a -> Py.m r (p ++ rest)%list K = Some a.

Ltac field_case :=
  match goal with
  | |- field_ok _ (text (Py.pad2 (Z.of_nat ?k))) =>
      let p := eval vm_compute in (text (Py.pad2 (Z.of_nat k))) in
      change (text (Py.pad2 (Z.of_nat k))) with p;
      let HK := fresh "HK" in
      intros ? ? ? ? HK; cbn; rewrite HK; reflexivity
  end.

Tactic Notation "field_range" integer(bound) :=
  let k := fresh "k" in
  intros n Hn; rewrite <- (Z2Nat.id n) in * by lia;
  generalize dependent (Z.to_nat n); intros k Hn;
  do bound (destruct k as [| k]; [first [exfalso; lia | field_case] |]);
  exfalso; lia.

Lemma month_ok : forall n, 1 <= n <= 12 -> field_ok Py.re_m (text (Py.pad2 n)).
Proof. field_range 13. Qed.

Lemma day_ok : forall n, 1 <= n <= 31 -> field_ok Py.re_d (text (Py.pad2 n)).
Proof. field_range 32. Qed.

Lemma hour_ok : forall n, 0 <= n <= 23 -> field_ok Py.re_H (text (Py.pad2 n)).
Proof. field_range 24. Qed.

Lemma minute_ok : forall n, 0 <= n <= 59 -> field_ok Py.re_M (text (Py.pad2 n)).
Proof. field_range 60. Qed.

Lemma second_ok : forall n, 0 <= n <= 59 -> field_ok Py.re_S (text (Py.pad2 n)).
Proof. field_range 60. Qed.

Lemma firstn_prefix {A : Type} (p rest : list A) :
  firstn (List.length (p ++ rest) - List.length rest) (p ++ rest) = p.
Proof.
  rewrite length_app, Nat.add_sub. rewrite firstn_app, Nat.sub_diag, firstn_all. simpl.
  apply app_nil_r.
Qed.

Lemma group_ok (r : Py.re Z) (p : list Z) :
  field_ok r p ->
  forall (A : Type) (rest : list Z) (k : list Z -> list Z -> option A) (a : A),
    k p rest = Some a -> Py.group r (p ++ rest)%list k = Some a.
Proof.
  intros Hf A rest k a Hk. unfold Py.group. apply Hf. now rewrite firstn_prefix.
Qed.

Lemma year_ok (y : Z) : 1000 <= y <= 9999 -> field_ok Py.re_Y (text (Py.pad4 y)).
Proof.
  intros Hy A rest K a HK.
  destruct (four_digits y Hy) as (a1 & a2 & a3 & a4 & E & D1 & D2 & D3 & D4 & _).
  unfold text. rewrite E.
  unfold Py.re_Y. cbn [Py.m app map].
  now rewrite (digit_decimal _ D1), (digit_decimal _ D2), (digit_decimal _ D3),
    (digit_decimal _ D4).
Qed.

Lemma lit_ok {A : Type} (ch : ascii) (rest : list Z) (K : list Z -> option A) :
  Py.m (Py.lit ch) (Py.code ch :: rest) K = K rest.
Proof. unfold Py.lit. cbn [Py.m]. now rewrite Z.eqb_refl. Qed.

Lemma space_ok {A : Type} (cp : Z) (rest : list Z) (K : list Z -> option A) :
  Py.is_uspace cp = false ->
  Py.m (Py.Plus Py.is_uspace) (Py.code " " :: cp :: rest) K = K (cp :: rest).
Proof.
  intros Hc. unfold Py.Plus. cbn [Py.m Py.star].
  change (Py.is_uspace (Py.code " ")) with true. cbv iota. now rewrite Hc.
Qed.

(** A date and time that [datetime] can hold and [strftime] prints with a
    year of four digits. *)
Definition valid_datetime (d : Py.datetime) : Prop :=
  1000 <= Py.year d <= 9999 /\ 1 <= Py.month d <= 12
  /\ 1 <= Py.day d <= Py.days_in_month (Py.year d) (Py.month d)
  /\ 0 <= Py.hour d <= 23 /\ 0 <= Py.minute d <= 59 /\ 0 <= Py.second d <= 59.

Lemma days_in_month_le (y mo : Z) : Py.days_in_month y mo <= 31.
Proof.
  unfold Py.days_in_month. destruct (mo =? 2); [destruct (Py.is_leap y); lia |].
  destruct ((mo =? 4) || (mo =? 6) || (mo =? 9) || (mo =? 11)); lia.
Qed.

Lemma chars_strftime (d : Py.datetime) :
  Py.chars (Py.strftime d)
  = (Py.chars (Py.pad4 (Py.year d))
     ++ "-"%char :: Py.chars (Py.pad2 (Py.month d))
     ++ "-"%char :: Py.chars (Py.pad2 (Py.day d))
     ++ " "%char :: Py.chars (Py.pad2 (Py.hour d))
     ++ ":"%char :: Py.chars (Py.pad2 (Py.minute d))
     ++ ":"%char :: Py.chars (Py.pad2 (Py.second d)) ++ [])%list.
Proof.
  unfold Py.strftime, Py.strftime_date. rewrite !chars_app.
  change (Py.chars "-") with ["-"%char]. change (Py.chars " ") with [" "%char].
  change (Py.chars ":") with [":"%char].
  repeat (rewrite <- app_assoc; cbn [app]).
  now rewrite app_nil_r.
Qed.

Lemma text_strftime (d : Py.datetime) :
  text (Py.strftime d)
  = (text (Py.pad4 (Py.year d))
     ++ Py.code "-" :: text (Py.pad2 (Py.month d))
     ++ Py.code "-" :: text (Py.pad2 (Py.day d))
     ++ Py.code " " :: text (Py.pad2 (Py.hour d))
     ++ Py.code ":" :: text (Py.pad2 (Py.minute d))
     ++ Py.code ":" :: text (Py.pad2 (Py.second d)) ++ [])%list.
Proof.
  unfold text. rewrite chars_strftime.
  repeat (rewrite map_app; cbn [map]). reflexivity.
Qed.

Lemma pad2_ascii (n : Z) :
  0 <= n <= 99 -> Forall (fun b => Py.code b < 128) (Py.chars (Py.pad2 n)).
Proof.
  intros Hn. destruct (two_digits n Hn) as (a & b & -> & Da & Db & _).
  repeat constructor; now apply digit_ascii.
Qed.

Lemma Forall_app_cons {A : Type} (P : A -> Prop) (l1 l2 : list A) (x : A) :
  Forall P l1 -> P x -> Forall P l2 -> Forall P (l1 ++ x :: l2).
Proof. intros H1 Hx H2. apply Forall_app. split; [assumption | now constructor]. Qed.

Lemma decode_strftime (d : Py.datetime) :
  valid_datetime d -> Py.decode (Py.chars (Py.strftime d)) = Some (text (Py.strftime d)).
Proof.
  intros (Hy & Hmo & Hd & Hh & Hmi & Hs).
  pose proof (days_in_month_le (Py.year d) (Py.month d)) as Hdim.
  apply decode_ascii. rewrite chars_strftime. rewrite app_nil_r.
  repeat (apply Forall_app_cons; [| reflexivity |]); try (apply pad2_ascii; lia).
  destruct (four_digits _ Hy) as (a1 & a2 & a3 & a4 & -> & D1 & D2 & D3 & D4 & _).
  repeat constructor; now apply digit_ascii.
Qed.

Lemma match_format_strftime (d : Py.datetime) :
  valid_datetime d ->
  Py.match_format (text (Py.strftime d))
  = Some (text (Py.pad4 (Py.year d)), text (Py.pad2 (Py.month d)),
          text (Py.pad2 (Py.day d)), text (Py.pad2 (Py.hour d)),
          text (Py.pad2 (Py.minute d)), text (Py.pad2 (Py.second d)), []).
Proof.
  intros (Hy & Hmo & Hd & Hh & Hmi & Hs).
  pose proof (days_in_month_le (Py.year d) (Py.month d)) as Hdim.
  rewrite text_strftime. unfold Py.match_format.
  apply (group_ok _ _ (year_ok _ Hy)). rewrite lit_ok.
  apply (group_ok _ _ (month_ok _ Hmo)). rewrite lit_ok.
  assert (Hd31 : 1 <= Py.day d <= 31) by lia.
  apply (group_ok _ _ (day_ok _ Hd31)).
  pose proof (hour_ok _ Hh) as Hhour.
  destruct (two_digits (Py.hour d) ltac:(lia)) as (h1 & h2 & Eh & _ & _ & Hsp & _).
  assert (Eh' : text (Py.pad2 (Py.hour d)) = [Py.code h1; Py.code h2])
    by (unfold text; now rewrite Eh).
  rewrite Eh' in *. cbn [app]. rewrite (space_ok _ _ _ Hsp).
  change (Py.code h1 :: Py.code h2 :: Py.code ":" :: text (Py.pad2 (Py.minute d))
             ++ Py.code ":" :: text (Py.pad2 (Py.second d)) ++ [])%list
    with ([Py.code h1; Py.code h2] ++ Py.code ":" :: text (Py.pad2 (Py.minute d))
             ++ Py.code ":" :: text (Py.pad2 (Py.second d)) ++ [])%list.
  apply (group_ok _ _ Hhour). rewrite lit_ok.
  apply (group_ok _ _ (minute_ok _ Hmi)). rewrite lit_ok.
  apply (group_ok _ _ (second_ok _ Hs)). reflexivity.
Qed.

Lemma strptime_strftime (d : Py.datetime) :
  valid_datetime d ->
  Py.strptime (Py.strftime d)
  = Some (Py.mk_datetime (Py.year d) (Py.month d) (Py.day d)
                         (Py.hour d) (Py.minute d) (Py.second d) 0).
Proof.
  intros Hv. unfold Py.strptime.
  rewrite (decode_strftime d Hv), (match_format_strftime d Hv).
  destruct Hv as (Hy & Hmo & Hd & Hh & Hmi & Hs).
  pose proof (days_in_month_le (Py.year d) (Py.month d)) as Hdim.
  unfold text.
  destruct (four_digits _ Hy) as (a1 & a2 & a3 & a4 & -> & _ & _ & _ & _ & ->).
  destruct (two_digits (Py.month d) ltac:(lia)) as (? & ? & -> & _ & _ & _ & ->).
  destruct (two_digits (Py.day d) ltac:(lia)) as (? & ? & -> & _ & _ & _ & ->).
  destruct (two_digits (Py.hour d) ltac:(lia)) as (? & ? & -> & _ & _ & _ & ->).
  destruct (two_digits (Py.minute d) ltac:(lia)) as (? & ? & -> & _ & _ & _ & ->).
  destruct (two_digits (Py.second d) ltac:(lia)) as (? & ? & -> & _ & _ & _ & ->).
  assert (Hc : (1 <=? Py.year d) && (1 <=? Py.month d) && (Py.month d <=? 12)
               && (1 <=? Py.day d)
               && (Py.day d <=? Py.days_in_month (Py.year d) (Py.month d))
               && (Py.second d <=? 59) = true).
  { rewrite !andb_true_iff. repeat split; apply Z.leb_le; lia. }
  now rewrite Hc.
Qed.

(** X17: every timestamp the code writes parses back.  For a reading of
    the clock that is a real date and time with a year of four digits, the
    text [get_current_timestamp] produces is accepted by [strptime] with the
    format of the code, and the result is that reading with its
    microseconds dropped. *)
Theorem timestamp_round_trip (c : clock) :
  valid_datetime (now c) ->
  Py.strptime (get_current_timestamp c)
  = Some (Py.mk_datetime (Py.year (now c)) (Py.month (now c)) (Py.day (now c))
                         (Py.hour (now c)) (Py.minute (now c)) (Py.second (now c)) 0).
Proof. intros Hv. unfold get_current_timestamp. now apply strptime_strftime. Qed.

Lemma clock_at_valid (t h mi s : Z) :
  0 <= h <= 23 -> 0 <= mi <= 59 -> 0 <= s <= 59 -> valid_datetime (now (clock_at t h mi s)).
Proof.
  intros Hh Hmi Hs. unfold valid_datetime, clock_at. cbn. repeat split; try lia.
Qed.

Lemma timestamp_round_trip_witness :
  Py.strptime (get_current_timestamp (clock_at 43200 12 0 0))
  = Some (Py.mk_datetime 2024 1 1 12 0 0 0).
Proof.
  rewrite timestamp_round_trip; [reflexivity |].
  apply clock_at_valid; lia.
Defined.

(** X18: the duration of a session whose start was stamped by the code.
    When the event's start_time is the text [get_current_timestamp] wrote
    at a real reading [opened] of the clock, [close_session] never takes
    its fallback of 0: the stored duration_seconds is the number of whole
    seconds, truncated toward zero, from [opened] (its microseconds
    dropped) to the reading at the close. *)
Theorem close_session_duration_of_stamped_start
    (opened c : clock) (event_id : Z) (final_rx final_tx : option Z)
    (d : database) (e : event) :
  valid_datetime (now opened) ->
  select_event_by_id event_id d = Some e ->
  start_time e = get_current_timestamp opened ->
  exists e' : event,
    select_event_by_id event_id (close_session c event_id final_rx final_tx d) = Some e'
    /\ duration_seconds e'
       = Z.quot (Py.micros (now c) - (Py.micros (now opened) - Py.microsecond (now opened)))
                1000000.
Proof.
  intros Hv He Hstart.
  rewrite (close_session_row c event_id final_rx final_tx d e He).
  eexists. split; [reflexivity |]. cbn [duration_seconds].
  rewrite Hstart. unfold get_current_timestamp. rewrite (strptime_strftime _ Hv).
  unfold Py.int_total_seconds. f_equal. unfold Py.micros, Py.toordinal. cbn. lia.
Qed.

Lemma close_session_duration_of_stamped_start_witness :
  exists e' : event,
    select_event_by_id 1 (close_session (clock_at 43400 12 3 20) 1 None None
                            (db after_first_tick)) = Some e'
    /\ duration_seconds e' = 200.
Proof.
  destruct (close_session_duration_of_stamped_start (clock_at 43200 12 0 0)
              (clock_at 43400 12 3 20) 1 None None (db after_first_tick)
              (mk_event 1 1 "2024-01-01 12:00:00" None "2024-01-01 12:00:00" 0 0 None
                        (Some "198.51.100.7:51820") ONLINE 0))
    as (e' & Hsel & Hdur).
  - apply clock_at_valid; lia.
  - vm_compute. reflexivity.
  - vm_compute. reflexivity.
  - exists e'. split; [exact Hsel |]. rewrite Hdur. vm_compute. reflexivity.
Defined.

(* ===================================================================== *)
(** ** utils/helpers.py: the mail pattern *)
(* ===================================================================== *)

(** *** What the matcher accepts *)

(** The texts a pattern denotes. *)
Fixpoint lang (r : Py.re ascii) (s : list ascii) : Prop :=
  match r with
  | Py.Cls p => exists c, s = [c] /\ p c = true
  | Py.Cat r1 r2 => exists s1 s2, s = (s1 ++ s2)%list /\ lang r1 s1 /\ lang r2 s2
  | Py.Alt r1 r2 => lang r1 s \/ lang r2 s
  | Py.Star p => Forall (fun c => p c = true) s
  end.

Definition found {A : Type} (o : option A) : Prop := exists a, o = Some a.

Lemma found_none {A : Type} : ~ found (@None A).
Proof. intros [a H]. discriminate. Qed.

Lemma found_some {A : Type} (a : A) : found (Some a).
Proof. now exists a. Qed.

Lemma star_found {A : Type} (p : ascii -> bool) (s : list ascii)
    (k : list ascii -> option A) :
  found (Py.star p s k)
  <-> exists s1 s2, s = (s1 ++ s2)%list /\ Forall (fun c => p c = true) s1 /\ found (k s2).
Proof.
  induction s as [| c s IH]; simpl.
  - split.
    + intros H. exists [], []. now repeat split.
    + intros (s1 & s2 & E & _ & H). symmetry in E. apply app_eq_nil in E.
      destruct E as [_ ->]. exact H.
  - destruct (p c) eqn:Hp.
    + destruct (Py.star p s k) as [a |] eqn:Hs.
      * split; [intros _ | intros _; apply found_some].
        destruct (proj1 IH (found_some a)) as (s1 & s2 & -> & Hall & Hk).
        exists (c :: s1), s2. repeat split; [now constructor | exact Hk].
      * split.
        -- intros H. exists [], (c :: s). now repeat split.
        -- intros (s1 & s2 & E & Hall & Hk). destruct s1 as [| c1 s1].
           ++ simpl in E. now subst s2.
           ++ simpl in E. inversion E; subst. inversion Hall; subst.
              exfalso. apply (@found_none A). apply IH. now exists s1, s2.
    + split.
      * intros H. exists [], (c :: s). now repeat split.
      * intros (s1 & s2 & E & Hall & Hk). destruct s1 as [| c1 s1].
        -- simpl in E. now subst s2.
        -- simpl in E. inversion E; subst. inversion Hall; subst. congruence.
Qed.

Lemma m_found {A : Type} (r : Py.re ascii) :
  forall (s : list ascii) (k : list ascii -> option A),
    found (Py.m r s k)
    <-> exists s1 s2, s = (s1 ++ s2)%list /\ lang r s1 /\ found (k s2).
Proof.
  induction r as [p | r1 IH1 r2 IH2 | r1 IH1 r2 IH2 | p]; intros s k; simpl.
  - destruct s as [| c s].
    + split; [intros H; now apply found_none in H |].
      intros (s1 & s2 & E & (c & -> & _) & _). discriminate.
    + destruct (p c) eqn:Hp.
      * split.
        -- intros H. exists [c], s. repeat split; [now exists c | exact H].
        -- intros (s1 & s2 & E & (c' & -> & _) & H). simpl in E. now inversion E.
      * split; [intros H; now apply found_none in H |].
        intros (s1 & s2 & E & (c' & -> & Hc) & _). simpl in E. inversion E. congruence.
  - rewrite IH1. split.
    + intros (s1 & s2 & -> & L1 & H). apply IH2 in H.
      destruct H as (s3 & s4 & -> & L2 & H).
      exists (s1 ++ s3)%list, s4. rewrite app_assoc. repeat split; [| exact H].
      now exists s1, s3.
    + intros (s' & s4 & -> & (s1 & s3 & -> & L1 & L2) & H).
      exists s1, (s3 ++ s4)%list. rewrite app_assoc. repeat split; [exact L1 |].
      apply IH2. now exists s3, s4.
  - destruct (Py.m r1 s k) as [a |] eqn:H1.
    + split; [intros _ | intros _; apply found_some].
      destruct (proj1 (IH1 s k)) as (s1 & s2 & E & L & H); [rewrite H1; apply found_some |].
      exists s1, s2. repeat split; [exact E | now left | exact H].
    + rewrite IH2. split.
      * intros (s1 & s2 & E & L & H). exists s1, s2. repeat split; [exact E | now right | exact H].
      * intros (s1 & s2 & E & [L | L] & H).
        -- exfalso. apply (@found_none A). rewrite <- H1. apply IH1. now exists s1, s2.
        -- now exists s1, s2.
  - apply star_found.
Qed.

Definition line_feed : ascii := "010"%char.

Lemma at_dollar_spec (rest : list ascii) :
  Py.at_dollar rest = true <-> rest = [] \/ rest = [line_feed].
Proof.
  unfold Py.at_dollar. destruct rest as [| c [| c' rest]].
  - split; [now left | reflexivity].
  - split.
    + intros H. right. f_equal. apply Z.eqb_eq in H. unfold Py.code in H.
      rewrite <- (ascii_N_embedding c). change line_feed with (ascii_of_N 10).
      f_equal. lia.
    + intros [H | H]; [discriminate | inversion H; reflexivity].
  - split; [discriminate | intros [H | H]; discriminate].
Qed.

Definition all_in (p : ascii -> bool) (l : list ascii) : Prop :=
  Forall (fun ch => p ch = true) l.

Lemma lang_plus (p : ascii -> bool) (s : list ascii) :
  lang (Py.Plus p) s <-> s <> [] /\ all_in p s.
Proof.
  unfold Py.Plus. simpl. split.
  - intros (s1 & s2 & -> & (c & -> & Hc) & Hall). split; [discriminate |].
    now constructor.
  - intros [Hne Hall]. destruct s as [| c s]; [contradiction |].
    inversion Hall; subst. exists [c], s. repeat split; [now exists c | assumption].
Qed.

Lemma lang_lit (a : ascii) (s : list ascii) : lang (Py.Lit a) s <-> s = [a].
Proof.
  unfold Py.Lit, Py.is_char. simpl. split.
  - intros (c & -> & Hc). apply Ascii.eqb_eq in Hc. now subst.
  - intros ->. exists a. split; [reflexivity | apply Ascii.eqb_refl].
Qed.

Lemma lang_two_or_more (p : ascii -> bool) (s : list ascii) :
  lang (Py.Cat (Py.Cls p) (Py.Cat (Py.Cls p) (Py.Star p))) s
  <-> (2 <= List.length s)%nat /\ all_in p s.
Proof.
  simpl. split.
  - intros (s1 & s2 & -> & (c & -> & Hc) & (s3 & s4 & -> & (c' & -> & Hc') & Hall)).
    split; [simpl; lia |]. now repeat constructor.
  - intros [Hlen Hall]. destruct s as [| c [| c' s]]; simpl in Hlen; try lia.
    inversion Hall as [| ? ? Hc Hall']; subst. inversion Hall' as [| ? ? Hc' Hall'']; subst.
    exists [c], (c' :: s). repeat split; [now exists c |].
    exists [c'], s. repeat split; [now exists c' | assumption].
Qed.

Lemma lang_email (s : list ascii) :
  lang email_pattern s
  <-> exists local domain tld : list ascii,
        s = (local ++ "@"%char :: domain ++ "."%char :: tld)%list
        /\ local <> [] /\ all_in email_local local
        /\ domain <> [] /\ all_in email_domain domain
        /\ (2 <= List.length tld)%nat /\ all_in Py.is_alpha tld.
Proof.
  unfold email_pattern. cbn [lang]. split.
  - intros (l & s1 & -> & Hl & a & s2 & -> & Ha & dm & s3 & -> & Hd & dot & t & -> & Hdot & Ht).
    change (exists c, a = [c] /\ Py.is_char "@" c = true) with (lang (Py.Lit "@") a) in Ha.
    change (exists c, dot = [c] /\ Py.is_char "." c = true) with (lang (Py.Lit ".") dot) in Hdot.
    apply lang_lit in Ha, Hdot. subst a dot.
    apply lang_plus in Hl, Hd. apply (lang_two_or_more Py.is_alpha) in Ht.
    exists l, dm, t. simpl. repeat split; tauto.
  - intros (l & dm & t & -> & L1 & L2 & D1 & D2 & T1 & T2).
    exists l, ("@"%char :: dm ++ "."%char :: t)%list. split; [reflexivity |].
    split; [now apply lang_plus |].
    exists ["@"%char], (dm ++ "."%char :: t)%list. split; [reflexivity |].
    split; [now apply (lang_lit "@") |].
    exists dm, ("."%char :: t)%list. split; [reflexivity |].
    split; [now apply lang_plus |].
    exists ["."%char], t. split; [reflexivity |].
    split; [now apply (lang_lit ".") |].
    now apply (lang_two_or_more Py.is_alpha).
Qed.

(** X19: the addresses [validate_email] accepts.  A text passes exactly
    when it is empty, or is a non-empty run of letters, digits and
    [._%+-], then one "@", then a non-empty run of letters, digits, dots
    and hyphens, then a dot and at least two letters, optionally followed
    by one line feed (the [$] of the pattern also matches before a final
    newline). *)
Theorem validate_email_accepts (email : string) :
  validate_email email = true
  <-> email = ""
      \/ exists local domain tld ending : list ascii,
           Py.chars email = (local ++ "@"%char :: domain ++ "."%char :: tld ++ ending)%list
           /\ local <> [] /\ all_in email_local local
           /\ domain <> [] /\ all_in email_domain domain
           /\ (2 <= List.length tld)%nat /\ all_in Py.is_alpha tld
           /\ (ending = [] \/ ending = [line_feed]).
Proof.
  unfold validate_email. destruct (String.eqb_spec email "") as [-> | Hne].
  - split; [now left | reflexivity].
  - set (k := fun rest : list ascii => if Py.at_dollar rest then Some tt else None).
    assert (Hk : forall rest, found (k rest) <-> rest = [] \/ rest = [line_feed]).
    { intros rest. rewrite <- at_dollar_spec. unfold k.
      destruct (Py.at_dollar rest); split; intros H;
        [reflexivity | apply found_some | now apply found_none in H | discriminate]. }
    transitivity (found (Py.m email_pattern (Py.chars email) k)).
    { destruct (Py.m _ _ k) as [a |]; split; intros H;
        [apply found_some | reflexivity | discriminate | now apply found_none in H]. }
    rewrite m_found. split.
    + intros (s1 & s2 & E & L & H). right. apply lang_email in L.
      destruct L as (l & dm & t & -> & L). apply Hk in H.
      exists l, dm, t, s2. split; [| tauto].
      rewrite E, <- app_assoc. simpl. now rewrite <- app_assoc.
    + intros [E | (l & dm & t & nl & E & L)]; [contradiction |].
      exists (l ++ "@"%char :: dm ++ "."%char :: t)%list, nl. split; [| split].
      * rewrite E, <- app_assoc. simpl. now rewrite <- app_assoc.
      * apply lang_email. exists l, dm, t. tauto.
      * apply Hk. tauto.
Qed.

(* ===================================================================== *)
(** ** wireguard_interface/wg_commands.py: reading the dump *)
(* ===================================================================== *)

(** [str.strip()] and [str.splitlines()], on ASCII text. *)
Module Text.

Fixpoint drop_while (p : ascii -> bool) (l : list ascii) : list ascii :=
  match l with
  | c :: l' => if p c then drop_while p l' else l
  | [] => []
  end.

(** [s.strip()]: the characters of [str.isspace] go, at both ends. *)
Definition strip (s : string) : string :=
  Py.str (rev (drop_while Py.is_space (rev (drop_while Py.is_space (Py.chars s))))).

(** The line boundaries of [splitlines]: LF VT FF CR FS GS RS. *)
Definition is_linebreak (c : ascii) : bool :=
  ((10 <=? Py.code c) && (Py.code c <=? 13)) || ((28 <=? Py.code c) && (Py.code c <=? 30)).

(** CR LF is one boundary; a boundary at the very end starts no line. *)
Fixpoint splitlines_chars (cur : list ascii) (l : list ascii) {struct l} : list string :=
  match l with
  | [] => match cur with
          | [] => []
          | _ :: _ => [Py.str (rev cur)]
          end
  | c :: l' =>
      if is_linebreak c then
        Py.str (rev cur)
        :: match l' with
           | c' :: l'' =>
               if (Py.code c =? 13) && (Py.code c' =? 10) then splitlines_chars [] l''
               else splitlines_chars [] l'
           | [] => []
           end
      else splitlines_chars (c :: cur) l'
  end.

Definition splitlines (s : string) : list string := splitlines_chars [] (Py.chars s).

End Text.

(** What [subprocess.check_output(["wg", "show", interface, "dump"])] did:
    it returned the text of the dump, or raised one of the three exceptions
    the code catches. *)
Inductive wg_show : Type :=
| Output (output : string)
| TimeoutExpired
| CalledProcessError
| FileNotFoundError.

Definition tab : ascii := "009"%char.

(** The [ValueError] of [int()]; the message quotes the text. *)
Definition int_error (s : string) : exn :=
  ValueError ("invalid literal for int() with base 10: '" ++ s ++ "'").

(** One turn of the loop over the lines of the dump.  (Since Python 3.11
    [int] also refuses numerals of more than 4300 digits; that limit is not
    modelled, and no statement below depends on such a numeral.) *)
Definition peer_of_line (line : string) (peers : list (string * peer_info))
  : result (list (string * peer_info)) :=
  let parts := Py.split tab line in
  if (List.length parts <? 7)%nat then Ok peers
  else
    let pubkey := nth 0 parts "" in
    let endpoint :=
      if String.eqb (nth 2 parts "") "(none)" then None else Some (nth 2 parts "") in
    match (if String.eqb (nth 4 parts "") "0" then Some 0 else Py.int (nth 4 parts "")) with
    | None => Raise (int_error (nth 4 parts ""))
    | Some latest_handshake =>
        match Py.int (nth 5 parts "") with
        | None => Raise (int_error (nth 5 parts ""))
        | Some rx_bytes =>
            match Py.int (nth 6 parts "") with
            | None => Raise (int_error (nth 6 parts ""))
            | Some tx_bytes =>
                Ok (dict_set pubkey
                      (mk_peer_info rx_bytes tx_bytes latest_handshake endpoint) peers)
            end
        end
    end.

Fixpoint peers_of_lines (lines : list string) (peers : list (string * peer_info))
  : result (list (string * peer_info)) :=
  match lines with
  | [] => Ok peers
  | line :: rest =>
      match peer_of_line line peers with
      | Ok peers' => peers_of_lines rest peers'
      | Raise e => Raise e
      end
  end.

(** [get_wg_peers]: [{}] when the command failed, else the peers of the
    lines after the first. *)
Definition get_wg_peers (cmd : wg_show) : result (list (string * peer_info)) :=
  match cmd with
  | Output output => peers_of_lines (tl (Text.splitlines (Text.strip output))) []
  | TimeoutExpired | CalledProcessError | FileNotFoundError => Ok []
  end.

(** A tick from the reading of the dump on: [monitor_wireguard] starts by
    calling [get_wg_peers], and an exception of that call leaves the tick
    before anything is written. *)
Definition monitor_wireguard_on (c : clock) (max_handshake_age : option Z) (cmd : wg_show)
    (offline_iter : list string) (st : state) : result unit * state :=
  match get_wg_peers cmd with
  | Ok current_peers =>
      (Ok tt, monitor_wireguard c max_handshake_age current_peers offline_iter st)
  | Raise e => (Raise e, st)
  end.

(** *** The text [wg show <interface> dump] prints

    One line for the interface, then one line per peer: public key,
    preshared key, endpoint, allowed ips, latest handshake, received bytes,
    sent bytes and keepalive, separated by tabs, the numbers in decimal. *)

Record dump_row : Type := mk_dump_row {
  d_key : string;
  d_psk : string;
  d_endpoint : option string;
  d_allowed : string;
  d_handshake : Z;
  d_rx : Z;
  d_tx : Z;
  d_keepalive : string
}.

Definition dump_fields (r : dump_row) : list string :=
  [d_key r; d_psk r;
   match d_endpoint r with Some e => e | None => "(none)" end;
   d_allowed r;
   Py.str_of_int (d_handshake r); Py.str_of_int (d_rx r); Py.str_of_int (d_tx r);
   d_keepalive r].

Definition dump_line (r : dump_row) : string := String.concat (String tab "") (dump_fields r).

Fixpoint unlines (lines : list string) : string :=
  match lines with
  | [] => ""
  | l :: ls => l ++ String "010" (unlines ls)
  end.

Definition dump_text (header : string) (rows : list dump_row) : string :=
  unlines (header :: map dump_line rows).

(** A field of the dump: not empty, no whitespace in it. *)
Definition clean (s : string) : bool :=
  negb (String.eqb s "") && forallb (fun ch => negb (Py.is_space ch)) (Py.chars s).

(** A line: not empty, no whitespace at its ends, no line boundary in it. *)
Definition tidy (s : string) : bool :=
  match Py.chars s with
  | [] => false
  | c :: l =>
      negb (Py.is_space c) && negb (Py.is_space (last l c))
      && forallb (fun ch => negb (Text.is_linebreak ch)) (c :: l)
  end.

Definition counter_ok (n : Z) : bool := (0 <=? n) && (n <? 2 ^ 64).

Definition dump_row_ok (r : dump_row) : bool :=
  clean (d_key r) && clean (d_psk r) && clean (d_allowed r) && clean (d_keepalive r)
  && match d_endpoint r with
     | Some e => clean e && negb (String.eqb e "(none)")
     | None => true
     end
  && counter_ok (d_handshake r) && counter_ok (d_rx r) && counter_ok (d_tx r).

Definition peer_of_row (r : dump_row) : string * peer_info :=
  (d_key r, mk_peer_info (d_rx r) (d_tx r) (d_handshake r) (d_endpoint r)).

(** *** Decimal numerals *)

Fixpoint uint_val (acc : Z) (u : Decimal.uint) : Z :=
  match u with
  | Decimal.Nil => acc
  | Decimal.D0 u' => uint_val (10 * acc) u'
  | Decimal.D1 u' => uint_val (10 * acc + 1) u'
  | Decimal.D2 u' => uint_val (10 * acc + 2) u'
  | Decimal.D3 u' => uint_val (10 * acc + 3) u'
  | Decimal.D4 u' => uint_val (10 * acc + 4) u'
  | Decimal.D5 u' => uint_val (10 * acc + 5) u'
  | Decimal.D6 u' => uint_val (10 * acc + 6) u'
  | Decimal.D7 u' => uint_val (10 * acc + 7) u'
  | Decimal.D8 u' => uint_val (10 * acc + 8) u'
  | Decimal.D9 u' => uint_val (10 * acc + 9) u'
  end.

Lemma of_uint_acc_val (u : Decimal.uint) :
  forall acc : positive, Z.pos (Pos.of_uint_acc u acc) = uint_val (Z.pos acc) u.
Proof.
  induction u as [| u IH | u IH | u IH | u IH | u IH | u IH | u IH | u IH | u IH | u IH];
    intros acc; cbn [Pos.of_uint_acc uint_val]; [reflexivity | rewrite IH; f_equal; lia ..].
Qed.

Lemma of_uint_val (u : Decimal.uint) : Z.of_N (Pos.of_uint u) = uint_val 0 u.
Proof.
  induction u as [| u IH | u IH | u IH | u IH | u IH | u IH | u IH | u IH | u IH | u IH];
    cbn [Pos.of_uint uint_val];
    [reflexivity | exact IH | cbn [Z.of_N]; rewrite of_uint_acc_val; reflexivity ..].
Qed.

Lemma digits_uint (u : Decimal.uint) :
  forall acc : Z,
    Py.digits acc true (Py.chars (NilEmpty.string_of_uint u)) = Some (uint_val acc u).
Proof.
  induction u as [| u IH | u IH | u IH | u IH | u IH | u IH | u IH | u IH | u IH | u IH];
    intros acc; [reflexivity | ..];
    cbn [NilEmpty.string_of_uint Py.chars list_ascii_of_string Py.digits];
    match goal with
    | |- context [Py.is_digit ?c] => change (Py.is_digit c) with true
    end; cbv iota;
    match goal with
    | |- context [Py.digit_val ?c] =>
        let v := eval vm_compute in (Py.digit_val c) in change (Py.digit_val c) with v
    end;
    cbn [uint_val]; rewrite IH; apply f_equal;
    apply (f_equal (fun a => uint_val a u)); lia.
Qed.

Lemma digits_start (u : Decimal.uint) :
  u <> Decimal.Nil ->
  Py.digits 0 false (Py.chars (NilEmpty.string_of_uint u)) = Some (uint_val 0 u).
Proof.
  intros Hne. rewrite <- digits_uint.
  destruct u; [contradiction | reflexivity ..].
Qed.

Lemma all_digits_uint (u : Decimal.uint) :
  forallb Py.is_digit (Py.chars (NilEmpty.string_of_uint u)) = true.
Proof.
  induction u as [| u IH | u IH | u IH | u IH | u IH | u IH | u IH | u IH | u IH | u IH];
    [reflexivity | ..];
    cbn [NilEmpty.string_of_uint Py.chars list_ascii_of_string forallb];
    match goal with
    | |- context [Py.is_digit ?c] => change (Py.is_digit c) with true
    end; exact IH.
Qed.

Lemma digit_plain (c : ascii) :
  Py.is_digit c = true ->
  Py.is_space c = false /\ Py.is_c_space c = false
  /\ Py.is_char "-" c = false /\ Py.is_char "+" c = false.
Proof.
  destruct c as [[] [] [] [] [] [] [] []]; vm_compute; intros H;
    try discriminate H; repeat split.
Qed.

Lemma space_kinds (c : ascii) :
  Py.is_space c = false ->
  Text.is_linebreak c = false /\ Ascii.eqb c tab = false /\ Py.is_c_space c = false.
Proof.
  destruct c as [[] [] [] [] [] [] [] []]; vm_compute; intros H;
    try discriminate H; repeat split.
Qed.

(** *** Stripping and splitting text *)

Lemma lstrip_drop_while (l : list ascii) : Py.lstrip l = Text.drop_while Py.is_c_space l.
Proof. induction l as [| c l IH]; simpl; [reflexivity |]. now rewrite IH. Qed.

Definition strip_by (p : ascii -> bool) (l : list ascii) : list ascii :=
  rev (Text.drop_while p (rev (Text.drop_while p l))).

Definition ends_kept (p : ascii -> bool) (l : list ascii) : Prop :=
  (forall c m, l = c :: m -> p c = false) /\ (forall m z, l = (m ++ [z])%list -> p z = false).

Lemma drop_while_kept (p : ascii -> bool) (l : list ascii) :
  (forall c m, l = c :: m -> p c = false) -> Text.drop_while p l = l.
Proof.
  destruct l as [| c m]; [reflexivity |]. intros H. simpl.
  now rewrite (H c m eq_refl).
Qed.

Lemma strip_by_kept (p : ascii -> bool) (l : list ascii) :
  ends_kept p l -> strip_by p l = l.
Proof.
  intros [Hhd Hlast]. unfold strip_by. rewrite (drop_while_kept p l Hhd).
  rewrite drop_while_kept; [apply rev_involutive |].
  intros c m E. apply (Hlast (rev m) c).
  rewrite <- (rev_involutive l), E. reflexivity.
Qed.

Lemma strip_by_trailing (p : ascii -> bool) (l : list ascii) (c : ascii) :
  l <> [] -> ends_kept p l -> p c = true -> strip_by p (l ++ [c]) = l.
Proof.
  intros Hne [Hhd Hlast] Hc. unfold strip_by.
  rewrite (drop_while_kept p (l ++ [c])).
  - rewrite rev_app_distr. simpl. rewrite Hc.
    rewrite drop_while_kept; [apply rev_involutive |].
    intros z m E. apply (Hlast (rev m) z).
    rewrite <- (rev_involutive l), E. reflexivity.
  - intros z m E. destruct l as [| a l']; [contradiction |].
    simpl in E. inversion E; subst. now apply (Hhd z l').
Qed.

Lemma py_strip_digits (l : list ascii) :
  forallb Py.is_digit l = true -> Py.strip l = l.
Proof.
  intros Hall. unfold Py.strip. rewrite !lstrip_drop_while.
  apply (strip_by_kept Py.is_c_space). rewrite forallb_forall in Hall. split.
  - intros c m E. apply digit_plain, Hall. rewrite E. now left.
  - intros m z E. apply digit_plain, Hall. rewrite E. apply in_or_app. right. now left.
Qed.

Lemma to_uint_not_nil (p : positive) : Pos.to_uint p <> Decimal.Nil.
Proof.
  intros E. pose proof (DecimalPos.Unsigned.of_to p) as H. rewrite E in H. discriminate.
Qed.

Lemma str_of_int_pos (p : positive) :
  Py.str_of_int (Z.pos p) = NilEmpty.string_of_uint (Pos.to_uint p).
Proof.
  unfold Py.str_of_int. cbn [Z.to_int NilZero.string_of_int NilZero.string_of_uint].
  pose proof (to_uint_not_nil p) as Hne. now destruct (Pos.to_uint p).
Qed.

Lemma str_of_int_digits (n : Z) :
  0 <= n ->
  Py.chars (Py.str_of_int n) <> [] /\ forallb Py.is_digit (Py.chars (Py.str_of_int n)) = true.
Proof.
  intros Hn. destruct n as [| p | p]; [split; [discriminate | reflexivity] | | lia].
  rewrite str_of_int_pos. split; [| apply all_digits_uint].
  pose proof (to_uint_not_nil p) as Hne. destruct (Pos.to_uint p); [contradiction | discriminate ..].
Qed.

(** [int(str(n)) == n] *)
Lemma int_str_of_int (n : Z) : 0 <= n -> Py.int (Py.str_of_int n) = Some n.
Proof.
  intros Hn. destruct n as [| p | p]; [reflexivity | | lia].
  rewrite int_ascii.
  2:{ apply Forall_forall. intros b Hb. apply digit_ascii.
      destruct (str_of_int_digits (Z.pos p) Hn) as [_ Hall].
      rewrite forallb_forall in Hall. now apply Hall. }
  unfold Py.int_chars. rewrite str_of_int_pos.
  rewrite (py_strip_digits _ (all_digits_uint (Pos.to_uint p))).
  pose proof (to_uint_not_nil p) as Hne.
  pose proof (digits_start (Pos.to_uint p) Hne) as Hd.
  pose proof (all_digits_uint (Pos.to_uint p)) as Hall.
  destruct (Py.chars (NilEmpty.string_of_uint (Pos.to_uint p))) as [| c l] eqn:E.
  - discriminate Hd.
  - simpl in Hall. apply andb_true_iff in Hall. destruct Hall as [Hc _].
    destruct (digit_plain c Hc) as (_ & _ & -> & ->).
    rewrite Hd, <- of_uint_val, DecimalPos.Unsigned.of_to. reflexivity.
Qed.

Lemma chars_nil (s : string) : Py.chars s = [] -> s = "".
Proof. destruct s; [reflexivity | discriminate]. Qed.

Lemma split_chars_skip (sep : ascii) (l : list ascii) :
  forall cur rest : list ascii,
    forallb (fun ch => negb (Ascii.eqb ch sep)) l = true ->
    Py.split_chars sep cur (l ++ rest) = Py.split_chars sep (rev l ++ cur) rest.
Proof.
  induction l as [| c l IH]; intros cur rest H; [reflexivity |].
  simpl in H. apply andb_true_iff in H. destruct H as [Hc H].
  simpl. destruct (Ascii.eqb c sep); [discriminate |].
  rewrite IH by assumption. now rewrite <- app_assoc.
Qed.

Lemma chars_concat (sep : ascii) (f : string) (fs : list string) :
  Py.chars (String.concat (String sep "") (f :: fs))
  = (Py.chars f ++ flat_map (fun g => sep :: Py.chars g) fs)%list.
Proof.
  revert f. induction fs as [| g fs IH]; intros f.
  - simpl. now rewrite app_nil_r.
  - change (String.concat (String sep "") (f :: g :: fs))
      with (f ++ String sep "" ++ String.concat (String sep "") (g :: fs)).
    rewrite !chars_app, IH. reflexivity.
Qed.

Lemma split_concat (sep : ascii) (fs : list string) :
  fs <> [] ->
  Forall (fun f => forallb (fun ch => negb (Ascii.eqb ch sep)) (Py.chars f) = true) fs ->
  Py.split sep (String.concat (String sep "") fs) = fs.
Proof.
  intros Hne Hall. destruct fs as [| f fs]; [contradiction |]. clear Hne.
  unfold Py.split. rewrite chars_concat.
  revert f Hall. induction fs as [| g fs IH]; intros f Hall.
  - inversion Hall; subst. simpl flat_map.
    rewrite split_chars_skip by assumption. simpl.
    now rewrite app_nil_r, rev_involutive, str_chars.
  - inversion Hall as [| ? ? Hf Hrest]; subst. simpl flat_map.
    rewrite split_chars_skip by assumption. simpl.
    rewrite Ascii.eqb_refl, app_nil_r, rev_involutive, str_chars. f_equal.
    now apply IH.
Qed.

Lemma splitlines_skip (l : list ascii) :
  forall cur rest : list ascii,
    forallb (fun ch => negb (Text.is_linebreak ch)) l = true ->
    Text.splitlines_chars cur (l ++ rest) = Text.splitlines_chars (rev l ++ cur) rest.
Proof.
  induction l as [| c l IH]; intros cur rest H; [reflexivity |].
  simpl in H. apply andb_true_iff in H. destruct H as [Hc H].
  simpl. destruct (Text.is_linebreak c); [discriminate |].
  rewrite IH by assumption. now rewrite <- app_assoc.
Qed.

(** The lines joined by LF, without the LF at the end. *)
Fixpoint joined (lines : list string) : list ascii :=
  match lines with
  | [] => []
  | l :: ls => match ls with
               | [] => Py.chars l
               | _ :: _ => (Py.chars l ++ "010"%char :: joined ls)%list
               end
  end.

Lemma chars_unlines (lines : list string) :
  lines <> [] -> Py.chars (unlines lines) = (joined lines ++ ["010"%char])%list.
Proof.
  induction lines as [| l ls IH]; [contradiction |]. intros _.
  cbn [unlines]. rewrite chars_app. destruct ls as [| l2 ls].
  - reflexivity.
  - cbn [joined]. change (Py.chars (String "010" (unlines (l2 :: ls))))
      with ("010"%char :: Py.chars (unlines (l2 :: ls))).
    rewrite IH by discriminate. now rewrite <- app_assoc.
Qed.

Lemma tidy_parts (s : string) :
  tidy s = true ->
  Py.chars s <> [] /\ ends_kept Py.is_space (Py.chars s)
  /\ forallb (fun ch => negb (Text.is_linebreak ch)) (Py.chars s) = true.
Proof.
  unfold tidy. destruct (Py.chars s) as [| c l]; [discriminate |].
  intros H. apply andb_true_iff in H. destruct H as [H H3].
  apply andb_true_iff in H. destruct H as [H1 H2].
  apply negb_true_iff in H1, H2. split; [discriminate |]. split; [| exact H3]. split.
  - intros c' m E. now inversion E; subst.
  - intros m z E. destruct m as [| a m]; simpl in E; inversion E; subst.
    + exact H2.
    + now rewrite last_last in H2.
Qed.

Lemma body_first (l : string) (ls : list string) :
  exists rest, joined (l :: ls) = (Py.chars l ++ rest)%list.
Proof.
  destruct ls as [| l2 ls]; cbn [joined]; [exists []; now rewrite app_nil_r | eauto].
Qed.

Lemma body_last (lines : list string) (l : string) :
  exists front, joined (lines ++ [l]) = (front ++ Py.chars l)%list.
Proof.
  induction lines as [| a lines IH]; [now exists [] |].
  destruct IH as [front IH]. simpl app. cbn [joined].
  destruct (lines ++ [l])%list as [| b t] eqn:E; [now destruct lines |].
  exists (Py.chars a ++ "010"%char :: front)%list. rewrite IH, <- app_assoc. reflexivity.
Qed.

Lemma body_ends (lines : list string) :
  lines <> [] -> Forall (fun l => tidy l = true) lines ->
  joined lines <> [] /\ ends_kept Py.is_space (joined lines).
Proof.
  intros Hne Hall. split; [| split].
  - destruct lines as [| l ls]; [contradiction |]. inversion Hall; subst.
    destruct (body_first l ls) as [rest E]. rewrite E.
    destruct (tidy_parts l) as (H & _); [assumption |].
    destruct (Py.chars l); [contradiction | discriminate].
  - destruct lines as [| l ls]; [contradiction |]. inversion Hall; subst.
    destruct (body_first l ls) as [rest E]. rewrite E.
    destruct (tidy_parts l) as (H & [Hhd _] & _); [assumption |].
    intros c m E'. destruct (Py.chars l) as [| a t]; [contradiction |].
    simpl in E'. inversion E'; subst. now apply (Hhd c t).
  - destruct (exists_last Hne) as (front & l & ->).
    apply Forall_app in Hall. destruct Hall as [_ Hl]. inversion Hl; subst.
    destruct (body_last front l) as [pre E]. rewrite E.
    destruct (tidy_parts l) as (H & [_ Hlast] & _); [assumption |].
    intros m z E'. destruct (exists_last H) as (t & a & Et). rewrite Et in E'.
    rewrite app_assoc in E'. apply app_inj_tail in E'. destruct E' as [_ <-].
    now apply (Hlast t a).
Qed.

Lemma splitlines_at_lf (cur : list ascii) (c : ascii) (t : list ascii) :
  Text.splitlines_chars cur ("010"%char :: c :: t)
  = Py.str (rev cur) :: Text.splitlines_chars [] (c :: t).
Proof. reflexivity. Qed.

Lemma splitlines_body (lines : list string) :
  Forall (fun l => tidy l = true) lines ->
  Text.splitlines_chars [] (joined lines) = lines.
Proof.
  induction lines as [| l ls IH]; [reflexivity |]. intros Hall.
  inversion Hall as [| ? ? Hl Hrest]; subst.
  destruct (tidy_parts l Hl) as (Hne & _ & Hlb).
  destruct ls as [| l2 ls].
  - cbn [joined]. rewrite <- (app_nil_r (Py.chars l)), splitlines_skip by assumption.
    rewrite app_nil_r. cbn [Text.splitlines_chars].
    destruct (rev (Py.chars l)) as [| a t] eqn:E.
    + apply (f_equal (@rev ascii)) in E. rewrite rev_involutive in E. contradiction.
    + rewrite <- E, rev_involutive, str_chars. reflexivity.
  - change (joined (l :: l2 :: ls))
      with (Py.chars l ++ "010"%char :: joined (l2 :: ls))%list.
    rewrite splitlines_skip by assumption. rewrite app_nil_r.
    destruct (body_ends (l2 :: ls)) as [Hb _]; [discriminate | assumption |].
    specialize (IH Hrest).
    destruct (joined (l2 :: ls)) as [| c' t] eqn:E; [contradiction |].
    rewrite splitlines_at_lf, rev_involutive, str_chars. now rewrite IH.
Qed.

Lemma lines_of_unlines (lines : list string) :
  lines <> [] -> Forall (fun l => tidy l = true) lines ->
  Text.splitlines (Text.strip (unlines lines)) = lines.
Proof.
  intros Hne Hall. unfold Text.splitlines, Text.strip.
  rewrite chars_unlines by assumption.
  destruct (body_ends lines Hne Hall) as [Hb He].
  fold (strip_by Py.is_space (joined lines ++ ["010"%char])).
  rewrite strip_by_trailing; [| assumption | assumption | reflexivity].
  rewrite chars_str. now apply splitlines_body.
Qed.

(** *** The rows of the dump *)

Lemma clean_parts (s : string) :
  clean s = true ->
  Py.chars s <> [] /\ forall ch, In ch (Py.chars s) -> Py.is_space ch = false.
Proof.
  unfold clean. intros H. apply andb_true_iff in H. destruct H as [Hne Hall]. split.
  - intros E. apply chars_nil in E. subst s. discriminate.
  - intros ch Hin. rewrite forallb_forall in Hall. apply negb_true_iff. now apply Hall.
Qed.

Lemma clean_str_of_int (n : Z) : 0 <= n -> clean (Py.str_of_int n) = true.
Proof.
  intros Hn. destruct (str_of_int_digits n Hn) as [Hne Hall]. unfold clean.
  apply andb_true_iff. split.
  - apply negb_true_iff. destruct (String.eqb_spec (Py.str_of_int n) ""); [| reflexivity].
    exfalso. apply Hne. now rewrite e.
  - apply forallb_forall. intros ch Hin. rewrite forallb_forall in Hall.
    apply negb_true_iff. now apply digit_plain, Hall.
Qed.

Lemma exists_last_or_nil {X : Type} (l : list X) :
  l = [] \/ exists (front : list X) (z : X), l = (front ++ [z])%list.
Proof.
  destruct l as [| a l]; [now left | right].
  destruct (@exists_last X (a :: l)) as (front & z & E); [discriminate |].
  now exists front, z.
Qed.

Lemma last_in_tail (A B m : list ascii) (z : ascii) :
  B <> [] -> (A ++ B)%list = (m ++ [z])%list -> In z B.
Proof.
  intros Hne E. destruct (exists_last Hne) as (t & a & ->).
  rewrite app_assoc in E. apply app_inj_tail in E. destruct E as [_ <-].
  apply in_or_app. right. now left.
Qed.

Lemma tidy_concat (fs : list string) :
  fs <> [] -> Forall (fun f => clean f = true) fs ->
  tidy (String.concat (String tab "") fs) = true.
Proof.
  intros Hne Hall. destruct fs as [| f fs]; [contradiction |]. clear Hne.
  inversion Hall as [| ? ? Hf Hfs]; subst.
  destruct (clean_parts f Hf) as [Hfne Hfsp].
  assert (Hin : forall ch, In ch (Py.chars (String.concat (String tab "") (f :: fs))) ->
                           Text.is_linebreak ch = false).
  { intros ch. rewrite chars_concat. intros H. apply in_app_or in H. destruct H as [H | H].
    - now apply space_kinds, Hfsp.
    - apply in_flat_map in H. destruct H as (g & Hg & [<- | H]); [reflexivity |].
      rewrite Forall_forall in Hfs. apply space_kinds.
      now apply (proj2 (clean_parts g (Hfs g Hg))). }
  assert (Hlast : forall m z,
             Py.chars (String.concat (String tab "") (f :: fs)) = (m ++ [z])%list ->
             Py.is_space z = false).
  { intros m z. rewrite chars_concat. destruct (exists_last_or_nil fs) as [-> | (fs' & g & ->)].
    - simpl. rewrite app_nil_r. intros E. apply Hfsp.
      apply (last_in_tail [] (Py.chars f) m z); assumption.
    - rewrite flat_map_app. simpl flat_map. rewrite app_nil_r.
      apply Forall_app in Hfs. destruct Hfs as [_ Hg]. inversion Hg; subst.
      destruct (clean_parts g) as [Hgne Hgsp]; [assumption |].
      intros E. apply Hgsp.
      apply (last_in_tail (Py.chars f ++ flat_map (fun g => tab :: Py.chars g) fs' ++ [tab])
                          (Py.chars g) m z); [assumption |].
      rewrite <- E, <- !app_assoc. reflexivity. }
  unfold tidy. rewrite chars_concat in *.
  destruct (Py.chars f) as [| c t] eqn:Ef; [contradiction |].
  simpl app in *. apply andb_true_iff. split; [apply andb_true_iff; split |].
  - apply negb_true_iff, Hfsp. now left.
  - apply negb_true_iff.
    destruct (exists_last_or_nil (t ++ flat_map (fun g => tab :: Py.chars g) fs))
      as [E | (m & z & E)].
    + rewrite E. simpl. apply Hfsp. now left.
    + rewrite E, last_last. apply (Hlast (c :: m) z). now rewrite E.
  - apply forallb_forall. intros ch H. apply negb_true_iff. now apply Hin.
Qed.

Lemma counter_ok_range (n : Z) : counter_ok n = true -> 0 <= n < 2 ^ 64.
Proof. unfold counter_ok. lia. Qed.

Lemma dump_row_ok_parts (r : dump_row) :
  dump_row_ok r = true ->
  Forall (fun f => clean f = true) (dump_fields r)
  /\ (String.eqb match d_endpoint r with Some e => e | None => "(none)" end "(none)"
      = match d_endpoint r with Some _ => false | None => true end)
  /\ 0 <= d_handshake r /\ 0 <= d_rx r /\ 0 <= d_tx r.
Proof.
  unfold dump_row_ok. intros H.
  apply andb_true_iff in H. destruct H as [H Ctx].
  apply andb_true_iff in H. destruct H as [H Crx].
  apply andb_true_iff in H. destruct H as [H Chs].
  apply andb_true_iff in H. destruct H as [H C2].
  apply andb_true_iff in H. destruct H as [H Cka].
  apply andb_true_iff in H. destruct H as [H Ca].
  apply andb_true_iff in H. destruct H as [Ck Cp].
  apply counter_ok_range in Ctx, Crx, Chs.
  assert (He : clean match d_endpoint r with Some e => e | None => "(none)" end = true
               /\ String.eqb match d_endpoint r with Some e => e | None => "(none)" end
                    "(none)"
                  = match d_endpoint r with Some _ => false | None => true end).
  { destruct (d_endpoint r) as [e |]; [| split; reflexivity].
    apply andb_true_iff in C2. destruct C2 as [C2 C2']. split; [exact C2 |].
    now apply negb_true_iff. }
  split; [| split; [apply He | lia]].
  unfold dump_fields. repeat constructor; try assumption; try apply He;
    apply clean_str_of_int; lia.
Qed.

Lemma clean_no_tab (f : string) :
  clean f = true -> forallb (fun ch => negb (Ascii.eqb ch tab)) (Py.chars f) = true.
Proof.
  intros H. apply forallb_forall. intros ch Hin. apply negb_true_iff.
  now apply space_kinds, (proj2 (clean_parts f H)).
Qed.

Lemma peer_of_dump_line (r : dump_row) (peers : list (string * peer_info)) :
  dump_row_ok r = true ->
  peer_of_line (dump_line r) peers
  = Ok (dict_set (d_key r)
          (mk_peer_info (d_rx r) (d_tx r) (d_handshake r) (d_endpoint r)) peers).
Proof.
  intros Hok. destruct (dump_row_ok_parts r Hok) as (Hclean & Hend & Hh & Hrx & Htx).
  unfold peer_of_line, dump_line. rewrite split_concat; [| discriminate |].
  2:{ eapply Forall_impl; [| exact Hclean]. intros f. apply clean_no_tab. }
  cbn [dump_fields List.length Nat.ltb Nat.leb nth].
  rewrite Hend, !int_str_of_int by assumption.
  assert (Hhs : (if String.eqb (Py.str_of_int (d_handshake r)) "0" then Some 0
                 else Some (d_handshake r)) = Some (d_handshake r)).
  { destruct (String.eqb_spec (Py.str_of_int (d_handshake r)) "0") as [E |]; [| reflexivity].
    pose proof (int_str_of_int (d_handshake r) Hh) as Hi. rewrite E in Hi.
    change (Py.int "0") with (Some 0) in Hi. exact Hi. }
  rewrite Hhs. now destruct (d_endpoint r).
Qed.

Lemma peers_of_dump_lines (rows : list dump_row) :
  forall peers : list (string * peer_info),
    Forall (fun r => dump_row_ok r = true) rows ->
    NoDup (map d_key rows) ->
    (forall r, In r rows -> ~ In (d_key r) (dict_keys peers)) ->
    peers_of_lines (map dump_line rows) peers = Ok (peers ++ map peer_of_row rows)%list.
Proof.
  induction rows as [| r rows IH]; intros peers Hok ND Hnew.
  - simpl. now rewrite app_nil_r.
  - inversion Hok as [| ? ? Hr Hrest]; subst. simpl in ND.
    apply NoDup_cons_iff in ND. destruct ND as [Hnot ND].
    cbn [map peers_of_lines]. rewrite (peer_of_dump_line r peers Hr).
    rewrite dict_set_absent.
    2:{ apply dict_get_none_keys. apply Hnew. now left. }
    rewrite IH; [now rewrite <- app_assoc | assumption | assumption |].
    intros r' Hin. unfold dict_keys. rewrite map_app. intros H. apply in_app_or in H.
    destruct H as [H | [H | []]].
    + apply (Hnew r'); [now right | exact H].
    + simpl in H. apply Hnot. rewrite H. now apply in_map.
Qed.

(** X20: reading a dump.  For the text [wg show <interface> dump] prints
    (an interface line, then a line of eight tab-separated fields per
    peer, fields without whitespace, numbers in decimal below 2^64, keys
    distinct) [get_wg_peers] returns one entry per peer line, in the order
    of the lines: the key with the received and sent byte counts and the
    handshake time as numbers, and the endpoint, [None] for "(none)".  The
    interface line gives no entry. *)
Theorem get_wg_peers_reads_dump (header : string) (rows : list dump_row) :
  tidy header = true ->
  forallb dump_row_ok rows = true ->
  NoDup (map d_key rows) ->
  get_wg_peers (Output (dump_text header rows)) = Ok (map peer_of_row rows).
Proof.
  intros Hh Hrows ND. rewrite forallb_forall in Hrows.
  assert (Hok : Forall (fun r => dump_row_ok r = true) rows) by now apply Forall_forall.
  unfold get_wg_peers, dump_text. rewrite lines_of_unlines; [| discriminate |].
  - cbn [tl]. now apply (peers_of_dump_lines rows []).
  - constructor; [exact Hh |]. apply Forall_forall. intros l Hin.
    apply in_map_iff in Hin. destruct Hin as (r & <- & Hin).
    apply tidy_concat; [discriminate |]. now apply dump_row_ok_parts, Hrows.
Qed.

Definition dump_of_two : string :=
  dump_text (String.concat (String tab "") ["cHJpdmF0ZQ=="; "cHVibGlj"; "51820"; "off"])
    [mk_dump_row pkA "(none)" (Some "198.51.100.7:51820") "10.0.0.2/32" 43200 1024 2048 "off";
     mk_dump_row pkB "(none)" None "10.0.0.3/32" 0 0 0 "25"].

Lemma get_wg_peers_reads_dump_witness :
  get_wg_peers (Output dump_of_two)
  = Ok [(pkA, mk_peer_info 1024 2048 43200 (Some "198.51.100.7:51820"));
        (pkB, mk_peer_info 0 0 0 None)].
Proof.
  unfold dump_of_two. rewrite get_wg_peers_reads_dump.
  - reflexivity.
  - vm_compute. reflexivity.
  - vm_compute. reflexivity.
  - repeat constructor; simpl; intros H; repeat destruct H as [H | H]; try discriminate H;
      exact H.
Defined.

(** *** A tick without peers *)

(** The command failed, or printed no line after the interface line. *)
Definition no_peer_lines (cmd : wg_show) : bool :=
  match cmd with
  | Output output => (List.length (Text.splitlines (Text.strip output)) <=? 1)%nat
  | TimeoutExpired | CalledProcessError | FileNotFoundError => true
  end.

Lemma get_wg_peers_nothing (cmd : wg_show) :
  no_peer_lines cmd = true -> get_wg_peers cmd = Ok [].
Proof.
  destruct cmd as [output | | |]; try reflexivity. unfold no_peer_lines, get_wg_peers.
  intros H. apply Nat.leb_le in H.
  destruct (Text.splitlines (Text.strip output)) as [| l [| l2 ls]]; simpl in *;
    [reflexivity | reflexivity | lia].
Qed.

Lemma offline_pubkeys_nil (st : state) :
  offline_pubkeys [] st = dict_keys (user_sessions st).
Proof.
  unfold offline_pubkeys. simpl. induction (dict_keys (user_sessions st)) as [| k l IH];
    simpl; [reflexivity | now rewrite IH].
Qed.

(** X21: a tick without peers.  When the [wg] command fails (timeout,
    error exit, not installed) or prints nothing after the interface line,
    [get_wg_peers] answers the empty dict and the tick, run in a reachable
    state, treats every live session as disappeared: afterwards the live
    map is empty and every event has an end_time. *)
Theorem monitor_wireguard_without_peers
    (foreign_keys : bool) (c : clock) (max_age : option Z) (cmd : wg_show)
    (offline_iter : list string) (st : state) :
  reachable foreign_keys st ->
  no_peer_lines cmd = true ->
  Permutation offline_iter (dict_keys (user_sessions st)) ->
  get_wg_peers cmd = Ok []
  /\ fst (monitor_wireguard_on c max_age cmd offline_iter st) = Ok tt
  /\ user_sessions (snd (monitor_wireguard_on c max_age cmd offline_iter st)) = []
  /\ forall e : event,
       In e (events (db (snd (monitor_wireguard_on c max_age cmd offline_iter st)))) ->
       exists t : string, end_time e = Some t.
Proof.
  intros Hreach Hcmd Hperm. pose proof (get_wg_peers_nothing cmd Hcmd) as Hget.
  split; [exact Hget |]. unfold monitor_wireguard_on. rewrite Hget. cbn [fst snd].
  split; [reflexivity |].
  set (st' := monitor_wireguard c max_age [] offline_iter st).
  assert (Hreach' : reachable foreign_keys st').
  { apply (reach_step foreign_keys st st' Hreach). apply step_tick; [constructor |].
    now rewrite offline_pubkeys_nil. }
  assert (Hempty : user_sessions st' = []).
  { destruct (user_sessions st') as [| [k s] l] eqn:E; [reflexivity | exfalso].
    assert (Hin : In k (dict_keys (user_sessions
                     (fold_left (fun st k => handle_peer_offline c k "disappeared" st)
                                offline_iter st)))).
    { assert (Hk : In k (dict_keys (user_sessions st'))) by (rewrite E; now left).
      unfold st', monitor_wireguard in Hk. cbn [handle_snapshot fold_left] in Hk.
      destruct (Qlt_le_dec _ _); [destruct (update_system_stats_raises _) |]; exact Hk. }
    apply close_all_keys in Hin. destruct Hin as [Hin Hnot]. apply Hnot.
    apply (Permutation_in _ (Permutation_sym Hperm) Hin). }
  split; [exact Hempty |]. intros e Hin.
  destruct (end_time e) as [t |] eqn:Hend; [now exists t | exfalso].
  pose proof (Inv_reachable foreign_keys st' Hreach') as HI.
  assert (Hk : In (e_id e, e_user_id e, true) (ekeys (db st'))).
  { apply in_map_iff. exists e. split; [| assumption].
    apply is_open_none in Hend. now rewrite Hend. }
  destruct (inv_open _ _ _ _ _ HI _ _ Hk) as [k Hs]. rewrite Hempty in Hs. exact Hs.
Qed.

Lemma monitor_wireguard_without_peers_witness :
  List.length (user_sessions after_first_tick) = 1%nat
  /\ user_sessions (snd (monitor_wireguard_on (clock_at 43210 12 0 10) None TimeoutExpired
                           [pkA] after_first_tick)) = [].
Proof.
  split; [reflexivity |].
  refine (proj1 (proj2 (proj2 (monitor_wireguard_without_peers false
            (clock_at 43210 12 0 10) None TimeoutExpired [pkA] after_first_tick
            after_first_tick_reachable eq_refl _)))).
  vm_compute. apply Permutation_refl.
Defined.

(* ===================================================================== *)
(** ** statistics/stats_manager.py: the events history *)
(* ===================================================================== *)












(** *** Pages *)




Section Pages.
Context {A : Type}.




End Pages.






